(** * Stacklook (KernelShark plugin): evidence association, eligibility,
    hit-testing and stack-trace preview.

  A shallow embedding of the algorithmic core of the plugin
  (SlButton.cpp, SlPrevState.cpp, Stacklook.cpp, SlConfig.cpp,
  SlDetailedView.cpp, stacklook.c) together with the properties its
  design document states about it and further properties of the code.

  Conventions
  - a [std::string] is the list of its bytes; a position or a length is a
    [size_t], a [Z] in [0, 2^64), every arithmetic step on it is wrapped
    explicitly with [wrap]; [npos] is [2^64 - 1];
  - an exception ([std::out_of_range] of [substr]) is the result [None];
  - a pointer is an address in [Z], [nullptr] is [0]; entries live in a
    finite map from addresses to [kshark_entry] records;
  - what the host (libkshark) provides and the repository does not define
    is a field of the class [Host]. *)

From Stdlib Require Import ZArith Lia QArith Qabs Ascii.
From stdpp Require Import base option list gmap strings pretty.

Local Open Scope Z_scope.

(** ** std::string *)

Module StdString.

(** A string literal of the source. *)
Definition lit (s : string) : list ascii := String.list_ascii_of_string s.

Definition size_t_modulus : Z := 2 ^ 64.
Definition npos : Z := size_t_modulus - 1.
Definition wrap (z : Z) : Z := z mod size_t_modulus.

Definition size (s : list ascii) : Z := Z.of_nat (List.length s).

(** No string is longer than [PTRDIFF_MAX], so every size is a [size_t]
    below [npos]. *)
Definition max_size : Z := 2 ^ 63 - 1.
Definition valid (s : list ascii) : Prop := size s <= max_size.

Fixpoint starts_with (needle s : list ascii) : bool :=
  match needle, s with
  | [], _ => true
  | _ :: _, [] => false
  | c :: needle', d :: s' => Ascii.eqb c d && starts_with needle' s'
  end.

(** [find_from needle s i]: [s] is the text from index [i] on. *)
Fixpoint find_from (needle s : list ascii) (i : Z) : Z :=
  if starts_with needle s then i
  else match s with
       | [] => npos
       | _ :: s' => find_from needle s' (i + 1)
       end.

(** [s.find(needle, pos)]: the lowest index [>= pos] at which [needle]
    occurs, [npos] when there is none (also when [pos > size]). *)
Definition find (needle s : list ascii) (pos : Z) : Z :=
  if size s <? pos then npos
  else find_from needle (drop (Z.to_nat pos) s) pos.

(** [s.substr(pos, n)]: throws [std::out_of_range] when [pos > size],
    otherwise the [min n (size - pos)] characters from [pos]. *)
Definition substr (s : list ascii) (pos n : Z) : option (list ascii) :=
  if size s <? pos then None
  else Some (take (Z.to_nat (Z.min n (size s - pos))) (drop (Z.to_nat pos) s)).

Definition NUL : ascii := "000"%char.
Definition LF : ascii := "010"%char.

(** [s.c_str()] read back as a C string: the bytes before the first NUL. *)
Fixpoint c_str (s : list ascii) : list ascii :=
  match s with
  | [] => []
  | c :: s' => if Ascii.eqb c NUL then [] else c :: c_str s'
  end.

(** All indices at which [needle] occurs in [s], ascending; [s] is the
    text from index [i] on.  This is the reference the searches are
    specified against. *)
Fixpoint occurrences (needle s : list ascii) (i : Z) : list Z :=
  match s with
  | [] => []
  | _ :: s' =>
      if starts_with needle s then i :: occurrences needle s' (i + 1)
      else occurrences needle s' (i + 1)
  end.

(** The occurrences at or after [pos]. *)
Definition occurrences_from (needle s : list ascii) (pos : Z) : list Z :=
  occurrences needle (drop (Z.to_nat pos) s) pos.

End StdString.

(** ** QString, as far as the plugin uses it *)

Module QStr.
Import StdString.

(** A [QString] built from a C string is represented by that byte
    sequence (its length in UTF-16 units never exceeds the byte count). *)
Definition from_c_str (s : list ascii) : list ascii := c_str s.

(** [q.replace(ch, "")]: every [ch] removed. *)
Definition remove_char (ch : ascii) (q : list ascii) : list ascii :=
  filter (fun c => c ≠ ch) q.

End QStr.

(** ** The host: libkshark *)

Module KShark.

(** [struct kshark_entry]; [offset] and [ts] are never read by the plugin.
    [next] is the address of the next entry on the same CPU. *)
Record kshark_entry := {
  next : Z;
  visible : Z;
  stream_id : Z;
  event_id : Z;
  cpu : Z;
  pid : Z;
}.

(** [struct kshark_data_field_int64]: an entry pointer and an [int64_t]. *)
Record kshark_data_field_int64 := {
  entry : Z;
  field : Z;
}.

Definition nullptr : Z := 0.

(** [(kshark_entry* ) field] and [(int64_t) pointer] on a 64-bit machine. *)
Definition ptr_of_int64 (v : Z) : Z := v mod 2 ^ 64.
Definition int64_of_ptr (p : Z) : Z := (p + 2 ^ 63) mod 2 ^ 64 - 2 ^ 63.

(** What libkshark declares and the plugin uses: the filter masks, the
    draw actions, and the accessors that read an entry's record from the
    trace file (given the entry's address). *)
Class Host := {
  KS_PLUGIN_UNTOUCHED_MASK : Z;
  KS_EVENT_VIEW_FILTER_MASK : Z;
  KS_GRAPH_VIEW_FILTER_MASK : Z;
  KSHARK_CPU_DRAW : Z;
  KSHARK_TASK_DRAW : Z;
  kshark_get_pid : Z -> Z;
  kshark_get_event_name : Z -> string;
  kshark_get_info : Z -> list ascii;
}.

(** The same-CPU chain from an address: the entries reached through
    [next] until [nullptr]. *)
Inductive chain (mem : gmap Z kshark_entry) : Z -> list (Z * kshark_entry) -> Prop :=
| chain_end : chain mem nullptr []
| chain_next p e l :
    p <> nullptr -> mem !! p = Some e -> chain mem (next e) l ->
    chain mem p ((p, e) :: l).

End KShark.

(** ** SlConfig.cpp: the configuration object *)

Module SlConfig.
Import KShark.

(** [depth_t] is [uint32_t]; [event_meta_t] is [(allowed, depth)]. *)
Record SlConfig := {
  _histo_entries_limit : Z;
  _use_task_colors : bool;
  _events_meta : gmap string (bool * Z);
}.

Definition initial : SlConfig := {|
  _histo_entries_limit := 10000;
  _use_task_colors := false;
  _events_meta := {[ "sched/sched_switch" := (true, 3);
                     "sched/sched_waking" := (true, 3) ]};
|}.

Definition get_histo_limit (cfg : SlConfig) : Z := _histo_entries_limit cfg.

Definition get_stack_offset (cfg : SlConfig) (evt_name : string) : Z :=
  match _events_meta cfg !! evt_name with
  | None => 0
  | Some meta => meta.2
  end.

Definition is_event_allowed `{Host} (cfg : SlConfig) (entry : Z) : bool :=
  let evt_name := kshark_get_event_name entry in
  match _events_meta cfg !! evt_name with
  | None => false
  | Some meta => meta.1
  end.

End SlConfig.

(** ** SlPrevState.cpp *)

Module SlPrevState.
Import StdString KShark.

(** [LETTER_TO_NAME], a [std::map<char, const char*>]. *)
Definition LETTER_TO_NAME : gmap ascii (list ascii) :=
  list_to_map
    [ ("S"%char, lit "sleeping");
      ("D"%char, lit "uninterruptible (disk) sleep");
      ("R"%char, lit "running");
      ("I"%char, lit "idle");
      ("T"%char, lit "stopped");
      ("t"%char, lit "tracing stop");
      ("X"%char, lit "dead");
      ("Z"%char, lit "zombie");
      ("P"%char, lit "parked") ].

Definition state_marker : list ascii := lit " ==>".

Definition get_switch_prev_state `{Host} (entry : Z) : option (list ascii) :=
  let info_as_str := kshark_get_info entry in
  let start := find state_marker info_as_str 0 in
  let prev_state := substr info_as_str (wrap (start - 1)) 1 in
  prev_state.

(** [ps_base[0]] of an empty string is the terminating NUL. *)
Definition get_longer_prev_state `{Host} (entry : Z) : option (list ascii) :=
  ps_base ← get_switch_prev_state entry;
  let c := default NUL (head ps_base) in
  let final_string :=
    match LETTER_TO_NAME !! c with
    | Some name => name
    | None => lit "unknown"
    end in
  Some (ps_base ++ lit " - " ++ final_string).

End SlPrevState.

(** ** SlButton.cpp: the stack-trace preview and the hit test *)

Module SlButton.
Import StdString KShark.

Definition LABEL_LIMIT : Z := 44.

Definition marker : list ascii := lit "=>".
Definition name_marker : list ascii := lit "=> ".
Definition addr_marker : list ascii := lit " (".
Definition ellipsis : list ascii := lit "...".
Definition placeholder : list ascii := lit "-".

(** [_prettify_stack_item].  The [replace] of the source acts on the
    still empty [prettified], which the following assignment
    overwrites. *)
Definition _prettify_stack_item (to_prettify : list ascii) : option (list ascii) :=
  let name_start := wrap (find name_marker to_prettify 0 + 3) in
  let name_end := find addr_marker to_prettify name_start in
  let num_of_chars := wrap (name_end - name_start) in
  let prettified : list ascii := [] in
  let prettified := QStr.remove_char LF prettified in
  if LABEL_LIMIT <? num_of_chars then
    sub ← substr to_prettify name_start LABEL_LIMIT;
    let prettified := QStr.from_c_str (sub ++ ellipsis) in
    Some prettified
  else
    sub ← substr to_prettify name_start num_of_chars;
    let prettified := QStr.from_c_str sub in
    Some prettified.

(** The loop of [_get_stack_start_pos]; [todo] is [stack_offset - counter],
    the iterations still to run ([counter] is not read by the body). *)
Fixpoint skip_markers (todo : nat) (trace_str : list ascii) (str_pos : Z) : Z :=
  match todo with
  | O => str_pos
  | S todo' =>
      let str_pos := find marker trace_str str_pos in
      if str_pos =? npos then npos
      else
        let str_pos := wrap (str_pos + 1) in
        skip_markers todo' trace_str str_pos
  end.

(** [stack_offset] is an [int16_t]; the [int64_t] counter starts at 0, so
    a non-positive offset runs the body zero times. *)
Definition _get_stack_start_pos (stack_offset : Z) (trace_str : list ascii) : Z :=
  skip_markers (Z.to_nat stack_offset) trace_str 0.

(** [top_3_stack_t]: an array of three labels. *)
Definition empty_top_3 : list (list ascii) := [placeholder; placeholder; placeholder].

(** The loop of [_get_top_three_from_start]: one iteration per unit of
    [fuel], [counter] as the source has it (set to 3 on the last item,
    incremented at the end of every iteration). *)
Fixpoint top_three_loop (fuel : nat) (trace_str : list ascii)
    (counter str_pos : Z) (out_array : list (list ascii)) : option (list (list ascii)) :=
  match fuel with
  | O => Some out_array
  | S fuel' =>
      if counter <? 3 then
        let content_start := find marker trace_str str_pos in
        if content_start =? npos then Some out_array
        else
          let content_end := find marker trace_str (wrap (content_start + 1)) in
          let '(content_end, counter) :=
            if content_end =? npos then (wrap (size trace_str - 1), 3)
            else (content_end, counter) in
          let str_pos := content_end in
          let num_of_chars := wrap (content_end - content_start) in
          item_as_str ← substr trace_str content_start num_of_chars;
          let array_pos := if counter =? 3 then 2 else counter in
          item ← _prettify_stack_item item_as_str;
          top_three_loop fuel' trace_str (counter + 1) str_pos
            (<[Z.to_nat array_pos := item]> out_array)
      else Some out_array
  end.

Definition _get_top_three_from_start (str_pos : Z) (trace_str : list ascii)
    : option (list (list ascii)) :=
  top_three_loop 3 trace_str 0 str_pos empty_top_3.

(** Conversion of a [depth_t] ([uint32_t]) to [int16_t]. *)
Definition int16_of (d : Z) : Z := (d + 2 ^ 15) mod 2 ^ 16 - 2 ^ 15.

(** [stacktrace] is the text of the C string the host hands over. *)
Definition _get_top_three_stack_items (cfg : SlConfig.SlConfig)
    (stacktrace : list ascii) (evt_name : string) : option (list (list ascii)) :=
  let trace_str := stacktrace in
  let stack_offset := int16_of (SlConfig.get_stack_offset cfg evt_name) in
  let str_pos := _get_stack_start_pos stack_offset trace_str in
  if str_pos =? npos then Some empty_top_3
  else _get_top_three_from_start str_pos trace_str.

(** *** The hit test *)

(** [struct ksplot_point]: two [int]s. *)
Record ksplot_point := { x : Z; y : Z }.

Definition INT_MIN : Z := - 2 ^ 31.
Definition INT_MAX : Z := 2 ^ 31 - 1.

(** The value of an [int] expression; signed overflow has no defined
    result. *)
Definition int (z : Z) : option Z :=
  if (INT_MIN <=? z) && (z <=? INT_MAX) then Some z else None.

(** [_trigon_area].  The [int] sum is converted to [double] and halved;
    an [int] halved is a binary64 number, and so is a sum of three of
    them (a multiple of 1/2 below 2^33), so the [double]s of this
    computation are written as the rationals they are.  [abs] is the
    floating-point overload. *)
Definition _trigon_area (a b c : ksplot_point) : option Q :=
  d1 ← int (y b - y c); t1 ← int (x a * d1);
  d2 ← int (y c - y a); t2 ← int (x b * d2);
  d3 ← int (y a - y b); t3 ← int (x c * d3);
  s12 ← int (t1 + t2); s ← int (s12 + t3);
  Some (Qabs (inject_Z s / 2)).

(** [std::numeric_limits<double>::max()]. *)
Definition DBL_MAX : Q := inject_Z ((2 ^ 53 - 1) * 2 ^ 971).

(** [SlTriangleButton::distance]; [a b c] are the points 0, 1, 2 of the
    outline triangle. *)
Definition distance (a b c : ksplot_point) (px py : Z) : option Q :=
  let p := {| x := px; y := py |} in
  triangle_area ← _trigon_area a b c;
  pbc_area ← _trigon_area p b c;
  apc_area ← _trigon_area a p c;
  abp_area ← _trigon_area a b p;
  let p_areas_sum := (pbc_area + apc_area + abp_area)%Q in
  Some (if Qeq_bool triangle_area p_areas_sum then 0%Q else DBL_MAX).

End SlButton.

(** ** stacklook.h and Stacklook.cpp *)

Module Stacklook.
Import KShark.

(** [struct plugin_stacklook_ctx]; [collected_events] is a pointer to the
    container ([None] is the null pointer), a container is its array of
    fields. *)
Record plugin_stacklook_ctx := {
  sswitch_event_id : Z;
  kstack_event_id : Z;
  kstacks_exist : bool;
  searched_for_kstacks : bool;
  swaking_event_id : Z;
  collected_events : option (list kshark_data_field_int64);
}.

(** The contexts the plugin keeps, one per stream id; [__get_context]
    returns the null pointer ([None]) for a stream without one. *)
Definition __get_context (contexts : gmap Z plugin_stacklook_ctx) (sd : Z)
    : option plugin_stacklook_ctx :=
  contexts !! sd.

(** [_select_events] (stacklook.c): an entry of a supported event is
    appended to the container of its stream with the field -1, which the
    scan replaces by the address of the kernel-stack entry if it finds
    one.  [sched_switch_id] and [sched_wake_id] are the file's statics;
    [e] is the entry at [entry]. *)
Definition _select_events (sched_switch_id sched_wake_id : Z)
    (contexts : gmap Z plugin_stacklook_ctx) (stream : Z)
    (entry : Z) (e : kshark_entry) : gmap Z plugin_stacklook_ctx :=
  match __get_context contexts stream with
  | None => contexts
  | Some sl_ctx =>
      match collected_events sl_ctx with
      | None => contexts
      | Some sl_ctx_collected_events =>
          let is_supported_event :=
            (event_id e =? sched_switch_id) || (event_id e =? sched_wake_id) in
          if is_supported_event then
            <[stream := {| sswitch_event_id := sswitch_event_id sl_ctx;
                           kstack_event_id := kstack_event_id sl_ctx;
                           kstacks_exist := kstacks_exist sl_ctx;
                           searched_for_kstacks := searched_for_kstacks sl_ctx;
                           swaking_event_id := swaking_event_id sl_ctx;
                           collected_events :=
                             Some (sl_ctx_collected_events
                                   ++ [ {| entry := entry; field := -1 |} ]) |}]>
              contexts
          else contexts
      end
  end.

Section WithHost.
Context `{Host}.

(** The loop of [get_kstack_entry], entered with [e] the entry at
    [kstack_entry]; [fuel] bounds the links followed.  [None]: no result
    (more than [fuel] links, or a link that leaves the mapped entries). *)
Fixpoint kstack_walk (fuel : nat) (mem : gmap Z kshark_entry)
    (ctx : plugin_stacklook_ctx) (relevant_owner_pid : Z)
    (kstack_entry : Z) (e : kshark_entry) : option Z :=
  let is_kstack := event_id e =? kstack_event_id ctx in
  let is_correct_task := relevant_owner_pid =? pid e in
  if is_kstack && is_correct_task then Some kstack_entry
  else
    let kstack_entry := next e in
    if kstack_entry =? nullptr then Some nullptr
    else
      match fuel with
      | O => None
      | S fuel' =>
          e' ← mem !! kstack_entry;
          kstack_walk fuel' mem ctx relevant_owner_pid kstack_entry e'
      end.

Definition get_kstack_entry (fuel : nat) (mem : gmap Z kshark_entry)
    (contexts : gmap Z plugin_stacklook_ctx) (kstack_owner : Z) : option Z :=
  let kstack_entry := kstack_owner in
  if kstack_entry =? nullptr then Some nullptr
  else
    owner ← mem !! kstack_owner;
    match __get_context contexts (stream_id owner) with
    | None => Some nullptr
    | Some ctx =>
        let relevant_owner_pid :=
          if Z.land (visible owner) KS_PLUGIN_UNTOUCHED_MASK =? 0
          then kshark_get_pid kstack_owner
          else pid owner in
        kstack_walk fuel mem ctx relevant_owner_pid kstack_entry owner
    end.

(** The loop of [search_for_kstacks] over the container's fields. *)
Fixpoint search_loop (fuel : nat) (mem : gmap Z kshark_entry)
    (contexts : gmap Z plugin_stacklook_ctx)
    (data : list kshark_data_field_int64) (found_at_least_one : bool)
    : option (list kshark_data_field_int64 * bool) :=
  match data with
  | [] => Some ([], found_at_least_one)
  | sl_relevant :: rest =>
      kstack_entry ← get_kstack_entry fuel mem contexts (entry sl_relevant);
      let '(sl_relevant, found_at_least_one) :=
        if kstack_entry =? nullptr then (sl_relevant, found_at_least_one)
        else ({| entry := entry sl_relevant;
                 field := int64_of_ptr kstack_entry |}, true) in
      '(rest, found_at_least_one) ← search_loop fuel mem contexts rest found_at_least_one;
      Some (sl_relevant :: rest, found_at_least_one)
  end.

(** [search_for_kstacks]: the container after the scan, and the flag. *)
Definition search_for_kstacks (fuel : nat) (mem : gmap Z kshark_entry)
    (contexts : gmap Z plugin_stacklook_ctx)
    (dct : option (list kshark_data_field_int64))
    : option (option (list kshark_data_field_int64) * bool) :=
  match dct with
  | None => Some (None, false)
  | Some data =>
      if Z.of_nat (length data) =? 0 then Some (dct, false)
      else
        '(data, found_at_least_one) ← search_loop fuel mem contexts data false;
        Some (Some data, found_at_least_one)
  end.

(** [_check_function_general]; [entry] is dereferenced once both
    pointers are known to be non-null. *)
Definition _check_function_general (mem : gmap Z kshark_entry)
    (cfg : SlConfig.SlConfig) (entry kstack_entry : Z)
    (ctx : plugin_stacklook_ctx) : option bool :=
  if (entry =? nullptr) || (kstack_entry =? nullptr) then Some false
  else
    e ← mem !! entry;
    let correct_event_id :=
      (sswitch_event_id ctx =? event_id e) || (swaking_event_id ctx =? event_id e) in
    let is_config_allowed := SlConfig.is_event_allowed cfg entry in
    let is_visible_event :=
      negb (Z.land (visible e) KS_EVENT_VIEW_FILTER_MASK =? 0) in
    let is_visible_graph :=
      negb (Z.land (visible e) KS_GRAPH_VIEW_FILTER_MASK =? 0) in
    Some (correct_event_id && is_config_allowed
          && is_visible_event && is_visible_graph).

(** The two draw modes of [draw_stacklook_objects]. *)
Inductive draw_mode := TaskDraw | CpuDraw.

(** The [check_func] closures of [draw_stacklook_objects]: [val] is the
    task id (task draw) or the CPU id (CPU draw). *)
Definition check_func (mode : draw_mode) (mem : gmap Z kshark_entry)
    (cfg : SlConfig.SlConfig) (ctx : plugin_stacklook_ctx) (val : Z)
    (data_c : list kshark_data_field_int64) (t : nat) : option bool :=
  r ← data_c !! t;
  let entry := entry r in
  let kstack_ptr := ptr_of_int64 (field r) in
  if entry =? nullptr then Some false
  else
    e ← mem !! entry;
    let correct :=
      match mode with
      | TaskDraw => pid e =? val
      | CpuDraw => cpu e =? val
      end in
    general ← _check_function_general mem cfg entry kstack_ptr ctx;
    Some (general && correct).

(** A call of the draw handler: the stream, the task or CPU id, the draw
    action and the histogram's [tot_count]. *)
Record draw_request := {
  sd : Z;
  val : Z;
  draw_action : Z;
  tot_count : Z;
}.

(** What a call did: whether [search_for_kstacks] ran, and the mode
    handed to [_draw_stacklook_buttons] (if it got that far). *)
Record draw_outcome := {
  scan_ran : bool;
  buttons : option draw_mode;
}.

Definition nothing_drawn : draw_outcome := {| scan_ran := false; buttons := None |}.

(** [draw_stacklook_objects] on the plugin's contexts; the histogram
    limit and count are not negative.  [None]: no result (the context
    pointer is null when dereferenced, or the scan has none).  The
    contexts returned are those the handler's own statements leave.  The
    last step, [_draw_stacklook_buttons], hands the container of the
    stream to the host's plotting routine [eventFieldPlotMin]; it is
    recorded as the mode in [buttons], and what the host does with the
    container is not part of the model. *)
Definition draw_stacklook_objects (fuel : nat) (mem : gmap Z kshark_entry)
    (cfg : SlConfig.SlConfig) (contexts : gmap Z plugin_stacklook_ctx)
    (req : draw_request) : option (gmap Z plugin_stacklook_ctx * draw_outcome) :=
  let ctx := __get_context contexts (sd req) in
  let HISTO_ENTRIES_LIMIT := SlConfig.get_histo_limit cfg in
  if negb ((draw_action req =? KSHARK_CPU_DRAW) || (draw_action req =? KSHARK_TASK_DRAW))
  then Some (contexts, nothing_drawn)
  else if HISTO_ENTRIES_LIMIT <? tot_count req then Some (contexts, nothing_drawn)
  else
    ctx ← ctx;
    match collected_events ctx with
    | None => Some (contexts, nothing_drawn)
    | Some _ =>
        '(ctx, scanned) ←
          (if negb (searched_for_kstacks ctx) then
             '(plugin_data, found) ←
               search_for_kstacks fuel mem contexts (collected_events ctx);
             Some ({| sswitch_event_id := sswitch_event_id ctx;
                      kstack_event_id := kstack_event_id ctx;
                      kstacks_exist := found;
                      searched_for_kstacks := true;
                      swaking_event_id := swaking_event_id ctx;
                      collected_events := plugin_data |}, true)
           else Some (ctx, false));
        let contexts := <[sd req := ctx]> contexts in
        if negb (kstacks_exist ctx)
        then Some (contexts, {| scan_ran := scanned; buttons := None |})
        else
          let mode :=
            if draw_action req =? KSHARK_TASK_DRAW then TaskDraw else CpuDraw in
          Some (contexts, {| scan_ran := scanned; buttons := Some mode |})
    end.

(** A sequence of draw requests; a call without result ends the run. *)
Fixpoint run (fuel : nat) (mem : gmap Z kshark_entry) (cfg : SlConfig.SlConfig)
    (contexts : gmap Z plugin_stacklook_ctx) (reqs : list draw_request)
    : gmap Z plugin_stacklook_ctx * list draw_outcome :=
  match reqs with
  | [] => (contexts, [])
  | req :: reqs' =>
      match draw_stacklook_objects fuel mem cfg contexts req with
      | None => (contexts, [])
      | Some (contexts, out) =>
          let '(contexts, outs) := run fuel mem cfg contexts reqs' in
          (contexts, out :: outs)
      end
  end.

End WithHost.

End Stacklook.

(** ** The preview as the design document words it *)

Module PreviewSpec.
Import StdString SlButton.

(** The frame markers of a trace, by position. *)
Definition markers (text : list ascii) : list Z := occurrences marker text 0.

(** The label of the frame that starts at marker [p] and is followed by
    the marker at [q]. *)
Definition frame (text : list ascii) (p q : Z) : option (list ascii) :=
  item ← substr text p (q - p); _prettify_stack_item item.

(** The label of the last frame of the text, starting at marker [p]: the
    rest of the text but its final character. *)
Definition last_frame (text : list ascii) (p : Z) : option (list ascii) :=
  item ← substr text p (size text - 1 - p); _prettify_stack_item item.

(** The three slots, given the markers still ahead: filled in order,
    except that the last frame of the text goes to slot 2. *)
Definition top_three_spec (text : list ascii) (ahead : list Z)
    : option (list (list ascii)) :=
  match ahead with
  | [] => Some [placeholder; placeholder; placeholder]
  | [p0] =>
      f0 ← last_frame text p0;
      Some [placeholder; placeholder; f0]
  | [p0; p1] =>
      f0 ← frame text p0 p1; f1 ← last_frame text p1;
      Some [f0; placeholder; f1]
  | [p0; p1; p2] =>
      f0 ← frame text p0 p1; f1 ← frame text p1 p2; f2 ← last_frame text p2;
      Some [f0; f1; f2]
  | p0 :: p1 :: p2 :: p3 :: _ =>
      f0 ← frame text p0 p1; f1 ← frame text p1 p2; f2 ← frame text p2 p3;
      Some [f0; f1; f2]
  end.


End PreviewSpec.

(** ** The association and the filter as the design document words them *)

Module StacklookSpec.
Import KShark Stacklook.

Section WithHost.
Context `{Host}.

(** The owner's effective process id: its own [pid] field when the entry
    is untouched (the plugin-untouched bit of [visible] is set), the
    host's lookup otherwise. *)
Definition effective_pid (owner_ptr : Z) (owner : kshark_entry) : Z :=
  if Z.land (visible owner) KS_PLUGIN_UNTOUCHED_MASK =? 0
  then kshark_get_pid owner_ptr
  else pid owner.

(** A kernel-stack entry of the task [task_pid]. *)
Definition is_kstack_of (ctx : plugin_stacklook_ctx) (task_pid : Z)
    (pe : Z * kshark_entry) : bool :=
  (event_id pe.2 =? kstack_event_id ctx) && (task_pid =? pid pe.2).

(** The address of the first such entry of a chain, [nullptr] if none. *)
Definition first_match (ctx : plugin_stacklook_ctx) (task_pid : Z)
    (l : list (Z * kshark_entry)) : Z :=
  match List.find (is_kstack_of ctx task_pid) l with
  | Some pe => pe.1
  | None => nullptr
  end.

(** The policy of an event type, looked up by its name: whether markers
    are allowed for it.  An event type without policy is not allowed. *)
Definition policy_allows (cfg : SlConfig.SlConfig) (evt_name : string) : bool :=
  match SlConfig._events_meta cfg !! evt_name with
  | Some (true, _) => true
  | _ => false
  end.

(** Condition (1) as the document words it: the entry is there, and so
    is its evidence, the kernel-stack entry that the association finds
    for it. *)
Definition has_evidence (fuel : nat) (mem : gmap Z kshark_entry)
    (contexts : gmap Z plugin_stacklook_ctx) (r : kshark_data_field_int64) : bool :=
  negb (entry r =? nullptr)
  && match get_kstack_entry fuel mem contexts (entry r) with
     | Some kstack_entry => negb (kstack_entry =? nullptr)
     | None => false
     end.

(** The five conditions of eligibility, in the order the document lists
    them, for the field [r] of the container; those that read the entry
    are false when there is none.  The first is the test the check makes
    of it: the entry and the pointer held in the field are not null. *)
Definition conditions (mode : draw_mode) (mem : gmap Z kshark_entry)
    (cfg : SlConfig.SlConfig) (ctx : plugin_stacklook_ctx) (val : Z)
    (r : kshark_data_field_int64) : list bool :=
  let on_entry (f : kshark_entry -> bool) :=
    match mem !! entry r with Some e => f e | None => false end in
  [ negb (entry r =? nullptr) && negb (ptr_of_int64 (field r) =? nullptr);
    on_entry (fun e => (sswitch_event_id ctx =? event_id e)
                       || (swaking_event_id ctx =? event_id e));
    on_entry (fun _ => policy_allows cfg (kshark_get_event_name (entry r)));
    on_entry (fun e => negb (Z.land (visible e) KS_EVENT_VIEW_FILTER_MASK =? 0)
                       && negb (Z.land (visible e) KS_GRAPH_VIEW_FILTER_MASK =? 0));
    on_entry (fun e => match mode with
                       | TaskDraw => pid e =? val
                       | CpuDraw => cpu e =? val
                       end) ].

End WithHost.

(** All the conditions of a list hold. *)
Definition all_hold (conds : list bool) : bool := forallb id conds.

(** The [searched_for_kstacks] flag of a stream ([false] without context). *)
Definition searched_flag (contexts : gmap Z plugin_stacklook_ctx) (stream : Z) : bool :=
  match contexts !! stream with
  | Some ctx => searched_for_kstacks ctx
  | None => false
  end.

(** How many of the calls of a run, on the stream, ran the scan. *)
Definition scans_on (stream : Z) (reqs : list draw_request)
    (outs : list draw_outcome) : nat :=
  length (filter (fun ro => Is_true ((sd ro.1 =? stream) && scan_ran ro.2))
                 (zip reqs outs)).

End StacklookSpec.

(** ** The hit test as the design document words it *)

Module GeometrySpec.
Import SlButton.

(** Twice the signed area of a triangle (the shoelace sum). *)
Definition shoelace (a b c : ksplot_point) : Z :=
  x a * (y b - y c) + x b * (y c - y a) + x c * (y a - y b).

(** The unsigned area. *)
Definition area (a b c : ksplot_point) : Q :=
  Qabs (inject_Z (shoelace a b c) / 2).

(** Plot coordinates: screen positions, far inside the range in which
    the [int] arithmetic of the area cannot overflow. *)
Definition plot_limit : Z := 2 ^ 14.
Definition in_plot (p : ksplot_point) : Prop :=
  - plot_limit <= x p <= plot_limit /\ - plot_limit <= y p <= plot_limit.





End GeometrySpec.

(** ** Sample data *)

Module Samples.
Import StdString KShark Stacklook SlButton.

(** The masks and draw actions with the values libkshark.h gives them,
    and a stream with one task switch (at address 16) followed by the
    stack of another task (32) and then its own (48). *)
Definition sample_info (entry : Z) : list ascii :=
  if entry =? 16 then lit "bash:100 [120] S ==> swapper/0:0 [120]"
  else if entry =? 64 then lit " ==> ==>"
  else lit "<stack trace >".

Definition sample_host : Host := {|
  KS_PLUGIN_UNTOUCHED_MASK := 128;
  KS_EVENT_VIEW_FILTER_MASK := 4;
  KS_GRAPH_VIEW_FILTER_MASK := 2;
  KSHARK_CPU_DRAW := 1;
  KSHARK_TASK_DRAW := 2;
  kshark_get_pid := fun _ => 100;
  kshark_get_event_name := fun _ => "sched/sched_switch";
  kshark_get_info := sample_info;
|}.

Definition switch_entry : kshark_entry :=
  {| next := 32; visible := 255; stream_id := 0; event_id := 5; cpu := 1; pid := 100 |}.
Definition other_stack : kshark_entry :=
  {| next := 48; visible := 255; stream_id := 0; event_id := 9; cpu := 1; pid := 200 |}.
Definition own_stack : kshark_entry :=
  {| next := 0; visible := 255; stream_id := 0; event_id := 9; cpu := 1; pid := 100 |}.

Definition sample_mem : gmap Z kshark_entry :=
  {[ 16 := switch_entry; 32 := other_stack; 48 := own_stack ]}.

Definition sample_ctx : plugin_stacklook_ctx := {|
  sswitch_event_id := 5;
  kstack_event_id := 9;
  kstacks_exist := false;
  searched_for_kstacks := false;
  swaking_event_id := 6;
  collected_events := Some [ {| entry := 16; field := -1 |} ];
|}.

Definition sample_contexts : gmap Z plugin_stacklook_ctx := {[ 0 := sample_ctx ]}.

(** A second task switch (at address 80, task 300) that no kernel stack
    follows, and the contexts after both switches were collected. *)
Definition lone_switch : kshark_entry :=
  {| next := 0; visible := 255; stream_id := 0; event_id := 5; cpu := 2; pid := 300 |}.

Definition two_switch_mem : gmap Z kshark_entry :=
  <[80 := lone_switch]> sample_mem.

Definition two_switch_contexts : gmap Z plugin_stacklook_ctx :=
  _select_events 5 6 sample_contexts 0 80 lone_switch.

Definition lone_task_draw : draw_request :=
  {| sd := 0; val := 300; draw_action := 2; tot_count := 500 |}.

Definition task_draw : draw_request :=
  {| sd := 0; val := 100; draw_action := 2; tot_count := 500 |}.
Definition cpu_draw : draw_request :=
  {| sd := 0; val := 1; draw_action := 1; tot_count := 500 |}.

(** A two-frame trace, as trace-cmd prints it. *)
Definition two_frames : list ascii :=
  lit "=> schedule (ffffffff81a0)" ++ [LF] ++ lit "=> do_idle (ffffffff81b0)" ++ [LF].

(** The default configuration skips 3 frames; a configuration that
    skips none. *)
Definition no_skip : SlConfig.SlConfig := {|
  SlConfig._histo_entries_limit := 10000;
  SlConfig._use_task_colors := false;
  SlConfig._events_meta := {[ "sched/sched_switch" := (true, 0) ]};
|}.



(** The button drawn at the base point (100, 100): the points 0, 1, 2 of
    its triangle. *)
Definition button_a : SlButton.ksplot_point := {| SlButton.x := 76; SlButton.y := 73 |}.
Definition button_b : SlButton.ksplot_point := {| SlButton.x := 124; SlButton.y := 73 |}.
Definition button_c : SlButton.ksplot_point := {| SlButton.x := 100; SlButton.y := 98 |}.

End Samples.
(** ** SlDetailedView.cpp: the text of the detailed view *)

Module SlDetailedView.
Import StdString.

Definition stack_header : list ascii := lit "<stack trace >".
Definition top_mark : list ascii := lit "(top)".

(** Conversion of a [size_t] to [int]: the low 32 bits, signed.  The
    conversion back to [size_t] is [wrap]. *)
Definition int_of_size_t (v : Z) : Z := (v + 2 ^ 31) mod 2 ^ 32 - 2 ^ 31.

(** [_prettify_data]; [data] is the text of the C string handed over.
    [find_first_of] of a single character is [find] of that character;
    [substr] is called with its default length [npos]. *)
Definition _prettify_data (data : list ascii) : option (list ascii) :=
  let base_string := data in
  if find stack_header base_string 0 =? npos then Some (QStr.from_c_str data)
  else
    let first_newline := int_of_size_t (find [LF] base_string 0) in
    sub ← substr base_string (wrap first_newline) npos;
    let new_string := top_mark ++ sub in
    Some (QStr.from_c_str new_string).

(** [q.split(sep)] of Qt, empty parts kept: the pieces between the
    separators, one more than there are separators. *)
Fixpoint split (sep : ascii) (q : list ascii) : list (list ascii) :=
  match q with
  | [] => [[]]
  | c :: q' =>
      let parts := split sep q' in
      if Ascii.eqb c sep then [] :: parts
      else (c :: default [] (head parts)) :: tail parts
  end.

(** What the constructor of [SlDetailedView] puts on the window: the two
    labels, the text of the raw view and the items of the list view. *)
Record view := {
  _which_task : list ascii;
  _specific_entry_info : list ascii;
  _raw_view : list ascii;
  _list_view : list (list ascii);
}.

Definition SlDetailedView (task_name specific_info data : list ascii) : option view :=
  new_data ← _prettify_data data;
  Some {| _which_task :=
            lit "Kernel stack for task '" ++ QStr.from_c_str task_name ++ lit "':";
          _specific_entry_info := QStr.from_c_str specific_info;
          _raw_view := new_data;
          _list_view := split LF new_data |}.

End SlDetailedView.

(** ** Stacklook.cpp and SlButton.cpp: the button, its making and its events *)

Module SlTriangleButton.
Import StdString KShark SlPrevState SlButton Stacklook.

(** What the events of a button read from libkshark besides [Host]: the
    task name of an entry, its event id as the trace file has it, and
    whether [kshark_get_info] returns the null pointer for it (its text is
    then not read). *)
Class HostText := {
  kshark_get_task : Z -> list ascii;
  kshark_get_event_id : Z -> Z;
  kshark_info_is_null : Z -> bool;
}.

(** [KsPlot::Color]: three [uint8_t]. *)
Record Color := { r : Z; g : Z; b : Z }.

(** [KsPlot::Triangle], as far as the plugin sets it.  [_fill] is [None]
    as long as the constructor's value was not replaced by [setFill]. *)
Record Triangle := {
  point0 : ksplot_point;
  point1 : ksplot_point;
  point2 : ksplot_point;
  _color : Color;
  _fill : option bool;
}.

(** [KsPlot::TextBox]: the text and its position.  The colour of the text
    (black or white, chosen by a single-precision intensity of the fill
    colour) and the font are not part of this model. *)
Record TextBox := {
  _text_string : list ascii;
  _pos : ksplot_point;
}.

Record SlTriangleButton := {
  _event_entry : Z;
  _kstack_entry : Z;
  _outline_triangle : Triangle;
  _inner_triangle : Triangle;
  _text : TextBox;
}.

Definition TRIANGLE_HALFWIDTH : Z := 24.
Definition TRIANGLE_HEIGHT : Z := 27.
Definition BUTTON_TEXT_OFFSET : Z := 14.
Definition STACK_BUTTON_TEXT : list ascii := lit "STACK".

(** [_get_task_color]; [task_colors] is the colour table of the host's GL
    widget. *)
Definition _get_task_color (task_colors : gmap Z Color) (task_pid : Z)
    (default_color : Color) : Color :=
  match task_colors !! task_pid with
  | Some triangle_color => triangle_color
  | None => default_color
  end.

Section WithHost.
Context `{Host}.

(** [_make_sl_button].  [base_point] is the host's point of the bin,
    [data] the vector of fields ([data[0]] is read), [col] the colour the
    host passes on, [button_outline_col] the outline colour of the
    configuration.  The coordinates are [int]s. *)
Definition _make_sl_button (mem : gmap Z kshark_entry) (cfg : SlConfig.SlConfig)
    (button_outline_col : Color) (task_colors : gmap Z Color)
    (base_point : ksplot_point) (data : list kshark_data_field_int64)
    (col : Color) : option SlTriangleButton :=
  d ← data !! 0%nat;
  let event_entry := entry d in
  let kstack_entry := ptr_of_int64 (field d) in
  let x := x base_point in
  let y := y base_point in
  ax ← int (x - TRIANGLE_HALFWIDTH); ay ← int (y - TRIANGLE_HEIGHT);
  bx ← int (x + TRIANGLE_HALFWIDTH); by_ ← int (y - TRIANGLE_HEIGHT);
  cy ← int (y - 2);
  let a := {| SlButton.x := ax; SlButton.y := ay |} in
  let b := {| SlButton.x := bx; SlButton.y := by_ |} in
  let c := {| SlButton.x := x; SlButton.y := cy |} in
  inner_color ←
    (if SlConfig._use_task_colors cfg then
       e ← mem !! event_entry;
       let entry_pid :=
         if Z.land (visible e) KS_PLUGIN_UNTOUCHED_MASK =? 0
         then kshark_get_pid event_entry
         else pid e in
       Some (_get_task_color task_colors entry_pid col)
     else Some col);
  let inner_triangle :=
    {| point0 := a; point1 := b; point2 := c; _color := inner_color; _fill := None |} in
  let back_triangle :=
    {| point0 := a; point1 := b; point2 := c;
       _color := button_outline_col; _fill := Some false |} in
  text_x ← int (x - BUTTON_TEXT_OFFSET);
  text_y' ← int (y - BUTTON_TEXT_OFFSET); text_y ← int (text_y' - 2);
  let text :=
    {| _text_string := STACK_BUTTON_TEXT;
       _pos := {| SlButton.x := text_x; SlButton.y := text_y |} |} in
  Some {| _event_entry := event_entry; _kstack_entry := kstack_entry;
          _outline_triangle := back_triangle; _inner_triangle := inner_triangle;
          _text := text |}.

(** [SlTriangleButton::distance] of a button: the hit test on the points
    of its outline triangle. *)
Definition button_distance (btn : SlTriangleButton) (px py : Z) : option Q :=
  distance (point0 (_outline_triangle btn)) (point1 (_outline_triangle btn))
           (point2 (_outline_triangle btn)) px py.

(** [_add_sched_switch_prev_state_text]: the text box drawn next to the
    button of a task switch, [None] for another event. *)
Definition _add_sched_switch_prev_state_text (mem : gmap Z kshark_entry)
    (contexts : gmap Z plugin_stacklook_ctx) (event_entry : Z)
    (triangle_position : ksplot_point) : option (option TextBox) :=
  e ← mem !! event_entry;
  ctx ← __get_context contexts (stream_id e);
  if event_id e =? sswitch_event_id ctx then
    prev_state_base ← get_switch_prev_state event_entry;
    let prev_state := lit "(" ++ prev_state_base ++ lit ")" in
    other_x ← int (x triangle_position - 9);
    other_y' ← int (y triangle_position + 5); other_y ← int (other_y' - 11);
    Some (Some {| _text_string := prev_state;
                  _pos := {| x := other_x; y := other_y |} |})
  else Some None.

(** [SlTriangleButton::_draw]: what is drawn besides the button's own
    triangles and text. *)
Definition _draw (mem : gmap Z kshark_entry)
    (contexts : gmap Z plugin_stacklook_ctx) (btn : SlTriangleButton)
    : option (option TextBox) :=
  let text_position := point2 (_inner_triangle btn) in
  _add_sched_switch_prev_state_text mem contexts (_event_entry btn) text_position.

Context `{HostText}.

Definition NO_MAP_VAL : list ascii := lit "No specific info for event.".

(** [_get_specific_info].  Of two equal keys the initializer list of a
    [std::map] keeps the first, as [list_to_map] does. *)
Definition _get_specific_info (mem : gmap Z kshark_entry)
    (contexts : gmap Z plugin_stacklook_ctx) (entry : Z) : option (list ascii) :=
  e ← mem !! entry;
  ctx ← __get_context contexts (stream_id e);
  let SPECIFIC_INFO_MAP : gmap Z (list ascii) :=
    list_to_map [ (sswitch_event_id ctx, lit "Task was in state ");
                  (swaking_event_id ctx, lit "Task has woken up.") ] in
  let entry_event_id := kshark_get_event_id entry in
  let spec_info :=
    match SPECIFIC_INFO_MAP !! entry_event_id with
    | None => NO_MAP_VAL
    | Some info => info
    end in
  if entry_event_id =? sswitch_event_id ctx then
    longer ← get_longer_prev_state entry;
    Some (spec_info ++ (longer ++ lit "."))
  else Some spec_info.

(** The info text of the button's kernel-stack entry, as both events
    fetch it: the null pointer ([Some None]) when the button has no such
    entry or the host has no text; the host reads the entry's record. *)
Definition kstack_string_ptr (mem : gmap Z kshark_entry) (btn : SlTriangleButton)
    : option (option (list ascii)) :=
  if _kstack_entry btn =? nullptr then Some None
  else
    _ ← mem !! _kstack_entry btn;
    Some (if kshark_info_is_null (_kstack_entry btn) then None
          else Some (kshark_get_info (_kstack_entry btn))).

Definition error_msg : list ascii := lit "ERROR: No info field found!".

(** [SlTriangleButton::_doubleClick]: the window it opens. *)
Definition _doubleClick (mem : gmap Z kshark_entry)
    (contexts : gmap Z plugin_stacklook_ctx) (btn : SlTriangleButton)
    : option SlDetailedView.view :=
  _ ← mem !! _event_entry btn;
  let window_labeltext := kshark_get_task (_event_entry btn) in
  kstack_string_ptr ← kstack_string_ptr mem btn;
  let window_text :=
    match kstack_string_ptr with
    | Some text => text
    | None => error_msg
    end in
  specific_entry_info ← _get_specific_info mem contexts (_event_entry btn);
  SlDetailedView.SlDetailedView window_labeltext (c_str specific_entry_info) window_text.

(** The two forms of [setPreviewLabels]: the task with three items and
    the closing label, or the task with a message. *)
Inductive preview_labels :=
| PreviewItems (task item0 item1 item2 last_item : list ascii)
| PreviewMessage (task message : list ascii).

(** [SlTriangleButton::_mouseHover]: the labels it sets. *)
Definition _mouseHover (mem : gmap Z kshark_entry) (cfg : SlConfig.SlConfig)
    (btn : SlTriangleButton) : option preview_labels :=
  kstack_string_ptr ← kstack_string_ptr mem btn;
  _ ← mem !! _event_entry btn;
  match kstack_string_ptr with
  | Some stacktrace =>
      let event_name := kshark_get_event_name (_event_entry btn) in
      top_three_items ← _get_top_three_stack_items cfg stacktrace event_name;
      item0 ← top_three_items !! 0%nat;
      item1 ← top_three_items !! 1%nat;
      item2 ← top_three_items !! 2%nat;
      let last_item :=
        if bool_decide (item2 = lit "-") then lit "(End of stack)" else lit "..." in
      Some (PreviewItems (kshark_get_task (_event_entry btn))
                         item0 item1 item2 last_item)
  | None =>
      Some (PreviewMessage (kshark_get_task (_event_entry btn))
                           (lit "NO KERNEL STACK ENTRY FOUND"))
  end.

End WithHost.

End SlTriangleButton.

(** ** SlConfig.cpp: the configuration window *)

Module SlConfigWindow.
Import SlTriangleButton.

(** The two colours of the configuration object, which [SlConfig.SlConfig]
    does not hold. *)
Record SlColors := {
  _default_btn_col : Color;
  _button_outline_col : Color;
}.

(** A [QColor] as [setRgb] and [getRgb] use it: three [int]s. *)
Record QColor := { red : Z; green : Z; blue : Z }.

(** A [QSpinBox]: its range and its value.  [setValue] brings the value
    into the range. *)
Record QSpinBox := { minimum : Z; maximum : Z; value : Z }.

Definition setValue (val : Z) (box : QSpinBox) : QSpinBox :=
  {| minimum := minimum box; maximum := maximum box;
     value := Z.min (maximum box) (Z.max (minimum box) val) |}.

(** The children the window looks up by object name. *)
Inductive child :=
| QLabel (text : string)
| QCheckBox (checked : bool)
| QSpinBoxChild (box : QSpinBox).

(** [SlConfigWindow]: the members [update_cfg] and [load_cfg_values] use,
    and the named children.  The text of a label is the event name it
    was made from. *)
Record SlConfigWindow := {
  _def_btn_col : QColor;
  _btn_outline : QColor;
  _histo_limit : QSpinBox;
  _task_col_btn : bool;
  children : gmap string child;
}.

(** [findChild<T>(name)]: the child of that name if it is a [T], the null
    pointer otherwise. *)
Definition findChild_QLabel (w : SlConfigWindow) (name : string) : option string :=
  match children w !! name with
  | Some (QLabel text) => Some text
  | _ => None
  end.

Definition findChild_QCheckBox (w : SlConfigWindow) (name : string) : option bool :=
  match children w !! name with
  | Some (QCheckBox checked) => Some checked
  | _ => None
  end.

Definition findChild_QSpinBox (w : SlConfigWindow) (name : string) : option QSpinBox :=
  match children w !! name with
  | Some (QSpinBoxChild box) => Some box
  | _ => None
  end.

(** Conversions: [int] to [uint8_t], [int] to [depth_t], [depth_t] to
    [int]. *)
Definition uint8_of (v : Z) : Z := v mod 2 ^ 8.
Definition depth_of_int (v : Z) : Z := v mod 2 ^ 32.
Definition int_of_depth (d : Z) : Z := (d + 2 ^ 31) mod 2 ^ 32 - 2 ^ 31.

(** The loop of [update_cfg] from index [i] on, [todo] iterations to go;
    [at] throws for a name that is no key of the map. *)
Fixpoint update_cfg_loop (todo : nat) (i : nat) (w : SlConfigWindow)
    (_events_meta : gmap string (bool * Z)) (events_meta_change : bool)
    : option (gmap string (bool * Z) * bool) :=
  match todo with
  | O => Some (_events_meta, events_meta_change)
  | S todo' =>
      let index_str := pretty i in
      let event_name := findChild_QLabel w ("evt_name_" +:+ index_str) in
      let event_allowed := findChild_QCheckBox w ("evt_allowed_" +:+ index_str) in
      let event_depth := findChild_QSpinBox w ("evt_depth_" +:+ index_str) in
      match event_name, event_allowed, event_depth with
      | Some event_name_str, Some event_allowed, Some event_depth =>
          _ ← _events_meta !! event_name_str;
          let _events_meta :=
            <[event_name_str := (event_allowed, depth_of_int (value event_depth))]>
              _events_meta in
          update_cfg_loop todo' (S i) w _events_meta events_meta_change
      | _, _, _ => update_cfg_loop todo' (S i) w _events_meta false
      end
  end.

(** [update_cfg]: the configuration after Apply, and whether the dialog
    reports success. *)
Definition update_cfg (w : SlConfigWindow) (cfg : SlConfig.SlConfig)
    : option (SlConfig.SlConfig * SlColors * bool) :=
  let colors :=
    {| _default_btn_col :=
         {| r := uint8_of (red (_def_btn_col w)); g := uint8_of (green (_def_btn_col w));
            b := uint8_of (blue (_def_btn_col w)) |};
       _button_outline_col :=
         {| r := uint8_of (red (_btn_outline w)); g := uint8_of (green (_btn_outline w));
            b := uint8_of (blue (_btn_outline w)) |} |} in
  let SUPPORTED_EVENTS_COUNT := size (SlConfig._events_meta cfg) in
  '(_events_meta, events_meta_change) ←
    update_cfg_loop SUPPORTED_EVENTS_COUNT 0 w (SlConfig._events_meta cfg) true;
  Some ({| SlConfig._histo_entries_limit := value (_histo_limit w);
           SlConfig._use_task_colors := _task_col_btn w;
           SlConfig._events_meta := _events_meta |},
        colors, events_meta_change).

(** A child with a new state. *)
Definition set_child (name : string) (c : child) (w : SlConfigWindow) : SlConfigWindow :=
  {| _def_btn_col := _def_btn_col w; _btn_outline := _btn_outline w;
     _histo_limit := _histo_limit w; _task_col_btn := _task_col_btn w;
     children := <[name := c]> (children w) |}.

(** The loop of [load_cfg_values] from index [i] on; a row that is not
    found only raises a dialog. *)
Fixpoint load_cfg_loop (todo : nat) (i : nat) (cfg : SlConfig.SlConfig)
    (w : SlConfigWindow) : option SlConfigWindow :=
  match todo with
  | O => Some w
  | S todo' =>
      let index_str := pretty i in
      let event_name := findChild_QLabel w ("evt_name_" +:+ index_str) in
      let event_allowed := findChild_QCheckBox w ("evt_allowed_" +:+ index_str) in
      let event_depth := findChild_QSpinBox w ("evt_depth_" +:+ index_str) in
      match event_name, event_allowed, event_depth with
      | Some event_name_str, Some _, Some event_depth =>
          specific_evt_meta ← SlConfig._events_meta cfg !! event_name_str;
          let is_allowed := specific_evt_meta.1 in
          let stack_depth := specific_evt_meta.2 in
          let w := set_child ("evt_depth_" +:+ index_str)
                     (QSpinBoxChild (setValue (int_of_depth stack_depth) event_depth)) w in
          let w := set_child ("evt_allowed_" +:+ index_str) (QCheckBox is_allowed) w in
          load_cfg_loop todo' (S i) cfg w
      | _, _, _ => load_cfg_loop todo' (S i) cfg w
      end
  end.

(** [load_cfg_values]: the window showing the configuration. *)
Definition load_cfg_values (w : SlConfigWindow) (cfg : SlConfig.SlConfig)
    (colors : SlColors) : option SlConfigWindow :=
  let w :=
    {| _def_btn_col :=
         {| red := r (_default_btn_col colors); green := g (_default_btn_col colors);
            blue := b (_default_btn_col colors) |};
       _btn_outline :=
         {| red := r (_button_outline_col colors);
            green := g (_button_outline_col colors);
            blue := b (_button_outline_col colors) |};
       _histo_limit := setValue (SlConfig._histo_entries_limit cfg) (_histo_limit w);
       _task_col_btn := SlConfig._use_task_colors cfg;
       children := children w |} in
  let SUPPORTED_EVENTS_COUNT := size (SlConfig._events_meta cfg) in
  load_cfg_loop SUPPORTED_EVENTS_COUNT 0 cfg w.

End SlConfigWindow.

(** ** stacklook.c: the entries of a trace file as they are loaded *)

Module Loading.
Import KShark Stacklook.

(** The host calls [_select_events] once for every entry it loads, in
    load order, with the stream the entry belongs to. *)
Definition load (sched_switch_id sched_wake_id : Z)
    (contexts : gmap Z plugin_stacklook_ctx) (entries : list (Z * kshark_entry))
    : gmap Z plugin_stacklook_ctx :=
  foldl (fun contexts pe =>
           _select_events sched_switch_id sched_wake_id contexts
             (stream_id pe.2) pe.1 pe.2)
        contexts entries.

End Loading.

(** ** The scan and the loading as properties word them *)

Module ScanSpec.
Import KShark Stacklook.

(** One link of the same-CPU chain. *)
Definition link (mem : gmap Z kshark_entry) (p q : Z) : Prop :=
  exists e, mem !! p = Some e /\ next e = q.

(** The walk from a record's entry ends within [fuel] links: the entry
    is null, or its same-CPU chain is finite with at most [fuel] entries
    after the first. *)
Definition walk_ends (fuel : nat) (mem : gmap Z kshark_entry)
    (r : kshark_data_field_int64) : Prop :=
  entry r = nullptr \/
  exists e l, chain mem (entry r) ((entry r, e) :: l) /\ (length l <= fuel)%nat.

(** Whether [_select_events] collects the entry for the stream [s]. *)
Definition collected_for (sched_switch_id sched_wake_id s : Z)
    (pe : Z * kshark_entry) : bool :=
  (stream_id pe.2 =? s)
  && ((event_id pe.2 =? sched_switch_id) || (event_id pe.2 =? sched_wake_id)).

(** The record [_select_events] appends for an entry. *)
Definition fresh_record (pe : Z * kshark_entry) : kshark_data_field_int64 :=
  {| entry := pe.1; field := -1 |}.

Section WithHost.
Context `{Host}.

(** What the scan does to one field. *)
Definition scanned (fuel : nat) (mem : gmap Z kshark_entry)
    (contexts : gmap Z plugin_stacklook_ctx)
    (r r' : kshark_data_field_int64) : Prop :=
  exists k, get_kstack_entry fuel mem contexts (entry r) = Some k /\
            r' = if k =? nullptr then r
                 else {| entry := entry r; field := int64_of_ptr k |}.

(** Whether the scan resolves the field. *)
Definition resolves (fuel : nat) (mem : gmap Z kshark_entry)
    (contexts : gmap Z plugin_stacklook_ctx) (r : kshark_data_field_int64) : bool :=
  match get_kstack_entry fuel mem contexts (entry r) with
  | Some k => negb (k =? nullptr)
  | None => false
  end.

End WithHost.

End ScanSpec.

(** ** The labels of the preview as properties word them *)

Module LabelSpec.
Import StdString SlButton.

(** The label of a frame line after its name marker, before the
    conversion to a [QString]: the text up to the first [" ("], cut to 44
    characters and followed by the ellipsis when that text is longer or
    when there is no [" ("] at all. *)
Definition label_of (rest : list ascii) : list ascii :=
  match occurrences addr_marker rest 0 with
  | j :: _ => if 44 <? j then take 44 rest ++ ellipsis else take (Z.to_nat j) rest
  | [] => take 44 rest ++ ellipsis
  end.

(** Where [_prettify_stack_item] takes the name to start: 3 past the
    first ["=> "], and at index 2 when there is none ([npos + 3] wraps
    around). *)
Definition label_start (s : list ascii) : Z :=
  match occurrences name_marker s 0 with
  | p :: _ => p + 3
  | [] => 2
  end.

(** The slots of a preview: three of them, none longer than 47. *)
Definition preview_shape (items : list (list ascii)) : Prop :=
  length items = 3%nat /\ Forall (fun item => (length item <= 47)%nat) items.

End LabelSpec.

(** ** The region of a button *)

Module ButtonSpec.
Import SlButton GeometrySpec.

(** A base point far enough inside the plot for the whole button to be
    in it. *)
Definition base_in_plot (p : ksplot_point) : Prop :=
  - plot_limit + 27 <= x p <= plot_limit - 27 /\
  - plot_limit + 27 <= y p <= plot_limit - 27.

(** The region of the button made at the base point [(bx, by)]: from 27
    to 2 above the base point, and from the vertical through it no
    further than 24/25 of the height above the tip. *)
Definition in_button (base : ksplot_point) (px py : Z) : bool :=
  (y base - 27 <=? py) && (25 * Z.abs (px - x base) <=? 24 * (y base - 2 - py)).

End ButtonSpec.

(** ** The rows of the configuration window *)

Module ConfigWindowSpec.
Import SlConfigWindow.

(** The object names of row [i]. *)
Definition name_of (i : nat) : string := "evt_name_" +:+ pretty i.
Definition allowed_of (i : nat) : string := "evt_allowed_" +:+ pretty i.
Definition depth_name_of (i : nat) : string := "evt_depth_" +:+ pretty i.

(** Row [i] of a window: a label with the event name [name], a check
    box, and a spin box with the range the window gives it. *)
Definition has_row (w : SlConfigWindow) (i : nat) (name : string) : Prop :=
  findChild_QLabel w (name_of i) = Some name /\
  is_Some (findChild_QCheckBox w (allowed_of i)) /\
  exists box, findChild_QSpinBox w (depth_name_of i) = Some box /\
              minimum box = 0 /\ maximum box = 100000000.

(** The three children of a row, as [findChild] returns them. *)
Definition row_of (w : SlConfigWindow) (j : nat)
    : option string * option bool * option QSpinBox :=
  (findChild_QLabel w (name_of j), findChild_QCheckBox w (allowed_of j),
   findChild_QSpinBox w (depth_name_of j)).

(** The rows [i, i + todo) of a window are those of a configuration:
    every label names an event of it. *)
Definition rows_for (cfg : SlConfig.SlConfig) (w : SlConfigWindow) (i todo : nat) : Prop :=
  forall j, (i <= j < i + todo)%nat ->
    exists name, has_row w j name /\ is_Some (SlConfig._events_meta cfg !! name).

(** The rows [i, i + todo) of a window show a configuration. *)
Definition rows_show (cfg : SlConfig.SlConfig) (w : SlConfigWindow) (i todo : nat) : Prop :=
  forall j, (i <= j < i + todo)%nat ->
    exists name meta box,
      row_of w j = (Some name, Some meta.1, Some box) /\
      SlConfig._events_meta cfg !! name = Some meta /\
      minimum box = 0 /\ maximum box = 100000000 /\
      value box = Z.min 100000000 (Z.max 0 (int_of_depth meta.2)).

(** A configuration whose values the controls of the window can show,
    and a window whose spin boxes hold values of their ranges. *)
Definition config_in_range (cfg : SlConfig.SlConfig) : Prop :=
  0 <= SlConfig._histo_entries_limit cfg <= 1000000000 /\
  forall k meta, SlConfig._events_meta cfg !! k = Some meta -> 0 <= meta.2 <= 100000000.

Definition window_in_range (w : SlConfigWindow) : Prop :=
  0 <= value (_histo_limit w) <= 1000000000 /\
  forall name box, findChild_QSpinBox w name = Some box -> 0 <= value box <= 100000000.

End ConfigWindowSpec.

(** ** More sample data *)

Module MoreSamples.
Import StdString KShark Stacklook SlButton SlTriangleButton Samples.

(** An entry whose [next] is itself. *)
Definition loop_entry : kshark_entry :=
  {| next := 16; visible := 255; stream_id := 0; event_id := 5; cpu := 1; pid := 100 |}.
Definition loop_mem : gmap Z kshark_entry := {[ 16 := loop_entry ]}.

(** The two collected records of the two-switch stream, before and after
    the scan. *)
Definition two_collected : list kshark_data_field_int64 :=
  [ {| entry := 16; field := -1 |}; {| entry := 80; field := -1 |} ].
Definition two_scanned : list kshark_data_field_int64 :=
  [ {| entry := 16; field := 48 |}; {| entry := 80; field := -1 |} ].

(** A task switch that the kernel stack of its task follows at once. *)
Definition followed_switch : kshark_entry :=
  {| next := 48; visible := 255; stream_id := 0; event_id := 5; cpu := 1; pid := 100 |}.
Definition followed_mem : gmap Z kshark_entry :=
  {[ 16 := followed_switch; 48 := own_stack ]}.

(** A host that names every event a wake-up. *)
Definition waking_host : Host := {|
  KS_PLUGIN_UNTOUCHED_MASK := 128;
  KS_EVENT_VIEW_FILTER_MASK := 4;
  KS_GRAPH_VIEW_FILTER_MASK := 2;
  KSHARK_CPU_DRAW := 1;
  KSHARK_TASK_DRAW := 2;
  kshark_get_pid := fun _ => 100;
  kshark_get_event_name := fun _ => "sched/sched_waking";
  kshark_get_info := sample_info;
|}.

(** The colours of the initial configuration, an empty colour table, and
    the base point of the sample button. *)
Definition white : Color := {| r := 255; g := 255; b := 255 |}.
Definition black : Color := {| r := 0; g := 0; b := 0 |}.
Definition no_task_colors : gmap Z Color := ∅.
Definition sample_base : ksplot_point := {| x := 100; y := 100 |}.

(** A host whose kernel-stack entries carry a two-frame trace, and the
    task names and event ids of the sample stream. *)
Definition trace_info (entry : Z) : list ascii :=
  if entry =? 16 then lit "bash:100 [120] S ==> swapper/0:0 [120]"
  else lit "<stack trace >" ++ [LF] ++ two_frames.

Definition trace_host : Host := {|
  KS_PLUGIN_UNTOUCHED_MASK := 128;
  KS_EVENT_VIEW_FILTER_MASK := 4;
  KS_GRAPH_VIEW_FILTER_MASK := 2;
  KSHARK_CPU_DRAW := 1;
  KSHARK_TASK_DRAW := 2;
  kshark_get_pid := fun _ => 100;
  kshark_get_event_name := fun _ => "sched/sched_switch";
  kshark_get_info := trace_info;
|}.

Definition sample_text : HostText := {|
  kshark_get_task := fun _ => lit "bash";
  kshark_get_event_id := fun entry => if entry =? 16 then 5 else 9;
  kshark_info_is_null := fun _ => false;
|}.

(** The button of the sample task switch at the base point (100, 100),
    and the one of the task switch that no kernel stack follows. *)
Definition button_at (event_entry kstack_entry : Z) : SlTriangleButton := {|
  _event_entry := event_entry;
  _kstack_entry := kstack_entry;
  _outline_triangle :=
    {| point0 := button_a; point1 := button_b; point2 := button_c;
       _color := black; _fill := Some false |};
  _inner_triangle :=
    {| point0 := button_a; point1 := button_b; point2 := button_c;
       _color := white; _fill := None |};
  _text := {| _text_string := lit "STACK"; _pos := {| x := 86; y := 84 |} |};
|}.

Definition sample_btn : SlTriangleButton := button_at 16 48.
Definition lone_btn : SlTriangleButton := button_at 80 (2 ^ 64 - 1).

(** The window of the initial configuration: two rows. *)
Definition depth_box (depth : Z) : SlConfigWindow.QSpinBox :=
  {| SlConfigWindow.minimum := 0; SlConfigWindow.maximum := 100000000;
     SlConfigWindow.value := depth |}.

Definition sample_window : SlConfigWindow.SlConfigWindow := {|
  SlConfigWindow._def_btn_col :=
    {| SlConfigWindow.red := 255; SlConfigWindow.green := 255; SlConfigWindow.blue := 255 |};
  SlConfigWindow._btn_outline :=
    {| SlConfigWindow.red := 0; SlConfigWindow.green := 0; SlConfigWindow.blue := 0 |};
  SlConfigWindow._histo_limit :=
    {| SlConfigWindow.minimum := 0; SlConfigWindow.maximum := 1000000000;
       SlConfigWindow.value := 500 |};
  SlConfigWindow._task_col_btn := true;
  SlConfigWindow.children :=
    {[ "evt_name_0" := SlConfigWindow.QLabel "sched/sched_switch";
       "evt_allowed_0" := SlConfigWindow.QCheckBox false;
       "evt_depth_0" := SlConfigWindow.QSpinBoxChild (depth_box 7);
       "evt_name_1" := SlConfigWindow.QLabel "sched/sched_waking";
       "evt_allowed_1" := SlConfigWindow.QCheckBox true;
       "evt_depth_1" := SlConfigWindow.QSpinBoxChild (depth_box 0) ]};
|}.

(** The configuration that Apply on the sample window gives. *)
Definition applied_cfg : SlConfig.SlConfig := {|
  SlConfig._histo_entries_limit := 500;
  SlConfig._use_task_colors := true;
  SlConfig._events_meta := {[ "sched/sched_switch" := (false, 7);
                              "sched/sched_waking" := (true, 0) ]};
|}.

Definition initial_colors : SlConfigWindow.SlColors :=
  {| SlConfigWindow._default_btn_col := white;
     SlConfigWindow._button_outline_col := black |}.

End MoreSamples.


(** ** Facts about the string model *)

Module StdStringFacts.
Import StdString.

Lemma size_nonneg (s : list ascii) : 0 <= size s.
Proof. unfold size. lia. Qed.

Lemma size_app (s t : list ascii) : size (s ++ t) = size s + size t.
Proof. unfold size. rewrite length_app. lia. Qed.

Lemma size_cons c (s : list ascii) : size (c :: s) = size s + 1.
Proof. unfold size. simpl. lia. Qed.

Lemma size_drop (s : list ascii) (n : nat) :
  (n <= List.length s)%nat -> size (drop n s) = size s - Z.of_nat n.
Proof. intros H. unfold size. rewrite length_drop. lia. Qed.

Lemma npos_value : npos = 18446744073709551615.
Proof. reflexivity. Qed.

Lemma wrap_small z : 0 <= z < size_t_modulus -> wrap z = z.
Proof. intros H. unfold wrap. apply Z.mod_small. exact H. Qed.

Lemma valid_size_lt (s : list ascii) : valid s -> size s < npos.
Proof. unfold valid, max_size. rewrite npos_value. lia. Qed.

(** [starts_with] decides "[needle] is a prefix". *)
Lemma starts_with_app (needle s : list ascii) :
  starts_with needle (needle ++ s) = true.
Proof.
  induction needle as [|c needle IH]; simpl; [reflexivity|].
  rewrite Ascii.eqb_refl. exact IH.
Qed.

Lemma starts_with_true (needle s : list ascii) :
  starts_with needle s = true -> exists rest, s = needle ++ rest.
Proof.
  revert s. induction needle as [|c needle IH]; intros s H.
  - exists s. reflexivity.
  - destruct s as [|d s]; simpl in H; [discriminate|].
    apply andb_true_iff in H as [Hc Hs].
    apply Ascii.eqb_eq in Hc. subst d.
    destruct (IH _ Hs) as [rest ->]. exists rest. reflexivity.
Qed.

Lemma starts_with_iff (needle s : list ascii) :
  starts_with needle s = true <-> exists rest, s = needle ++ rest.
Proof.
  split; [apply starts_with_true|].
  intros [rest ->]. apply starts_with_app.
Qed.

Lemma starts_with_length (needle s : list ascii) :
  starts_with needle s = true -> (List.length needle <= List.length s)%nat.
Proof.
  intros H. apply starts_with_true in H as [rest ->].
  rewrite length_app. lia.
Qed.

(** The search returns the first occurrence, or [npos]. *)
Lemma find_from_occurrences (needle s : list ascii) (i : Z) :
  needle <> [] ->
  find_from needle s i = hd npos (occurrences needle s i).
Proof.
  intros Hne. revert i. induction s as [|c s IH]; intros i.
  - simpl. destruct needle; [congruence|reflexivity].
  - cbn [find_from occurrences].
    destruct (starts_with needle (c :: s)); [reflexivity|apply IH].
Qed.

Lemma occurrences_bounds (needle s : list ascii) (i p : Z) :
  In p (occurrences needle s i) -> i <= p < i + size s.
Proof.
  revert i. induction s as [|c s IH]; intros i; simpl; [tauto|].
  rewrite size_cons.
  destruct (starts_with needle (c :: s)); simpl.
  - intros [<-|H]; [pose proof (size_nonneg s); lia|].
    apply IH in H. lia.
  - intros H. apply IH in H. lia.
Qed.

(** Every listed index is an occurrence, and every occurrence is
    listed: [occurrences] is exactly the set of match positions. *)
Lemma occurrences_spec (needle s : list ascii) (i p : Z) :
  needle <> [] ->
  In p (occurrences needle s i) <->
  i <= p /\ starts_with needle (drop (Z.to_nat (p - i)) s) = true.
Proof.
  intros Hne. revert i. induction s as [|c s IH]; intros i.
  - simpl. rewrite drop_nil. split; [tauto|].
    intros [_ H]. destruct needle; [congruence|discriminate].
  - cbn [occurrences].
    assert (Hstep : forall q, i + 1 <= q ->
               drop (Z.to_nat (q - i)) (c :: s) = drop (Z.to_nat (q - (i + 1))) s).
    { intros q Hq. replace (Z.to_nat (q - i)) with (S (Z.to_nat (q - (i + 1)))) by lia.
      reflexivity. }
    destruct (starts_with needle (c :: s)) eqn:E.
    + simpl. rewrite IH. split.
      * intros [<-|[Hle Hs]].
        -- split; [lia|]. rewrite Z.sub_diag. exact E.
        -- split; [lia|]. rewrite Hstep by lia. exact Hs.
      * intros [Hle Hs].
        destruct (Z.eq_dec i p) as [->|Hneq]; [left; reflexivity|right].
        split; [lia|]. rewrite <- Hstep by lia. exact Hs.
    + rewrite IH. split.
      * intros [Hle Hs]. split; [lia|]. rewrite Hstep by lia. exact Hs.
      * intros [Hle Hs].
        destruct (Z.eq_dec i p) as [->|Hneq].
        -- rewrite Z.sub_diag in Hs. simpl in Hs. congruence.
        -- split; [lia|]. rewrite <- Hstep by lia. exact Hs.
Qed.

(** After the first occurrence [p], the occurrences from [p + 1] on are
    the rest of the list. *)
Lemma occurrences_tail (needle s : list ascii) (i p : Z) (rest : list Z) :
  occurrences needle s i = p :: rest ->
  i <= p < i + size s /\
  occurrences needle (drop (S (Z.to_nat (p - i))) s) (p + 1) = rest.
Proof.
  revert i. induction s as [|c s IH]; intros i; [discriminate|].
  cbn [occurrences]. rewrite size_cons.
  destruct (starts_with needle (c :: s)).
  - intros [= <- <-]. rewrite Z.sub_diag. simpl. rewrite drop_0.
    split; [pose proof (size_nonneg s); lia|reflexivity].
  - intros H. apply IH in H as [Hb H]. split; [lia|].
    replace (Z.to_nat (p - i)) with (S (Z.to_nat (p - (i + 1)))) by lia.
    exact H.
Qed.

Lemma occurrences_from_0 (needle s : list ascii) :
  occurrences_from needle s 0 = occurrences needle s 0.
Proof. reflexivity. Qed.

Lemma find_occurrences_from (needle s : list ascii) (pos : Z) :
  needle <> [] -> 0 <= pos <= size s ->
  find needle s pos = hd npos (occurrences_from needle s pos).
Proof.
  intros Hne Hpos. unfold find.
  destruct (Z.ltb_spec (size s) pos); [lia|].
  apply find_from_occurrences. exact Hne.
Qed.

Lemma find_past_end (needle s : list ascii) (pos : Z) :
  size s < pos -> find needle s pos = npos.
Proof.
  intros H. unfold find. destruct (Z.ltb_spec (size s) pos); [reflexivity|lia].
Qed.

Lemma occurrences_from_cons (needle s : list ascii) (pos p : Z) (rest : list Z) :
  0 <= pos <= size s ->
  occurrences_from needle s pos = p :: rest ->
  pos <= p < size s /\ occurrences_from needle s (p + 1) = rest.
Proof.
  intros Hpos H. unfold occurrences_from in *.
  apply occurrences_tail in H as [Hb H].
  rewrite size_drop in Hb by (unfold size in Hpos; lia).
  split; [lia|].
  rewrite drop_drop in H.
  replace (Z.to_nat (p + 1)) with (Z.to_nat pos + S (Z.to_nat (p - pos)))%nat by lia.
  exact H.
Qed.

Lemma occurrences_from_In (needle s : list ascii) (pos p : Z) :
  0 <= pos <= size s ->
  In p (occurrences_from needle s pos) -> pos <= p < size s.
Proof.
  intros Hpos H. unfold occurrences_from in H.
  apply occurrences_bounds in H.
  rewrite size_drop in H by (unfold size in Hpos; lia). lia.
Qed.

Lemma substr_in_range (s : list ascii) (pos n : Z) :
  0 <= pos <= size s -> 0 <= n ->
  substr s pos n = Some (take (Z.to_nat n) (drop (Z.to_nat pos) s)).
Proof.
  intros Hpos Hn. unfold substr.
  destruct (Z.ltb_spec (size s) pos); [lia|]. f_equal.
  destruct (Z.min_spec n (size s - pos)) as [[_ ->]|[Hle ->]]; [reflexivity|].
  rewrite !take_ge; [reflexivity| |]; rewrite length_drop; unfold size in *; lia.
Qed.

Lemma c_str_length (s : list ascii) : (List.length (c_str s) <= List.length s)%nat.
Proof.
  induction s as [|c s IH]; simpl; [lia|].
  destruct (Ascii.eqb c NUL); simpl; lia.
Qed.

Lemma c_str_no_nul (s : list ascii) : ~ In NUL s -> c_str s = s.
Proof.
  induction s as [|c s IH]; simpl; [reflexivity|].
  intros H. destruct (Ascii.eqb_spec c NUL) as [->|_]; [tauto|].
  f_equal. apply IH. tauto.
Qed.

End StdStringFacts.

(** ** Facts about the preview (SlButton.cpp) *)

Module SlButtonFacts.
Import StdString StdStringFacts SlButton.

Lemma marker_nonempty : marker <> [].
Proof. discriminate. Qed.

Lemma find_marker (text : list ascii) (pos : Z) :
  0 <= pos <= size text ->
  find marker text pos = hd npos (occurrences_from marker text pos).
Proof. apply find_occurrences_from, marker_nonempty. Qed.

(** The skip loop: after [n] iterations from [pos] the position is one
    past the start of the [n]-th marker at or after [pos], and the
    markers still ahead are the remaining ones. *)
Lemma skip_markers_found (n : nat) (text : list ascii) (pos : Z) :
  valid text -> 0 <= pos <= size text ->
  (n <= length (occurrences_from marker text pos))%nat ->
  let pos' := skip_markers n text pos in
  0 <= pos' <= size text /\
  occurrences_from marker text pos' = drop n (occurrences_from marker text pos) /\
  match n with
  | O => pos' = pos
  | S k => occurrences_from marker text pos !! k = Some (pos' - 1)
  end.
Proof.
  intros Hv. revert pos. induction n as [|n IH]; intros pos Hpos Hn; cbn zeta.
  - simpl. rewrite drop_0. auto.
  - cbn [skip_markers]. rewrite find_marker by exact Hpos.
    destruct (occurrences_from marker text pos) as [|p rest] eqn:E;
      [simpl in Hn; lia|].
    apply occurrences_from_cons in E as [Hp Hrest]; [|exact Hpos].
    pose proof (valid_size_lt _ Hv) as Hlt.
    cbn [hd]. destruct (Z.eqb_spec p npos) as [->|_]; [lia|].
    rewrite wrap_small by (unfold size_t_modulus; rewrite npos_value in Hlt; lia).
    simpl in Hn.
    specialize (IH (p + 1) ltac:(lia)). rewrite Hrest in IH.
    specialize (IH ltac:(lia)). cbn zeta in IH.
    destruct IH as (Hb & Hd & Hk). split; [exact Hb|]. split; [exact Hd|].
    destruct n as [|k].
    + rewrite Hk. simpl. f_equal. lia.
    + simpl. exact Hk.
Qed.

Lemma skip_markers_exhausted (n : nat) (text : list ascii) (pos : Z) :
  valid text -> 0 <= pos <= size text ->
  (length (occurrences_from marker text pos) < n)%nat ->
  skip_markers n text pos = npos.
Proof.
  intros Hv. revert pos. induction n as [|n IH]; intros pos Hpos Hn; [lia|].
  cbn [skip_markers]. rewrite find_marker by exact Hpos.
  destruct (occurrences_from marker text pos) as [|p rest] eqn:E.
  - reflexivity.
  - apply occurrences_from_cons in E as [Hp Hrest]; [|exact Hpos].
    pose proof (valid_size_lt _ Hv) as Hlt.
    cbn [hd]. destruct (Z.eqb_spec p npos) as [->|_]; [lia|].
    rewrite wrap_small by (unfold size_t_modulus; rewrite npos_value in Hlt; lia).
    apply IH; [lia|]. rewrite Hrest. simpl in Hn. lia.
Qed.

End SlButtonFacts.

Module TopThreeFacts.
Import StdString StdStringFacts SlButton SlButtonFacts PreviewSpec.

Lemma top_three_done (fuel : nat) (text : list ascii) (counter pos : Z)
    (out : list (list ascii)) :
  3 <= counter -> top_three_loop fuel text counter pos out = Some out.
Proof.
  intros H. destruct fuel; [reflexivity|]. cbn [top_three_loop].
  destruct (Z.ltb_spec counter 3); [lia|reflexivity].
Qed.

(** One iteration of the loop, by the markers ahead of [pos]. *)
Lemma top_three_step (fuel : nat) (text : list ascii) (counter pos : Z)
    (out : list (list ascii)) :
  valid text -> 0 <= pos <= size text -> 0 <= counter < 3 ->
  top_three_loop (S fuel) text counter pos out =
  match occurrences_from marker text pos with
  | [] => Some out
  | [p] =>
      item ← last_frame text p;
      top_three_loop fuel text 4 (size text - 1) (<[2%nat := item]> out)
  | p :: q :: _ =>
      item ← frame text p q;
      top_three_loop fuel text (counter + 1) q (<[Z.to_nat counter := item]> out)
  end.
Proof.
  intros Hv Hpos Hc. cbn [top_three_loop].
  destruct (Z.ltb_spec counter 3); [|lia].
  pose proof (valid_size_lt _ Hv) as Hlt.
  assert (Hmod : size_t_modulus = npos + 1) by reflexivity.
  rewrite find_marker by exact Hpos.
  destruct (occurrences_from marker text pos) as [|p rest] eqn:E; [reflexivity|].
  apply occurrences_from_cons in E as [Hp Hrest]; [|exact Hpos].
  cbn [hd]. destruct (Z.eqb_spec p npos) as [->|_]; [lia|].
  rewrite (wrap_small (p + 1)) by lia.
  rewrite find_marker by lia. rewrite Hrest.
  destruct rest as [|q rest'].
  - cbn [hd]. rewrite Z.eqb_refl.
    rewrite (wrap_small (size text - 1)) by lia.
    rewrite wrap_small by lia.
    unfold last_frame. destruct (substr text p (size text - 1 - p)); [|reflexivity].
    simpl. destruct (_prettify_stack_item l); reflexivity.
  - assert (Hq : p + 1 <= q < size text).
    { apply (occurrences_from_In marker text (p + 1) q); [lia|].
      rewrite Hrest. left. reflexivity. }
    cbn [hd]. destruct (Z.eqb_spec q npos) as [->|_]; [lia|].
    rewrite wrap_small by lia.
    destruct (Z.eqb_spec counter 3); [lia|].
    unfold frame. destruct (substr text p (q - p)); [|reflexivity].
    simpl. destruct (_prettify_stack_item l); reflexivity.
Qed.

Lemma occurrences_head (needle s : list ascii) (i q : Z) (rest : list Z) :
  occurrences needle s i = q :: rest ->
  occurrences needle (drop (Z.to_nat (q - i)) s) q = q :: rest.
Proof.
  revert i. induction s as [|c s IH]; intros i; [discriminate|].
  cbn [occurrences]. destruct (starts_with needle (c :: s)) eqn:E.
  - intros [= <- <-]. rewrite Z.sub_diag. simpl. rewrite E. reflexivity.
  - intros H. pose proof (occurrences_bounds needle s (i + 1) q) as Hb.
    rewrite H in Hb. specialize (Hb ltac:(left; reflexivity)).
    apply IH in H.
    replace (Z.to_nat (q - i)) with (S (Z.to_nat (q - (i + 1)))) by lia.
    exact H.
Qed.

Lemma occurrences_from_head (needle s : list ascii) (pos q : Z) (rest : list Z) :
  0 <= pos <= size s ->
  occurrences_from needle s pos = q :: rest ->
  occurrences_from needle s q = q :: rest.
Proof.
  intros Hpos H. pose proof (occurrences_from_cons _ _ _ _ _ Hpos H) as [Hq _].
  unfold occurrences_from in *. apply occurrences_head in H.
  rewrite drop_drop in H.
  replace (Z.to_nat q) with (Z.to_nat pos + Z.to_nat (q - pos))%nat by lia.
  exact H.
Qed.

(** [_get_top_three_from_start] by the markers ahead of the start. *)
Lemma top_three_from_start_spec (text : list ascii) (pos : Z) :
  valid text -> 0 <= pos <= size text ->
  _get_top_three_from_start pos text =
  top_three_spec text (occurrences_from marker text pos).
Proof.
  intros Hv Hpos. unfold _get_top_three_from_start.
  rewrite top_three_step by (try assumption; lia).
  destruct (occurrences_from marker text pos) as [|p0 [|p1 rest1]] eqn:E0.
  - reflexivity.
  - simpl. destruct (last_frame text p0); reflexivity.
  - apply occurrences_from_cons in E0 as [Hp0 E1]; [|exact Hpos].
    assert (Hp1 : p0 + 1 <= p1 < size text).
    { apply (occurrences_from_In marker text (p0 + 1) p1); [lia|].
      rewrite E1. left. reflexivity. }
    apply occurrences_from_head in E1; [|lia].
    cbn [top_three_spec]. destruct (frame text p0 p1) as [f0|]; [|destruct rest1 as [|? [|? ?]]; reflexivity].
    cbn [mbind option_bind].
    rewrite top_three_step by (try assumption; lia). rewrite E1.
    destruct rest1 as [|p2 rest2].
    + destruct (last_frame text p1); reflexivity.
    + apply occurrences_from_cons in E1 as [_ E2]; [|lia].
      assert (Hp2 : p1 + 1 <= p2 < size text).
      { apply (occurrences_from_In marker text (p1 + 1) p2); [lia|].
        rewrite E2. left. reflexivity. }
      apply occurrences_from_head in E2; [|lia].
      destruct (frame text p1 p2) as [f1|]; [|destruct rest2 as [|? ?]; reflexivity].
      cbn [mbind option_bind].
      rewrite top_three_step by (try assumption; lia). rewrite E2.
      destruct rest2 as [|p3 rest3].
      * destruct (last_frame text p2); reflexivity.
      * destruct (frame text p2 p3); reflexivity.
Qed.

(** *** Well-formed traces: every label exists *)









End TopThreeFacts.

(** ** The preview: the properties the design document states *)

Module PreviewProperties.
Import StdString StdStringFacts SlButton SlButtonFacts TopThreeFacts PreviewSpec Samples.

Lemma markers_from_0 (text : list ascii) :
  occurrences_from marker text 0 = markers text.
Proof. reflexivity. Qed.

(** C6 (as amended). [_get_stack_start_pos skip text] is 0 for a skip
    that is not positive; when the text has at least [skip] markers it is
    one past the START of the [skip]-th marker (the index of that
    marker's second character, not the first index after the marker);
    when the text has fewer than [skip] markers it is [npos]. *)
Theorem start_pos_one_past_marker_start (text : list ascii) (skip : Z) :
  valid text ->
  (skip <= 0 -> _get_stack_start_pos skip text = 0) /\
  (forall p, 1 <= skip -> markers text !! Z.to_nat (skip - 1) = Some p ->
             _get_stack_start_pos skip text = p + 1) /\
  (Z.of_nat (length (markers text)) < skip ->
   _get_stack_start_pos skip text = npos).
Proof.
  intros Hv. pose proof (size_nonneg text) as Hs.
  unfold _get_stack_start_pos. repeat split.
  - intros H. replace (Z.to_nat skip) with 0%nat by lia. reflexivity.
  - intros p Hk Hp.
    assert (Hlen : (Z.to_nat skip <= length (occurrences_from marker text 0))%nat).
    { rewrite markers_from_0. apply lookup_lt_Some in Hp. lia. }
    pose proof (skip_markers_found (Z.to_nat skip) text 0 Hv ltac:(lia) Hlen) as H.
    cbn zeta in H. destruct H as (_ & _ & H).
    destruct (Z.to_nat skip) as [|k] eqn:En; [lia|].
    replace (Z.to_nat (skip - 1)) with k in Hp by lia.
    rewrite markers_from_0, Hp in H.
    set (r := skip_markers (S k) text 0) in *.
    assert (p = r - 1) by congruence. lia.
  - intros H. apply skip_markers_exhausted; [exact Hv|lia|].
    rewrite markers_from_0. lia.
Qed.

Lemma start_pos_one_past_marker_start_witness :
  valid two_frames /\ markers two_frames = [0; 27] /\
  _get_stack_start_pos 2 two_frames = 27 + 1.
Proof.
  assert (Hv : valid two_frames) by (apply Z.leb_le; vm_compute; reflexivity).
  split; [exact Hv|]. split; [vm_compute; reflexivity|].
  apply (start_pos_one_past_marker_start two_frames 2 Hv); [lia|].
  vm_compute. reflexivity.
Defined.

(** C6 as stated fails: with one marker at index 0 the position
    immediately after the marker is 2, and the function returns 1. *)
Lemma start_pos_after_marker_counterexample :
  markers (lit "=>a") = [0] /\ size marker = 2 /\
  _get_stack_start_pos 1 (lit "=>a") = 1 /\
  (_get_stack_start_pos 1 (lit "=>a") =? 0 + size marker) = false.
Proof. vm_compute. auto. Qed.

(** The preview, by the skip actually applied. *)
Lemma top_three_stack_items_spec (cfg : SlConfig.SlConfig) (text : list ascii)
    (evt : string) :
  valid text ->
  _get_top_three_stack_items cfg text evt =
  top_three_spec text
    (drop (Z.to_nat (int16_of (SlConfig.get_stack_offset cfg evt))) (markers text)).
Proof.
  intros Hv. unfold _get_top_three_stack_items, _get_stack_start_pos.
  set (n := Z.to_nat (int16_of (SlConfig.get_stack_offset cfg evt))).
  pose proof (size_nonneg text) as Hs.
  pose proof (valid_size_lt _ Hv) as Hlt.
  destruct (le_lt_dec n (length (markers text))) as [Hle|Hgt].
  - pose proof (skip_markers_found n text 0 Hv ltac:(lia)) as H.
    rewrite markers_from_0 in H. specialize (H Hle). cbn zeta in H.
    destruct H as (Hb & Hd & _).
    destruct (Z.eqb_spec (skip_markers n text 0) npos) as [E|_]; [lia|].
    rewrite top_three_from_start_spec by assumption. rewrite Hd. reflexivity.
  - rewrite skip_markers_exhausted by (try assumption; try lia; rewrite markers_from_0; lia).
    rewrite Z.eqb_refl. rewrite drop_ge by lia. reflexivity.
Qed.






End PreviewProperties.

(** ** The labels: [_prettify_stack_item] *)

Module PrettifyProperties.
Import StdString StdStringFacts SlButton Samples.

Lemma substr_length (s sub : list ascii) (pos n : Z) :
  0 <= n -> substr s pos n = Some sub -> Z.of_nat (length sub) <= n.
Proof.
  intros Hn. unfold substr. destruct (size s <? pos); [discriminate|].
  intros [= <-]. rewrite length_take. lia.
Qed.

Lemma wrap_nonneg (z : Z) : 0 <= wrap z.
Proof. unfold wrap. apply Z.mod_pos_bound. reflexivity. Qed.

(** Whenever it returns, the label has at most 47 characters: at most
    44 kept ones, and the 3 of the ellipsis only when more than 44 were
    counted. *)
Lemma prettify_length (s out : list ascii) :
  _prettify_stack_item s = Some out -> Z.of_nat (length out) <= 47.
Proof.
  unfold _prettify_stack_item. cbn zeta.
  set (name_start := wrap (find name_marker s 0 + 3)).
  set (num := wrap (find addr_marker s name_start - name_start)).
  pose proof (wrap_nonneg (find addr_marker s name_start - name_start)) as Hnum.
  fold num in Hnum.
  destruct (Z.ltb_spec LABEL_LIMIT num) as [Hgt|Hle].
  - destruct (substr s name_start LABEL_LIMIT) as [sub|] eqn:E; [|discriminate].
    intros [= <-]. apply substr_length in E; [|unfold LABEL_LIMIT; lia].
    unfold QStr.from_c_str.
    pose proof (c_str_length (sub ++ ellipsis)) as Hc.
    rewrite length_app in Hc. unfold LABEL_LIMIT in E. simpl in Hc. lia.
  - destruct (substr s name_start num) as [sub|] eqn:E; [|discriminate].
    intros [= <-]. apply substr_length in E; [|exact Hnum].
    unfold QStr.from_c_str. pose proof (c_str_length sub) as Hc.
    unfold LABEL_LIMIT in Hle. lia.
Qed.

(** A frame line (one that holds the ["=> "] token) always gets a label. *)
Lemma prettify_frame_line (s : list ascii) (p : Z) (rest : list Z) :
  valid s -> occurrences name_marker s 0 = p :: rest ->
  is_Some (_prettify_stack_item s).
Proof.
  intros Hv Hocc.
  pose proof (size_nonneg s) as Hs. pose proof (valid_size_lt _ Hv) as Hlt.
  assert (Hfind : find name_marker s 0 = p).
  { rewrite find_occurrences_from by (try discriminate; lia).
    rewrite occurrences_from_0, Hocc. reflexivity. }
  assert (Hp : 0 <= p /\ p + 3 <= size s).
  { pose proof (proj1 (occurrences_spec name_marker s 0 p ltac:(discriminate))) as H.
    rewrite Hocc in H. destruct (H ltac:(left; reflexivity)) as [Hle Hsw].
    apply starts_with_length in Hsw. rewrite length_drop in Hsw.
    change (length name_marker) with 3%nat in Hsw. unfold size. lia. }
  unfold _prettify_stack_item. cbn zeta. rewrite Hfind.
  assert (Hmod : size_t_modulus = npos + 1) by reflexivity.
  rewrite (wrap_small (p + 3)) by lia.
  assert (Hsub : forall n, is_Some (substr s (p + 3) n)).
  { intros n. unfold substr. destruct (Z.ltb_spec (size s) (p + 3)); [lia|]. eauto. }
  destruct (LABEL_LIMIT <? _).
  - destruct (Hsub LABEL_LIMIT) as [sub ->]. eexists. reflexivity.
  - destruct (Hsub (wrap (find addr_marker s (p + 3) - (p + 3)))) as [sub ->].
    eexists. reflexivity.
Qed.

Lemma prettify_length_witness : Z.of_nat (length (lit "schedule")) <= 47.
Proof.
  apply (prettify_length (lit "=> schedule (ffffffff81a0)")).
  vm_compute. reflexivity.
Defined.

Lemma prettify_frame_line_witness :
  is_Some (_prettify_stack_item (lit "=> schedule (ffffffff81a0)")).
Proof.
  apply (prettify_frame_line _ 0 []).
  - apply Z.leb_le. vm_compute. reflexivity.
  - vm_compute. reflexivity.
Defined.

(** C7, the failing input: a newline inside the name is kept, and so is
    the line break of a frame line without address.  The [replace] that
    should strip it runs on the empty label, before the label is
    assigned. *)
Theorem prettify_keeps_newline :
  _prettify_stack_item (lit "=> a" ++ [LF] ++ lit "b (0x0)")
  = Some (lit "a" ++ [LF] ++ lit "b") /\
  In LF (lit "a" ++ [LF] ++ lit "b") /\
  _prettify_stack_item (lit "=> ffffffff8184d8b8" ++ [LF])
  = Some (lit "ffffffff8184d8b8" ++ [LF] ++ lit "...").
Proof.
  split; [vm_compute; reflexivity|]. split; [|vm_compute; reflexivity].
  right. left. reflexivity.
Qed.

Lemma occurrences_nil_shift (needle s : list ascii) (i j : Z) :
  occurrences needle s i = [] -> occurrences needle s j = [].
Proof.
  revert i j. induction s as [|c s IH]; intros i j; [reflexivity|].
  cbn [occurrences]. destruct (starts_with needle (c :: s)); [discriminate|].
  apply IH.
Qed.

(** In ["name (addr"], with no [" ("] inside [name], the first [" ("] is
    the one right after the name. *)
Lemma find_addr_after_name (name addr : list ascii) (i : Z) :
  occurrences addr_marker name 0 = [] ->
  find_from addr_marker (name ++ addr_marker ++ addr) i = i + size name.
Proof.
  revert i. induction name as [|c name IH]; intros i Hocc.
  - simpl. unfold size. simpl. lia.
  - cbn [occurrences] in Hocc.
    destruct (starts_with addr_marker (c :: name)) eqn:E; [discriminate|].
    apply (occurrences_nil_shift _ _ _ 0) in Hocc.
    assert (E' : starts_with addr_marker (c :: name ++ addr_marker ++ addr) = false).
    { destruct name as [|d name]; simpl in *.
      - rewrite andb_false_r. reflexivity.
      - exact E. }
    rewrite <- app_comm_cons. cbn [find_from]. rewrite E'.
    rewrite IH by exact Hocc. rewrite size_cons. lia.
Qed.

(** C9 (as amended). For every name of at most 44 characters that holds
    no [" ("] (and no NUL), prettifying the frame line
    ["=> " ++ name ++ " (" ++ addr] gives back exactly the name: no
    character is dropped and no ellipsis is added. *)
Theorem prettify_extracts_short_name (name addr : list ascii) :
  size name <= 44 ->
  occurrences addr_marker name 0 = [] ->
  ~ In NUL name ->
  _prettify_stack_item (name_marker ++ name ++ addr_marker ++ addr) = Some name.
Proof.
  intros Hlen Hocc Hnul. pose proof (size_nonneg name) as Hs.
  set (line := name_marker ++ name ++ addr_marker ++ addr).
  assert (Hsize : 3 + size name <= size line).
  { unfold line. rewrite !size_app. change (size name_marker) with 3.
    pose proof (size_nonneg addr_marker). pose proof (size_nonneg addr). lia. }
  assert (Hstart : find name_marker line 0 = 0).
  { unfold find. destruct (Z.ltb_spec (size line) 0); [lia|].
    simpl. reflexivity. }
  assert (Hend : find addr_marker line 3 = 3 + size name).
  { unfold find. destruct (Z.ltb_spec (size line) 3); [lia|].
    change (drop (Z.to_nat 3) line) with (name ++ addr_marker ++ addr).
    apply find_addr_after_name. exact Hocc. }
  unfold _prettify_stack_item. cbn zeta. rewrite Hstart.
  change (wrap (0 + 3)) with 3. rewrite Hend.
  replace (3 + size name - 3) with (size name) by lia.
  rewrite wrap_small by (unfold size_t_modulus; lia).
  destruct (Z.ltb_spec LABEL_LIMIT (size name)); [unfold LABEL_LIMIT in *; lia|].
  rewrite substr_in_range by lia.
  change (drop (Z.to_nat 3) line) with (name ++ addr_marker ++ addr).
  unfold size. rewrite Nat2Z.id. rewrite take_app_length.
  simpl. unfold QStr.from_c_str. rewrite c_str_no_nul by exact Hnul. reflexivity.
Qed.

Lemma prettify_extracts_short_name_witness :
  _prettify_stack_item (lit "=> schedule (ffffffff81a0)") = Some (lit "schedule").
Proof.
  apply (prettify_extracts_short_name (lit "schedule") (lit "ffffffff81a0)")).
  - vm_compute. discriminate.
  - vm_compute. reflexivity.
  - vm_compute. intuition discriminate.
Defined.

(** C9 as stated fails: ["abc"] is short and holds neither ["=> "] nor
    [" ("], and its label is ["c..."]. *)
Lemma prettify_bare_name_counterexample :
  size (lit "abc") <= 44 /\
  occurrences name_marker (lit "abc") 0 = [] /\
  occurrences addr_marker (lit "abc") 0 = [] /\
  _prettify_stack_item (lit "abc") = Some (lit "c...") /\
  lit "c..." <> lit "abc".
Proof. vm_compute. repeat split; discriminate. Qed.

End PrettifyProperties.

(** ** The association engine and the filter (Stacklook.cpp) *)

Module StacklookProperties.
Import KShark Stacklook StacklookSpec Samples.

Section WithHost.
Context `{Host}.

(** The walk returns the first match of a finite chain. *)
Lemma kstack_walk_first_match (mem : gmap Z kshark_entry)
    (ctx : plugin_stacklook_ctx) (task_pid : Z) (l : list (Z * kshark_entry)) :
  forall (fuel : nat) (p : Z) (e : kshark_entry),
  chain mem p ((p, e) :: l) -> (length l <= fuel)%nat ->
  kstack_walk fuel mem ctx task_pid p e
  = Some (first_match ctx task_pid ((p, e) :: l)).
Proof.
  induction l as [|[q e'] l IH]; intros fuel p e Hchain Hfuel;
    inversion Hchain as [|? ? ? Hp He Hnext]; subst.
  - assert (Hnull : next e = nullptr) by (inversion Hnext; reflexivity).
    unfold first_match. cbn [List.find]. unfold is_kstack_of. cbn [snd fst].
    destruct fuel; cbn [kstack_walk]; rewrite Hnull;
      destruct ((event_id e =? kstack_event_id ctx) && (task_pid =? pid e));
      reflexivity.
  - inversion Hnext as [|? ? ? Hq He' Hnext' Heq]; subst.
    destruct fuel as [|fuel]; [simpl in Hfuel; lia|].
    cbn [kstack_walk]. unfold first_match. cbn [List.find].
    unfold is_kstack_of at 1. cbn [snd fst].
    destruct ((event_id e =? kstack_event_id ctx) && (task_pid =? pid e));
      [reflexivity|].
    cbn zeta. destruct (Z.eqb_spec (next e) nullptr) as [E|_]; [congruence|].
    rewrite He'. cbn [mbind option_bind].
    rewrite (IH fuel (next e) e' Hnext) by (simpl in Hfuel; lia).
    reflexivity.
Qed.

(** C1. [get_kstack_entry] returns [nullptr] for a null owner and for an
    owner whose stream has no context; for an owner whose same-CPU chain
    is finite (at most [fuel] links long) it returns the first entry of
    the chain, the owner included, whose event id is the stream's
    kernel-stack id and whose [pid] is the owner's effective process id,
    and [nullptr] when the chain ends without one. *)
Theorem find_stack_entry_first_match (fuel : nat) (mem : gmap Z kshark_entry)
    (contexts : gmap Z plugin_stacklook_ctx) (owner : Z) :
  (owner = nullptr -> get_kstack_entry fuel mem contexts owner = Some nullptr) /\
  (forall e, owner <> nullptr -> mem !! owner = Some e ->
     contexts !! stream_id e = None ->
     get_kstack_entry fuel mem contexts owner = Some nullptr) /\
  (forall e l ctx,
     chain mem owner ((owner, e) :: l) ->
     contexts !! stream_id e = Some ctx ->
     (length l <= fuel)%nat ->
     get_kstack_entry fuel mem contexts owner
     = Some (first_match ctx (effective_pid owner e) ((owner, e) :: l))).
Proof.
  split; [|split].
  - intros ->. reflexivity.
  - intros e Hnn He Hctx. unfold get_kstack_entry. cbn zeta.
    destruct (Z.eqb_spec owner nullptr); [contradiction|].
    rewrite He. cbn [mbind option_bind]. unfold __get_context. rewrite Hctx.
    reflexivity.
  - intros e l ctx Hchain Hctx Hfuel.
    inversion Hchain as [|? ? ? Hnn He Hnext]; subst.
    unfold get_kstack_entry. cbn zeta.
    destruct (Z.eqb_spec owner nullptr); [contradiction|].
    rewrite He. cbn [mbind option_bind]. unfold __get_context. rewrite Hctx.
    apply kstack_walk_first_match; assumption.
Qed.

(** *** Eligibility *)

Lemma flip_one_condition (l l' : list bool) (i : nat) :
  length l = 5%nat -> length l' = 5%nat -> (i < 5)%nat ->
  (forall j, j <> i -> (j < 5)%nat -> l !! j = Some true /\ l' !! j = Some true) ->
  l' !! i = negb <$> l !! i ->
  all_hold l' = negb (all_hold l).
Proof.
  intros Hl Hl' Hi Hj Hflip.
  destruct l as [|a0 [|a1 [|a2 [|a3 [|a4 [|]]]]]]; try discriminate.
  destruct l' as [|b0 [|b1 [|b2 [|b3 [|b4 [|]]]]]]; try discriminate.
  pose proof (Hj 0%nat) as H0. pose proof (Hj 1%nat) as H1.
  pose proof (Hj 2%nat) as H2. pose proof (Hj 3%nat) as H3.
  pose proof (Hj 4%nat) as H4. clear Hj.
  destruct i as [|[|[|[|[|i]]]]]; [| | | | |lia]; simpl in *;
    repeat match goal with
    | H : ?a <> ?b -> _ |- _ =>
        first [ specialize (H ltac:(lia) ltac:(lia)); destruct H as [? ?]
              | clear H ]
    end;
    simplify_eq; destruct_and?; simplify_eq;
    repeat match goal with b : bool |- _ => destruct b end; reflexivity.
Qed.

Lemma is_event_allowed_policy (cfg : SlConfig.SlConfig) (entry : Z) :
  SlConfig.is_event_allowed cfg entry
  = policy_allows cfg (kshark_get_event_name entry).
Proof.
  unfold SlConfig.is_event_allowed, policy_allows.
  destruct (SlConfig._events_meta cfg !! kshark_get_event_name entry) as [[[] ?]|];
    reflexivity.
Qed.

Lemma check_func_conjunction (mode : draw_mode) (mem : gmap Z kshark_entry)
    (cfg : SlConfig.SlConfig) (ctx : plugin_stacklook_ctx) (val : Z)
    (data : list kshark_data_field_int64) (t : nat) (r : kshark_data_field_int64) :
  data !! t = Some r ->
  (entry r <> nullptr -> is_Some (mem !! entry r)) ->
  check_func mode mem cfg ctx val data t
  = Some (all_hold (conditions mode mem cfg ctx val r)).
Proof.
  intros Hr Hvalid. unfold check_func, conditions, all_hold. rewrite Hr.
  cbn [mbind option_bind]. cbn zeta.
  destruct (Z.eqb_spec (entry r) nullptr) as [E|E]; [reflexivity|].
  destruct (Hvalid E) as [e He]. rewrite He. cbn [mbind option_bind].
  unfold _check_function_general. rewrite He.
  destruct (Z.eqb_spec (entry r) nullptr) as [|_]; [contradiction|].
  destruct (ptr_of_int64 (field r) =? nullptr); [reflexivity|].
  cbn [orb mbind option_bind negb andb forallb id].
  rewrite is_event_allowed_policy.
  destruct ((sswitch_event_id ctx =? event_id e) || (swaking_event_id ctx =? event_id e)),
    (policy_allows cfg (kshark_get_event_name (entry r))),
    (negb (Z.land (visible e) KS_EVENT_VIEW_FILTER_MASK =? 0)),
    (negb (Z.land (visible e) KS_GRAPH_VIEW_FILTER_MASK =? 0)),
    (match mode with TaskDraw => pid e =? val | CpuDraw => cpu e =? val end);
    reflexivity.
Qed.

(** The check of a container field is the conjunction of five tests:
    (1) the entry and the pointer held in the field are non-null, (2) the
    event id is the switch or the waking id, (3) the policy of the
    entry's event name allows markers, (4) the event-view and graph-view
    bits of [visible] are set, (5) [pid] (task draw) or [cpu] (CPU draw)
    equals the requested id.  So between two inputs on which four of the
    tests hold and the fifth differs, the results differ.  The check is
    a function of its inputs: it changes nothing. *)
Theorem eligibility_is_conjunction (mode : draw_mode) (mem : gmap Z kshark_entry)
    (cfg : SlConfig.SlConfig) (ctx : plugin_stacklook_ctx) (val : Z)
    (data : list kshark_data_field_int64) (t : nat) (r : kshark_data_field_int64) :
  data !! t = Some r ->
  (entry r <> nullptr -> is_Some (mem !! entry r)) ->
  let conds := conditions mode mem cfg ctx val r in
  length conds = 5%nat /\
  check_func mode mem cfg ctx val data t = Some (all_hold conds) /\
  (check_func mode mem cfg ctx val data t = Some true
   <-> forall j, (j < 5)%nat -> conds !! j = Some true) /\
  (forall mode' mem' cfg' ctx' val' data' t' r' (i : nat),
     data' !! t' = Some r' ->
     (entry r' <> nullptr -> is_Some (mem' !! entry r')) ->
     let conds' := conditions mode' mem' cfg' ctx' val' r' in
     (i < 5)%nat ->
     (forall j, j <> i -> (j < 5)%nat ->
                conds !! j = Some true /\ conds' !! j = Some true) ->
     conds' !! i = negb <$> conds !! i ->
     check_func mode' mem' cfg' ctx' val' data' t'
     = negb <$> check_func mode mem cfg ctx val data t).
Proof.
  intros Hr Hvalid conds.
  pose proof (check_func_conjunction mode mem cfg ctx val data t r Hr Hvalid) as Heq.
  fold conds in Heq.
  split; [reflexivity|]. split; [exact Heq|]. split.
  - rewrite Heq. unfold all_hold, conds, conditions. cbn [forallb id].
    split.
    + intros [= Hall]. repeat (apply andb_true_iff in Hall as [? Hall]).
      intros j Hj. destruct j as [|[|[|[|[|j]]]]]; [| | | | |lia]; simpl; f_equal; assumption.
    + intros Hall.
      pose proof (Hall 0%nat ltac:(lia)) as H0. pose proof (Hall 1%nat ltac:(lia)) as H1.
      pose proof (Hall 2%nat ltac:(lia)) as H2. pose proof (Hall 3%nat ltac:(lia)) as H3.
      pose proof (Hall 4%nat ltac:(lia)) as H4. simpl in H0, H1, H2, H3, H4.
      injection H0 as ->. injection H1 as ->. injection H2 as ->.
      injection H3 as ->. injection H4 as ->. reflexivity.
  - intros mode' mem' cfg' ctx' val' data' t' r' i Hr' Hvalid' conds' Hi Hj Hflip.
    rewrite Heq.
    rewrite (check_func_conjunction mode' mem' cfg' ctx' val' data' t' r' Hr' Hvalid').
    fold conds'. cbn [fmap option_fmap option_map]. f_equal.
    apply (flip_one_condition conds conds' i); try assumption; reflexivity.
Qed.

(** *** The scan-once flag *)

(** One call: the flag of no stream is cleared; the scan runs only with
    the flag of the drawn stream clear, and leaves it set. *)
Lemma draw_step (fuel : nat) (mem : gmap Z kshark_entry) (cfg : SlConfig.SlConfig)
    (contexts contexts' : gmap Z plugin_stacklook_ctx) (req : draw_request)
    (out : draw_outcome) :
  draw_stacklook_objects fuel mem cfg contexts req = Some (contexts', out) ->
  (forall stream, searched_flag contexts stream = true ->
                  searched_flag contexts' stream = true) /\
  (scan_ran out = true ->
   searched_flag contexts (sd req) = false /\
   searched_flag contexts' (sd req) = true).
Proof.
  unfold draw_stacklook_objects. cbn zeta.
  destruct (negb _); [intros [= <- <-]; split; [auto|discriminate]|].
  destruct (_ <? _); [intros [= <- <-]; split; [auto|discriminate]|].
  unfold __get_context.
  destruct (contexts !! sd req) as [ctx|] eqn:Ectx; [|discriminate].
  cbn [mbind option_bind].
  destruct (collected_events ctx) as [data|] eqn:Edata;
    [|intros [= <- <-]; split; [auto|discriminate]].
  destruct (searched_for_kstacks ctx) eqn:Eflag; cbn [negb].
  - (* already searched: the context is written back unchanged *)
    cbn [mbind option_bind].
    assert (Hsame : forall stream,
              searched_flag (<[sd req:=ctx]> contexts) stream
              = searched_flag contexts stream).
    { intros stream. unfold searched_flag.
      destruct (decide (sd req = stream)) as [<-|Hne].
      - rewrite lookup_insert_eq, Ectx. reflexivity.
      - rewrite lookup_insert_ne by exact Hne. reflexivity. }
    destruct (negb (kstacks_exist ctx)); intros [= <- <-];
      (split; [intros stream; rewrite Hsame; auto|discriminate]).
  - destruct (search_for_kstacks fuel mem contexts (Some data))
      as [[plugin_data found]|]; [|discriminate].
    cbn [mbind option_bind Stacklook.kstacks_exist].
    assert (Hset : forall c stream,
              Stacklook.searched_for_kstacks c = true ->
              searched_flag contexts stream = true ->
              searched_flag (<[sd req:=c]> contexts) stream = true).
    { intros c stream Hc. unfold searched_flag.
      destruct (decide (sd req = stream)) as [<-|Hne].
      - rewrite lookup_insert_eq. intros _. exact Hc.
      - rewrite lookup_insert_ne by exact Hne. auto. }
    destruct (negb found); intros [= <- <-];
      (split; [intros stream; apply Hset; reflexivity|]);
      intros _; unfold searched_flag; rewrite lookup_insert_eq, Ectx;
      split; [exact Eflag|reflexivity|exact Eflag|reflexivity].
Qed.

Lemma scans_on_nil (stream : Z) (reqs : list draw_request) :
  scans_on stream reqs [] = 0%nat.
Proof. unfold scans_on. destruct reqs; reflexivity. Qed.

Lemma scans_on_cons (stream : Z) (req : draw_request) (reqs : list draw_request)
    (out : draw_outcome) (outs : list draw_outcome) :
  scans_on stream (req :: reqs) (out :: outs)
  = ((if (sd req =? stream)%Z && scan_ran out then 1 else 0)
     + scans_on stream reqs outs)%nat.
Proof.
  unfold scans_on. cbn [zip zip_with]. rewrite filter_cons. cbn [fst snd].
  destruct ((sd req =? stream) && scan_ran out).
  - rewrite decide_True by exact I. reflexivity.
  - rewrite decide_False by (intros []). reflexivity.
Qed.

(** The scans of a run, by the flag at its start. *)
Lemma run_scans (fuel : nat) (mem : gmap Z kshark_entry)
    (cfg : SlConfig.SlConfig) (reqs : list draw_request) :
  forall (contexts : gmap Z plugin_stacklook_ctx) (stream : Z),
  let contexts' := (run fuel mem cfg contexts reqs).1 in
  let outs := (run fuel mem cfg contexts reqs).2 in
  (scans_on stream reqs outs <= 1)%nat /\
  (searched_flag contexts stream = true ->
   scans_on stream reqs outs = 0%nat /\ searched_flag contexts' stream = true) /\
  (scans_on stream reqs outs = 1%nat -> searched_flag contexts' stream = true).
Proof.
  induction reqs as [|req reqs IH]; intros contexts stream; cbn zeta.
  - simpl. rewrite scans_on_nil. split; [lia|]. split; [auto|discriminate].
  - cbn [run].
    destruct (draw_stacklook_objects fuel mem cfg contexts req)
      as [[contexts1 out]|] eqn:Edraw.
    + apply draw_step in Edraw as [Hmono Hscan].
      specialize (IH contexts1 stream). cbn zeta in IH.
      destruct (run fuel mem cfg contexts1 reqs) as [contexts2 outs] eqn:Erun.
      cbn [fst snd] in *. destruct IH as (Hle & Hset & Hone).
      rewrite scans_on_cons.
      destruct ((sd req =? stream) && scan_ran out) eqn:Ehere.
      * apply andb_true_iff in Ehere as [Hsd Hran].
        apply Z.eqb_eq in Hsd. subst stream.
        destruct (Hscan Hran) as [Hbefore Hafter].
        destruct (Hset Hafter) as [Hzero Hflag]. rewrite Hzero.
        split; [lia|]. split; [|auto]. rewrite Hbefore. discriminate.
      * split; [lia|]. split.
        -- intros Hflag. destruct (Hset (Hmono _ Hflag)) as [-> ?]. auto.
        -- intros Hcount. apply Hone. lia.
    + cbn [fst snd]. rewrite scans_on_nil.
      split; [lia|]. split; [auto|discriminate].
Qed.

(** C5. In every sequence of draw requests, from any state of the
    contexts, the scan of a stream runs at most once; it does not run at
    all when the stream's [searched_for_kstacks] is already set; a flag
    that is set stays set; and a call that runs the scan finds the flag
    clear and leaves it set, whatever the scan found. *)
Theorem scan_at_most_once (fuel : nat) (mem : gmap Z kshark_entry)
    (cfg : SlConfig.SlConfig) (reqs : list draw_request)
    (contexts : gmap Z plugin_stacklook_ctx) (stream : Z) :
  let contexts' := (run fuel mem cfg contexts reqs).1 in
  let outs := (run fuel mem cfg contexts reqs).2 in
  (scans_on stream reqs outs <= 1)%nat /\
  (searched_flag contexts stream = true ->
   scans_on stream reqs outs = 0%nat /\ searched_flag contexts' stream = true) /\
  (scans_on stream reqs outs = 1%nat -> searched_flag contexts' stream = true) /\
  (forall req contexts1 out,
     draw_stacklook_objects fuel mem cfg contexts req = Some (contexts1, out) ->
     scan_ran out = true ->
     searched_flag contexts (sd req) = false /\
     searched_flag contexts1 (sd req) = true).
Proof.
  cbn zeta. destruct (run_scans fuel mem cfg reqs contexts stream) as (Hle & Hset & Hone).
  split; [exact Hle|]. split; [exact Hset|]. split; [exact Hone|].
  intros req contexts1 out Hdraw. apply (draw_step _ _ _ _ _ _ _ Hdraw).
Qed.

(** A field whose scan finds no kernel-stack entry keeps the -1 it was
    collected with, and the check reads that field as a non-null
    pointer: for such a field the check is the conjunction of the
    conditions (2) to (5) alone. *)
Theorem field_without_evidence_is_present (fuel : nat) (mem : gmap Z kshark_entry)
    (contexts : gmap Z plugin_stacklook_ctx) (r : kshark_data_field_int64) :
  (forall rest found data' found',
     get_kstack_entry fuel mem contexts (entry r) = Some nullptr ->
     search_loop fuel mem contexts (r :: rest) found = Some (data', found') ->
     head data' = Some r) /\
  (forall mode cfg ctx val data t,
     data !! t = Some r ->
     field r = -1 ->
     entry r <> nullptr ->
     is_Some (mem !! entry r) ->
     check_func mode mem cfg ctx val data t
     = Some (all_hold (tail (conditions mode mem cfg ctx val r)))).
Proof.
  split.
  - intros rest found data' found' Hnone. cbn [search_loop]. rewrite Hnone.
    cbn [mbind option_bind]. rewrite Z.eqb_refl.
    destruct (search_loop fuel mem contexts rest found) as [[rest' f]|];
      [|discriminate].
    intros [= <- _]. reflexivity.
  - intros mode cfg ctx val data t Hr Hfield Hentry Hmem.
    rewrite (check_func_conjunction mode mem cfg ctx val data t r Hr (fun _ => Hmem)).
    f_equal. unfold conditions, all_hold. cbn [tail forallb id].
    rewrite Hfield. destruct (Z.eqb_spec (entry r) nullptr); [contradiction|].
    reflexivity.
Qed.

End WithHost.

Lemma sample_chain :
  chain sample_mem 16 [(16, switch_entry); (32, other_stack); (48, own_stack)].
Proof.
  apply chain_next; [discriminate|reflexivity|].
  apply chain_next; [discriminate|reflexivity|].
  apply chain_next; [discriminate|reflexivity|].
  apply chain_end.
Qed.

Lemma find_stack_entry_first_match_witness :
  @get_kstack_entry sample_host 2 sample_mem sample_contexts 16 = Some 48.
Proof.
  destruct (@find_stack_entry_first_match sample_host 2 sample_mem sample_contexts 16)
    as (_ & _ & H).
  rewrite (H switch_entry [(32, other_stack); (48, own_stack)] sample_ctx);
    [reflexivity|exact sample_chain|reflexivity|simpl; lia].
Defined.

Lemma eligibility_is_conjunction_witness :
  @check_func sample_host TaskDraw sample_mem SlConfig.initial sample_ctx 100
    [ {| entry := 16; field := 48 |} ] 0 = Some true.
Proof.
  destruct (@eligibility_is_conjunction sample_host TaskDraw sample_mem
              SlConfig.initial sample_ctx 100
              [ {| entry := 16; field := 48 |} ] 0%nat {| entry := 16; field := 48 |})
    as (_ & Heq & _).
  - reflexivity.
  - intros _. exists switch_entry. reflexivity.
  - rewrite Heq. vm_compute. reflexivity.
Defined.

(** A task draw followed by a CPU draw on the sample stream: the first
    call scans, the second does not. *)
Lemma scan_once_sample :
  (@run sample_host 2 sample_mem SlConfig.initial sample_contexts
     [task_draw; cpu_draw]).2
  = [ {| scan_ran := true; buttons := Some TaskDraw |};
      {| scan_ran := false; buttons := Some CpuDraw |} ].
Proof. vm_compute. reflexivity. Qed.

(** The contexts of the two-switch sample after one task draw. *)
Lemma two_switch_scanned :
  (@run sample_host 2 two_switch_mem SlConfig.initial two_switch_contexts
     [lone_task_draw]).1 !! 0
  = Some {| sswitch_event_id := 5; kstack_event_id := 9; kstacks_exist := true;
            searched_for_kstacks := true; swaking_event_id := 6;
            collected_events := Some [ {| entry := 16; field := 48 |};
                                       {| entry := 80; field := -1 |} ] |}.
Proof. vm_compute. reflexivity. Qed.

Lemma field_without_evidence_is_present_witness :
  @check_func sample_host TaskDraw two_switch_mem SlConfig.initial sample_ctx 300
    [ {| entry := 16; field := 48 |}; {| entry := 80; field := -1 |} ] 1
  = Some true.
Proof.
  destruct (@field_without_evidence_is_present sample_host 2 two_switch_mem
              two_switch_contexts {| entry := 80; field := -1 |}) as [_ Hcheck].
  rewrite (Hcheck TaskDraw SlConfig.initial sample_ctx 300
             [ {| entry := 16; field := 48 |}; {| entry := 80; field := -1 |} ] 1%nat);
    [vm_compute; reflexivity|reflexivity|reflexivity|discriminate|].
  exists lone_switch. reflexivity.
Defined.

(** C3, the failing input.  In the two-switch stream the task switch at
    address 80 (task 300) is followed by no kernel stack: the
    association finds none for it, and the scan leaves its field at the
    -1 it was collected with.  Conditions (2) to (5) hold for it in the
    plot of task 300 and condition (1) does not, yet the check accepts
    it: the pointer cast from -1 is not null.  The switch at 16, whose
    kernel stack is at 48, has its evidence and is accepted in the plot
    of task 100. *)
Theorem eligibility_without_evidence :
  (@run sample_host 2 two_switch_mem SlConfig.initial two_switch_contexts
     [lone_task_draw]).1 !! 0
  = Some {| sswitch_event_id := 5; kstack_event_id := 9; kstacks_exist := true;
            searched_for_kstacks := true; swaking_event_id := 6;
            collected_events := Some [ {| entry := 16; field := 48 |};
                                       {| entry := 80; field := -1 |} ] |} /\
  @get_kstack_entry sample_host 2 two_switch_mem two_switch_contexts 80 = Some nullptr /\
  @has_evidence sample_host 2 two_switch_mem two_switch_contexts
    {| entry := 80; field := -1 |} = false /\
  tail (@conditions sample_host TaskDraw two_switch_mem SlConfig.initial
          {| sswitch_event_id := 5; kstack_event_id := 9; kstacks_exist := true;
             searched_for_kstacks := true; swaking_event_id := 6;
             collected_events := Some [ {| entry := 16; field := 48 |};
                                        {| entry := 80; field := -1 |} ] |}
          300 {| entry := 80; field := -1 |}) = [true; true; true; true] /\
  ptr_of_int64 (-1) = 2 ^ 64 - 1 /\
  @check_func sample_host TaskDraw two_switch_mem SlConfig.initial
    {| sswitch_event_id := 5; kstack_event_id := 9; kstacks_exist := true;
       searched_for_kstacks := true; swaking_event_id := 6;
       collected_events := Some [ {| entry := 16; field := 48 |};
                                  {| entry := 80; field := -1 |} ] |}
    300 [ {| entry := 16; field := 48 |}; {| entry := 80; field := -1 |} ] 1
  = Some true /\
  @has_evidence sample_host 2 two_switch_mem two_switch_contexts
    {| entry := 16; field := 48 |} = true /\
  @check_func sample_host TaskDraw two_switch_mem SlConfig.initial
    {| sswitch_event_id := 5; kstack_event_id := 9; kstacks_exist := true;
       searched_for_kstacks := true; swaking_event_id := 6;
       collected_events := Some [ {| entry := 16; field := 48 |};
                                  {| entry := 80; field := -1 |} ] |}
    100 [ {| entry := 16; field := 48 |}; {| entry := 80; field := -1 |} ] 0
  = Some true.
Proof.
  split; [exact two_switch_scanned|].
  split; [vm_compute; reflexivity|]. split; [vm_compute; reflexivity|].
  split; [vm_compute; reflexivity|]. split; [vm_compute; reflexivity|].
  split; [vm_compute; reflexivity|]. split; vm_compute; reflexivity.
Qed.

Lemma scan_at_most_once_witness :
  (scans_on 0 [task_draw; cpu_draw]
     (@run sample_host 2 sample_mem SlConfig.initial sample_contexts
        [task_draw; cpu_draw]).2 <= 1)%nat.
Proof.
  apply (@scan_at_most_once sample_host 2 sample_mem SlConfig.initial
           [task_draw; cpu_draw] sample_contexts 0).
Defined.

End StacklookProperties.

(** ** The previous-state code (SlPrevState.cpp) *)

Module PrevStateProperties.
Import StdString StdStringFacts KShark SlPrevState Samples.

Section WithHost.
Context `{Host}.

(** C8 (as amended). When the FIRST occurrence of the marker [" ==>"]
    in the info string, the one [find] locates, is at a position
    [pos >= 1], the read at [pos - 1] is in range:
    [get_switch_prev_state] returns the one character before the marker,
    and [get_longer_prev_state] returns that character, [" - "], and the
    name the table gives it, or ["unknown"] for a character the table
    does not hold. *)
Theorem prev_state_read_in_range (entry : Z) (pos : Z) (rest : list Z) :
  valid (kshark_get_info entry) ->
  occurrences state_marker (kshark_get_info entry) 0 = pos :: rest ->
  1 <= pos ->
  exists (c : ascii) (name : list ascii),
    kshark_get_info entry !! Z.to_nat (pos - 1) = Some c /\
    get_switch_prev_state entry = Some [c] /\
    get_longer_prev_state entry = Some ([c] ++ lit " - " ++ name) /\
    (LETTER_TO_NAME !! c = Some name \/
     (LETTER_TO_NAME !! c = None /\ name = lit "unknown")) /\
    LETTER_TO_NAME !! "S"%char = Some (lit "sleeping") /\
    LETTER_TO_NAME !! "R"%char = Some (lit "running") /\
    LETTER_TO_NAME !! "Z"%char = Some (lit "zombie").
Proof.
  intros Hv Hocc Hpos. set (info := kshark_get_info entry) in *.
  pose proof (size_nonneg info) as Hs. pose proof (valid_size_lt _ Hv) as Hlt.
  assert (Hfind : find state_marker info 0 = pos).
  { rewrite find_occurrences_from by (try discriminate; lia).
    rewrite occurrences_from_0, Hocc. reflexivity. }
  assert (Hb : 0 <= pos < size info).
  { apply (occurrences_bounds state_marker info 0 pos). rewrite Hocc. left. reflexivity. }
  destruct (lookup_lt_is_Some_2 info (Z.to_nat (pos - 1))) as [c Hc];
    [unfold size in Hb; lia|].
  assert (Hraw : get_switch_prev_state entry = Some [c]).
  { unfold get_switch_prev_state. cbn zeta. fold info. rewrite Hfind.
    assert (Hmod : size_t_modulus = npos + 1) by reflexivity.
    rewrite wrap_small by lia. rewrite substr_in_range by lia.
    rewrite (drop_S _ _ _ Hc). reflexivity. }
  assert (Htable : LETTER_TO_NAME !! "S"%char = Some (lit "sleeping") /\
                   LETTER_TO_NAME !! "R"%char = Some (lit "running") /\
                   LETTER_TO_NAME !! "Z"%char = Some (lit "zombie")).
  { repeat split; vm_compute; reflexivity. }
  unfold get_longer_prev_state. rewrite Hraw. cbn [mbind option_bind].
  change (default NUL (head [c])) with c.
  destruct (LETTER_TO_NAME !! c) as [name|] eqn:E.
  - exists c, name.
    split; [exact Hc|]. split; [reflexivity|]. split; [reflexivity|].
    split; [|exact Htable]. left. exact E.
  - exists c, (lit "unknown").
    split; [exact Hc|]. split; [reflexivity|]. split; [reflexivity|].
    split; [|exact Htable]. right. split; [exact E|reflexivity].
Qed.

End WithHost.

Lemma prev_state_read_in_range_witness :
  @get_longer_prev_state sample_host 16 = Some (lit "S - sleeping").
Proof.
  destruct (@prev_state_read_in_range sample_host 16 16 [])
    as (c & name & Hc & _ & Hlong & Hname & Hs & _).
  - apply Z.leb_le. vm_compute. reflexivity.
  - vm_compute. reflexivity.
  - lia.
  - rewrite Hlong. vm_compute in Hc. injection Hc as <-.
    rewrite Hs in Hname.
    destruct Hname as [[= <-]|[[=] _]]. reflexivity.
Defined.

(** C8 as stated fails: this info string holds the marker at index 4,
    a position [>= 1], but [find] locates the occurrence at index 0, and
    the read before it is out of range. *)
Lemma prev_state_marker_at_start_counterexample :
  @kshark_get_info sample_host 64 = lit " ==> ==>" /\
  occurrences state_marker (lit " ==> ==>") 0 = [0; 4] /\
  find state_marker (lit " ==> ==>") 0 = 0 /\
  @get_switch_prev_state sample_host 64 = None /\
  @get_longer_prev_state sample_host 64 = None.
Proof. repeat split; vm_compute; reflexivity. Qed.

End PrevStateProperties.

(** ** The hit test (SlButton.cpp) *)

Module GeometryProperties.
Import SlButton GeometrySpec Samples.

Lemma int_in_range (z : Z) : INT_MIN <= z <= INT_MAX -> int z = Some z.
Proof.
  intros [Hlo Hhi]. unfold int.
  apply Z.leb_le in Hlo. apply Z.leb_le in Hhi. rewrite Hlo, Hhi. reflexivity.
Qed.

Lemma product_bound (u v : Z) :
  - 2 ^ 14 <= u <= 2 ^ 14 -> - 2 ^ 15 <= v <= 2 ^ 15 ->
  - 2 ^ 29 <= u * v <= 2 ^ 29.
Proof.
  intros Hu Hv.
  assert (Habs : Z.abs (u * v) <= 2 ^ 14 * 2 ^ 15).
  { rewrite Z.abs_mul. apply Z.mul_le_mono_nonneg; lia. }
  change (2 ^ 14 * 2 ^ 15) with (2 ^ 29) in Habs. lia.
Qed.

(** Within the plot range no step of the area overflows. *)
Lemma trigon_area_in_plot (a b c : ksplot_point) :
  in_plot a -> in_plot b -> in_plot c ->
  _trigon_area a b c = Some (area a b c).
Proof.
  unfold in_plot, plot_limit. intros [Hax Hay] [Hbx Hby] [Hcx Hcy].
  pose proof (product_bound (x a) (y b - y c) Hax ltac:(lia)) as H1.
  pose proof (product_bound (x b) (y c - y a) Hbx ltac:(lia)) as H2.
  pose proof (product_bound (x c) (y a - y b) Hcx ltac:(lia)) as H3.
  unfold _trigon_area, INT_MIN, INT_MAX in *.
  rewrite (int_in_range (y b - y c)) by (unfold INT_MIN, INT_MAX; lia).
  cbn [mbind option_bind].
  rewrite (int_in_range (x a * _)) by (unfold INT_MIN, INT_MAX; lia).
  cbn [mbind option_bind].
  rewrite (int_in_range (y c - y a)) by (unfold INT_MIN, INT_MAX; lia).
  cbn [mbind option_bind].
  rewrite (int_in_range (x b * _)) by (unfold INT_MIN, INT_MAX; lia).
  cbn [mbind option_bind].
  rewrite (int_in_range (y a - y b)) by (unfold INT_MIN, INT_MAX; lia).
  cbn [mbind option_bind].
  rewrite (int_in_range (x c * _)) by (unfold INT_MIN, INT_MAX; lia).
  cbn [mbind option_bind].
  rewrite (int_in_range (_ + _)) by (unfold INT_MIN, INT_MAX; lia).
  cbn [mbind option_bind].
  rewrite (int_in_range (_ + _ + _)) by (unfold INT_MIN, INT_MAX; lia).
  reflexivity.
Qed.

(** The comparison of the areas, on the shoelace sums. *)
Lemma areas_equal_iff (s s1 s2 s3 : Z) :
  Qeq_bool (Qabs (inject_Z s / 2))
           (Qabs (inject_Z s1 / 2) + Qabs (inject_Z s2 / 2) + Qabs (inject_Z s3 / 2))
  = (Z.abs s =? Z.abs s1 + Z.abs s2 + Z.abs s3).
Proof.
  apply eq_true_iff_eq. rewrite Qeq_bool_iff, Z.eqb_eq.
  unfold Qeq, Qabs, Qdiv, Qmult, Qinv, Qplus, inject_Z. simpl.
  lia.
Qed.

Lemma distance_in_plot (a b c : ksplot_point) (px py : Z) :
  let p := {| x := px; y := py |} in
  in_plot a -> in_plot b -> in_plot c -> in_plot p ->
  distance a b c px py
  = Some (if Z.abs (shoelace a b c)
             =? Z.abs (shoelace p b c) + Z.abs (shoelace a p c) + Z.abs (shoelace a b p)
          then 0%Q else DBL_MAX).
Proof.
  intros p Ha Hb Hc Hp. unfold distance. cbn zeta. fold p.
  rewrite !trigon_area_in_plot by assumption.
  cbn [mbind option_bind]. unfold area. rewrite areas_equal_iff. reflexivity.
Qed.









(** A point strictly inside the button and one strictly outside. *)
Lemma hit_test_samples :
  distance button_a button_b button_c 100 80 = Some 0%Q /\
  distance button_a button_b button_c 100 99 = Some DBL_MAX.
Proof. split; vm_compute; reflexivity. Qed.


End GeometryProperties.

(** ** The association beyond the first match: soundness, cycles, the scan *)

Module ScanProperties.
Import KShark Stacklook StacklookSpec ScanSpec Samples MoreSamples.

Section WithHost.
Context `{Host}.

Lemma kstack_walk_sound (mem : gmap Z kshark_entry) (ctx : plugin_stacklook_ctx)
    (task_pid : Z) :
  forall (fuel : nat) (p : Z) (e : kshark_entry) (k : Z),
  mem !! p = Some e ->
  kstack_walk fuel mem ctx task_pid p e = Some k -> k <> nullptr ->
  rtc (link mem) p k /\
  exists ke, mem !! k = Some ke /\ is_kstack_of ctx task_pid (k, ke) = true.
Proof.
  induction fuel as [|fuel IH]; intros p e k He Hwalk Hk; cbn [kstack_walk] in Hwalk;
    cbn zeta in Hwalk;
    destruct ((event_id e =? kstack_event_id ctx) && (task_pid =? pid e)) eqn:Hm.
  - injection Hwalk as <-. split; [apply rtc_refl|]. exists e. split; [exact He|exact Hm].
  - destruct (next e =? nullptr); [|discriminate]. congruence.
  - injection Hwalk as <-. split; [apply rtc_refl|]. exists e. split; [exact He|exact Hm].
  - destruct (next e =? nullptr); [congruence|].
    destruct (mem !! next e) as [e'|] eqn:He'; [|discriminate].
    cbn [mbind option_bind] in Hwalk.
    destruct (IH (next e) e' k He' Hwalk Hk) as [Hreach Hke].
    split; [|exact Hke].
    eapply rtc_l; [|exact Hreach]. exists e. split; [exact He|reflexivity].
Qed.

Lemma get_kstack_entry_result (fuel : nat) (mem : gmap Z kshark_entry)
    (contexts : gmap Z plugin_stacklook_ctx) (owner k : Z) :
  get_kstack_entry fuel mem contexts owner = Some k ->
  k <> nullptr ->
  exists e ctx,
    mem !! owner = Some e /\ contexts !! stream_id e = Some ctx /\
    kstack_walk fuel mem ctx (effective_pid owner e) owner e = Some k.
Proof.
  intros Hget Hk. unfold get_kstack_entry in Hget. cbn zeta in Hget.
  destruct (owner =? nullptr); [congruence|].
  destruct (mem !! owner) as [e|] eqn:He; [|discriminate].
  cbn [mbind option_bind] in Hget. unfold __get_context in Hget.
  destruct (contexts !! stream_id e) as [ctx|] eqn:Hctx; [|congruence].
  exists e, ctx. split; [reflexivity|]. split; [exact Hctx|exact Hget].
Qed.

(** X5. Whatever [get_kstack_entry] returns that is not the null pointer
    is an entry of the trace, reached from the owner over [next] links,
    whose event id is the kernel-stack id of the owner's stream and whose
    [pid] is the owner's effective process id. *)
Theorem kstack_entry_sound (fuel : nat) (mem : gmap Z kshark_entry)
    (contexts : gmap Z plugin_stacklook_ctx) (owner k : Z) :
  get_kstack_entry fuel mem contexts owner = Some k ->
  k <> nullptr ->
  exists e ctx ke,
    mem !! owner = Some e /\ contexts !! stream_id e = Some ctx /\
    rtc (link mem) owner k /\
    mem !! k = Some ke /\
    event_id ke = kstack_event_id ctx /\
    pid ke = effective_pid owner e.
Proof.
  intros Hget Hk.
  destruct (get_kstack_entry_result fuel mem contexts owner k Hget Hk)
    as (e & ctx & He & Hctx & Hwalk).
  destruct (kstack_walk_sound mem ctx _ fuel owner e k He Hwalk Hk)
    as [Hreach (ke & Hke & Hm)].
  exists e, ctx, ke. unfold is_kstack_of in Hm. cbn [snd] in Hm.
  apply andb_prop in Hm as [Hid Hpid].
  repeat split; try assumption.
  - apply Z.eqb_eq. exact Hid.
  - symmetry. apply Z.eqb_eq. exact Hpid.
Qed.

Lemma kstack_walk_closed (mem : gmap Z kshark_entry) (ctx : plugin_stacklook_ctx)
    (task_pid : Z) (S : Z -> Prop) :
  (forall p, S p -> exists e, mem !! p = Some e /\
                      is_kstack_of ctx task_pid (p, e) = false /\
                      next e <> nullptr /\ S (next e)) ->
  forall (fuel : nat) (p : Z) (e : kshark_entry),
  S p -> mem !! p = Some e ->
  kstack_walk fuel mem ctx task_pid p e = None.
Proof.
  intros Hclosed. induction fuel as [|fuel IH]; intros p e Hp He;
    destruct (Hclosed p Hp) as (e0 & He0 & Hm & Hnext & HS);
    assert (e0 = e) by congruence; subst e0;
    unfold is_kstack_of in Hm; cbn [snd] in Hm;
    cbn [kstack_walk]; cbn zeta; rewrite Hm;
    destruct (Z.eqb_spec (next e) nullptr); try contradiction.
  - reflexivity.
  - destruct (Hclosed _ HS) as (e' & He' & _).
    rewrite He'. cbn [mbind option_bind]. apply IH; assumption.
Qed.

(** X6. The walk of [get_kstack_entry] ends only at a match or at a null
    [next]: from an owner whose links stay within a set [S] of entries,
    none of them a kernel-stack entry of the owner's task and none with a
    null [next] (a cycle), there is no result, however many links are
    followed. *)
Theorem kstack_entry_cycle_no_result (mem : gmap Z kshark_entry)
    (contexts : gmap Z plugin_stacklook_ctx) (owner : Z) (e : kshark_entry)
    (ctx : plugin_stacklook_ctx) (S : Z -> Prop) :
  owner <> nullptr ->
  mem !! owner = Some e ->
  contexts !! stream_id e = Some ctx ->
  S owner ->
  (forall p, S p -> exists e', mem !! p = Some e' /\
                      is_kstack_of ctx (effective_pid owner e) (p, e') = false /\
                      next e' <> nullptr /\ S (next e')) ->
  forall fuel, get_kstack_entry fuel mem contexts owner = None.
Proof.
  intros Hnn He Hctx HS Hclosed fuel. unfold get_kstack_entry. cbn zeta.
  destruct (Z.eqb_spec owner nullptr); [contradiction|].
  rewrite He. cbn [mbind option_bind]. unfold __get_context. rewrite Hctx.
  apply (kstack_walk_closed mem ctx _ S Hclosed); assumption.
Qed.

Lemma search_loop_spec (fuel : nat) (mem : gmap Z kshark_entry)
    (contexts : gmap Z plugin_stacklook_ctx) :
  forall (data : list kshark_data_field_int64) (found : bool)
         (data' : list kshark_data_field_int64) (found' : bool),
  search_loop fuel mem contexts data found = Some (data', found') ->
  Forall2 (scanned fuel mem contexts) data data' /\
  found' = found || existsb (resolves fuel mem contexts) data.
Proof.
  induction data as [|r rest IH]; intros found data' found' Hloop;
    cbn [search_loop] in Hloop.
  - injection Hloop as <- <-. split; [constructor|]. cbn. rewrite orb_false_r. reflexivity.
  - destruct (get_kstack_entry fuel mem contexts (entry r)) as [k|] eqn:Hk;
      [|discriminate].
    cbn [mbind option_bind] in Hloop.
    destruct (k =? nullptr) eqn:Hnull.
    + destruct (search_loop fuel mem contexts rest found) as [[rest' f]|] eqn:Hrest;
        [|discriminate].
      cbn in Hloop. injection Hloop as <- <-.
      destruct (IH _ _ _ Hrest) as [Hall Hf]. split.
      * constructor; [|exact Hall]. exists k. rewrite Hnull. split; [exact Hk|reflexivity].
      * cbn [existsb]. unfold resolves at 1. rewrite Hk, Hnull. cbn. exact Hf.
    + destruct (search_loop fuel mem contexts rest true) as [[rest' f]|] eqn:Hrest;
        [|discriminate].
      cbn in Hloop. injection Hloop as <- <-.
      destruct (IH _ _ _ Hrest) as [Hall Hf]. split.
      * constructor; [|exact Hall]. exists k. rewrite Hnull. split; [exact Hk|reflexivity].
      * cbn [existsb]. unfold resolves at 1. rewrite Hk, Hnull. cbn.
        rewrite Hf, orb_true_r. reflexivity.
Qed.

Lemma scanned_entry (fuel : nat) (mem : gmap Z kshark_entry)
    (contexts : gmap Z plugin_stacklook_ctx) (r r' : kshark_data_field_int64) :
  scanned fuel mem contexts r r' -> entry r' = entry r.
Proof.
  intros (k & _ & ->). destruct (k =? nullptr); reflexivity.
Qed.

Lemma search_for_kstacks_spec (fuel : nat) (mem : gmap Z kshark_entry)
    (contexts : gmap Z plugin_stacklook_ctx)
    (data : list kshark_data_field_int64)
    (dct' : option (list kshark_data_field_int64)) (found : bool) :
  search_for_kstacks fuel mem contexts (Some data) = Some (dct', found) ->
  exists data', dct' = Some data' /\
    Forall2 (scanned fuel mem contexts) data data' /\
    found = existsb (resolves fuel mem contexts) data.
Proof.
  unfold search_for_kstacks. destruct data as [|r rest].
  - cbn. intros [= <- <-]. exists []. repeat split. constructor.
  - destruct (Z.eqb_spec (Z.of_nat (length (r :: rest))) 0) as [E|_];
      [cbn [length] in E; lia|].
    destruct (search_loop fuel mem contexts (r :: rest) false) as [[data' f]|] eqn:Hloop;
      [|discriminate].
    cbn. intros [= <- <-]. exists data'.
    destruct (search_loop_spec _ _ _ _ _ _ _ Hloop) as [Hall Hf].
    repeat split; assumption.
Qed.

(** X7. The scan neither drops, adds nor reorders the collected records,
    and leaves every entry pointer as it is: only fields are written. *)
Theorem scan_keeps_entries (fuel : nat) (mem : gmap Z kshark_entry)
    (contexts : gmap Z plugin_stacklook_ctx)
    (data : list kshark_data_field_int64)
    (dct' : option (list kshark_data_field_int64)) (found : bool) :
  search_for_kstacks fuel mem contexts (Some data) = Some (dct', found) ->
  exists data', dct' = Some data' /\
    length data' = length data /\
    entry <$> data' = entry <$> data.
Proof.
  intros Hs. destruct (search_for_kstacks_spec _ _ _ _ _ _ Hs) as (data' & -> & Hall & _).
  exists data'. split; [reflexivity|]. split.
  - symmetry. eapply Forall2_length. exact Hall.
  - clear Hs. induction Hall as [|r r' l l' Hr _ IH]; [reflexivity|].
    cbn [fmap list_fmap]. rewrite (scanned_entry _ _ _ _ _ Hr).
    f_equal. exact IH.
Qed.

(** X8. The flag the scan returns is set exactly when the walk from one
    of the collected entries ends at a kernel-stack entry. *)
Theorem scan_flag_iff_resolved (fuel : nat) (mem : gmap Z kshark_entry)
    (contexts : gmap Z plugin_stacklook_ctx)
    (data : list kshark_data_field_int64)
    (dct' : option (list kshark_data_field_int64)) (found : bool) :
  search_for_kstacks fuel mem contexts (Some data) = Some (dct', found) ->
  found = true <->
  exists r k, In r data /\
    get_kstack_entry fuel mem contexts (entry r) = Some k /\ k <> nullptr.
Proof.
  intros Hs. destruct (search_for_kstacks_spec _ _ _ _ _ _ Hs) as (data' & _ & _ & ->).
  rewrite existsb_exists. split.
  - intros (r & Hin & Hres). unfold resolves in Hres.
    destruct (get_kstack_entry fuel mem contexts (entry r)) as [k|] eqn:Hk;
      [|discriminate].
    exists r, k. split; [exact Hin|]. split; [exact Hk|].
    intros ->. discriminate.
  - intros (r & k & Hin & Hk & Hnn). exists r. split; [exact Hin|].
    unfold resolves. rewrite Hk.
    destruct (Z.eqb_spec k nullptr); [contradiction|reflexivity].
Qed.

Lemma search_loop_again (fuel : nat) (mem : gmap Z kshark_entry)
    (contexts : gmap Z plugin_stacklook_ctx) :
  forall (data : list kshark_data_field_int64) (found : bool)
         (data' : list kshark_data_field_int64) (found' : bool),
  search_loop fuel mem contexts data found = Some (data', found') ->
  forall f, search_loop fuel mem contexts data' f
            = Some (data', f || existsb (resolves fuel mem contexts) data).
Proof.
  induction data as [|r rest IH]; intros found data' found' Hloop f;
    cbn [search_loop] in Hloop.
  - injection Hloop as <- <-. cbn. rewrite orb_false_r. reflexivity.
  - destruct (get_kstack_entry fuel mem contexts (entry r)) as [k|] eqn:Hk;
      [|discriminate].
    cbn [mbind option_bind] in Hloop.
    destruct (k =? nullptr) eqn:Hnull.
    + destruct (search_loop fuel mem contexts rest found) as [[rest' f']|] eqn:Hrest;
        [|discriminate].
      cbn in Hloop. injection Hloop as <- <-.
      cbn [search_loop existsb]. unfold resolves at 1. rewrite Hk. cbn [mbind option_bind].
      rewrite Hnull. rewrite (IH _ _ _ Hrest f). cbn. reflexivity.
    + destruct (search_loop fuel mem contexts rest true) as [[rest' f']|] eqn:Hrest;
        [|discriminate].
      cbn in Hloop. injection Hloop as <- <-.
      cbn [search_loop existsb entry]. unfold resolves at 1. rewrite Hk.
      cbn [mbind option_bind]. rewrite Hnull. rewrite (IH _ _ _ Hrest true). cbn.
      rewrite orb_true_r. reflexivity.
Qed.

(** X9. Scanning a scanned container changes nothing: a second
    [search_for_kstacks] returns the same container and the same flag. *)
Theorem scan_idempotent (fuel : nat) (mem : gmap Z kshark_entry)
    (contexts : gmap Z plugin_stacklook_ctx)
    (dct dct' : option (list kshark_data_field_int64)) (found : bool) :
  search_for_kstacks fuel mem contexts dct = Some (dct', found) ->
  search_for_kstacks fuel mem contexts dct' = Some (dct', found).
Proof.
  destruct dct as [data|]; [|cbn; intros [= <- <-]; reflexivity].
  intros Hs.
  destruct (search_for_kstacks_spec _ _ _ _ _ _ Hs) as (data' & -> & Hall & Hf).
  pose proof (Forall2_length _ _ _ Hall) as Hlen.
  unfold search_for_kstacks in *.
  destruct data as [|r rest].
  - destruct data'; [|discriminate]. exact Hs.
  - destruct data' as [|r' rest']; [discriminate|].
    destruct (Z.eqb_spec (Z.of_nat (length (r :: rest))) 0) as [E|_];
      [cbn [length] in E; lia|].
    destruct (Z.eqb_spec (Z.of_nat (length (r' :: rest'))) 0) as [E|_];
      [cbn [length] in E; lia|].
    destruct (search_loop fuel mem contexts (r :: rest) false) as [[d f]|] eqn:Hloop;
      [|discriminate].
    cbn in Hs. injection Hs as <- <-.
    rewrite (search_loop_again _ _ _ _ _ _ _ Hloop false). cbn [mbind option_bind orb].
    destruct (search_loop_spec _ _ _ _ _ _ _ Hloop) as [_ ->]. reflexivity.
Qed.

Lemma ptr_int64_round_trip (p : Z) :
  0 <= p < 2 ^ 64 -> ptr_of_int64 (int64_of_ptr p) = p.
Proof.
  intros Hp. unfold ptr_of_int64, int64_of_ptr.
  rewrite <- (Z.mod_small p (2 ^ 64)) at 2 by exact Hp.
  rewrite Zminus_mod_idemp_l.
  replace (p + 2 ^ 63 - 2 ^ 63) with p by lia. reflexivity.
Qed.

(** X10. After the scan every record either is as it was collected (the
    walk from its entry found nothing) or holds, in its field, a value
    that casts back to the address of a kernel-stack entry of the
    stream, recorded for the effective process id of the record's
    entry. Addresses are 64-bit. *)
Theorem scan_fields_point_to_stacks (fuel : nat) (mem : gmap Z kshark_entry)
    (contexts : gmap Z plugin_stacklook_ctx)
    (data data' : list kshark_data_field_int64) (found : bool) (i : nat)
    (r r' : kshark_data_field_int64) :
  (forall p, is_Some (mem !! p) -> 0 <= p < 2 ^ 64) ->
  search_for_kstacks fuel mem contexts (Some data) = Some (Some data', found) ->
  data !! i = Some r -> data' !! i = Some r' ->
  r' = r \/
  exists e ctx ke,
    mem !! entry r = Some e /\ contexts !! stream_id e = Some ctx /\
    entry r' = entry r /\
    mem !! ptr_of_int64 (field r') = Some ke /\
    event_id ke = kstack_event_id ctx /\
    pid ke = effective_pid (entry r) e.
Proof.
  intros Haddr Hs Hi Hi'.
  destruct (search_for_kstacks_spec _ _ _ _ _ _ Hs) as (d & [= <-] & Hall & _).
  destruct (Forall2_lookup_lr _ _ _ _ _ _ Hall Hi Hi') as (k & Hk & ->).
  destruct (k =? nullptr) eqn:Hnull; [left; reflexivity|right].
  assert (Hnn : k <> nullptr) by (intros ->; discriminate).
  destruct (get_kstack_entry_result fuel mem contexts (entry r) k Hk Hnn)
    as (e & ctx & He & Hctx & Hwalk).
  destruct (kstack_walk_sound mem ctx _ fuel (entry r) e k He Hwalk Hnn)
    as [_ (ke & Hke & Hm)].
  unfold is_kstack_of in Hm. cbn [snd] in Hm.
  apply andb_prop in Hm as [Hid%Z.eqb_eq Hpid%Z.eqb_eq].
  exists e, ctx, ke. cbn [entry field].
  rewrite ptr_int64_round_trip by (apply Haddr; rewrite Hke; eauto).
  repeat split; try assumption. symmetry. exact Hpid.
Qed.

(** *** The draw handler *)

Lemma unchanged_frame (contexts : gmap Z plugin_stacklook_ctx) (req : draw_request) :
  (forall s, s <> sd req -> contexts !! s = contexts !! s) /\
  (contexts !! sd req = None -> contexts = contexts) /\
  (forall ctx, contexts !! sd req = Some ctx ->
     exists ctx', contexts !! sd req = Some ctx' /\
       sswitch_event_id ctx' = sswitch_event_id ctx /\
       swaking_event_id ctx' = swaking_event_id ctx /\
       kstack_event_id ctx' = kstack_event_id ctx /\
       (searched_for_kstacks ctx = true ->
        searched_for_kstacks ctx' = true /\ kstacks_exist ctx' = kstacks_exist ctx)).
Proof.
  split; [reflexivity|]. split; [reflexivity|].
  intros ctx Hctx. exists ctx. split; [exact Hctx|].
  split; [reflexivity|]. split; [reflexivity|]. split; [reflexivity|].
  intros Hsearched. split; [exact Hsearched|reflexivity].
Qed.

(** X11. The statements of the draw handler write to one context at
    most, that of the request's stream: every other stream keeps its
    context (or its lack of one), and in the stream's own context the
    three event ids are as before; a stream that was scanned stays
    scanned and keeps its record of whether stacks exist.  The statement
    is about the fields of the context: the container of the stream,
    which the handler passes on to the host's plotting routine, is no
    part of it. *)
Theorem draw_preserves_contexts (fuel : nat) (mem : gmap Z kshark_entry)
    (cfg : SlConfig.SlConfig) (contexts contexts' : gmap Z plugin_stacklook_ctx)
    (req : draw_request) (out : draw_outcome) :
  draw_stacklook_objects fuel mem cfg contexts req = Some (contexts', out) ->
  (forall s, s <> sd req -> contexts' !! s = contexts !! s) /\
  (contexts !! sd req = None -> contexts' = contexts) /\
  (forall ctx, contexts !! sd req = Some ctx ->
     exists ctx', contexts' !! sd req = Some ctx' /\
       sswitch_event_id ctx' = sswitch_event_id ctx /\
       swaking_event_id ctx' = swaking_event_id ctx /\
       kstack_event_id ctx' = kstack_event_id ctx /\
       (searched_for_kstacks ctx = true ->
        searched_for_kstacks ctx' = true /\ kstacks_exist ctx' = kstacks_exist ctx)).
Proof.
  intros Hdraw. unfold draw_stacklook_objects in Hdraw. cbn zeta in Hdraw.
  destruct (negb _); [injection Hdraw as <- <-; apply unchanged_frame|].
  destruct (_ <? _); [injection Hdraw as <- <-; apply unchanged_frame|].
  unfold __get_context in Hdraw.
  destruct (contexts !! sd req) as [ctx|] eqn:Hctx; [|discriminate].
  cbn [mbind option_bind] in Hdraw.
  destruct (collected_events ctx) as [data|] eqn:Hdata;
    [|injection Hdraw as <- <-; rewrite <- Hctx; apply unchanged_frame].
  destruct (searched_for_kstacks ctx) eqn:Hsearched; cbn [negb] in Hdraw.
  - cbn [mbind option_bind] in Hdraw.
    assert (contexts' = contexts) as ->.
    { destruct (negb (kstacks_exist ctx)); injection Hdraw as <- <-;
        apply insert_id; exact Hctx. }
    rewrite <- Hctx. apply unchanged_frame.
  - destruct (search_for_kstacks fuel mem contexts (Some data)) as [[dct' found]|] eqn:Hs;
      [|discriminate].
    cbn [mbind option_bind] in Hdraw.
    set (ctx' := {| sswitch_event_id := sswitch_event_id ctx;
                    kstack_event_id := kstack_event_id ctx;
                    kstacks_exist := found;
                    searched_for_kstacks := true;
                    swaking_event_id := swaking_event_id ctx;
                    collected_events := dct' |}) in *.
    assert (contexts' = <[sd req := ctx']> contexts) as ->.
    { destruct (negb (kstacks_exist ctx')); injection Hdraw as <- <-.
      all: reflexivity. }
    split; [intros s Hs'; apply lookup_insert_ne; congruence|].
    split; [discriminate|].
    intros ctx0 [= <-]. exists ctx'. rewrite lookup_insert_eq.
    split; [reflexivity|]. split; [reflexivity|]. split; [reflexivity|].
    split; [reflexivity|]. congruence.
Qed.

(** X12. Once a stream was scanned, every later call of the draw handler
    on it has a result, runs no scan and leaves all contexts exactly as
    they are, whatever the request asks for. *)
Theorem draw_read_only_after_scan (fuel : nat) (mem : gmap Z kshark_entry)
    (cfg : SlConfig.SlConfig) (contexts : gmap Z plugin_stacklook_ctx)
    (req : draw_request) :
  searched_flag contexts (sd req) = true ->
  exists out, draw_stacklook_objects fuel mem cfg contexts req = Some (contexts, out) /\
              scan_ran out = false.
Proof.
  unfold searched_flag. intros Hflag.
  destruct (contexts !! sd req) as [ctx|] eqn:Hctx; [|discriminate].
  unfold draw_stacklook_objects. cbn zeta.
  destruct (negb _); [eexists; split; reflexivity|].
  destruct (_ <? _); [eexists; split; reflexivity|].
  unfold __get_context. rewrite Hctx. cbn [mbind option_bind].
  destruct (collected_events ctx); [|eexists; split; reflexivity].
  rewrite Hflag. cbn [negb mbind option_bind]. rewrite (insert_id _ _ _ Hctx).
  destruct (negb (kstacks_exist ctx)); eexists; split; reflexivity.
Qed.

(** The record of a followed task switch after the scanning draw, given
    that the call has a result. *)
Lemma followed_switch_marker_of_result (fuel : nat) (mem : gmap Z kshark_entry)
    (cfg : SlConfig.SlConfig) (contexts contexts' : gmap Z plugin_stacklook_ctx)
    (req : draw_request) (out : draw_outcome) (ctx : plugin_stacklook_ctx)
    (data : list kshark_data_field_int64) (t : nat) (p f q : Z)
    (e ke : kshark_entry) :
  draw_stacklook_objects (S fuel) mem cfg contexts req = Some (contexts', out) ->
  draw_action req = KSHARK_TASK_DRAW ->
  tot_count req <= SlConfig.get_histo_limit cfg ->
  contexts !! sd req = Some ctx ->
  collected_events ctx = Some data ->
  searched_for_kstacks ctx = false ->
  data !! t = Some {| entry := p; field := f |} ->
  p <> nullptr -> mem !! p = Some e -> stream_id e = sd req ->
  event_id e = sswitch_event_id ctx -> event_id e <> kstack_event_id ctx ->
  Z.land (visible e) KS_PLUGIN_UNTOUCHED_MASK <> 0 ->
  Z.land (visible e) KS_EVENT_VIEW_FILTER_MASK <> 0 ->
  Z.land (visible e) KS_GRAPH_VIEW_FILTER_MASK <> 0 ->
  SlConfig.is_event_allowed cfg p = true ->
  next e = q -> q <> nullptr -> 0 <= q < 2 ^ 64 -> mem !! q = Some ke ->
  event_id ke = kstack_event_id ctx -> pid ke = pid e ->
  out = {| scan_ran := true; buttons := Some TaskDraw |} /\
  exists ctx' data',
    contexts' !! sd req = Some ctx' /\
    collected_events ctx' = Some data' /\
    data' !! t = Some {| entry := p; field := int64_of_ptr q |} /\
    check_func TaskDraw mem cfg ctx' (pid e) data' t = Some true.
Proof.
  intros Hdraw Haction Hcount Hctx Hdata Hsearched Ht Hp He Hstream Hswitch Hnotstack
    Huntouched Hevent Hgraph Hallowed Hnext Hq Hqrange Hke Hkstack Hpid.
  assert (Hfind : get_kstack_entry (S fuel) mem contexts p = Some q).
  { unfold get_kstack_entry. cbn zeta.
    destruct (Z.eqb_spec p nullptr); [contradiction|].
    rewrite He. cbn [mbind option_bind]. unfold __get_context.
    rewrite Hstream, Hctx.
    destruct (Z.eqb_spec (Z.land (visible e) KS_PLUGIN_UNTOUCHED_MASK) 0);
      [contradiction|].
    cbn [kstack_walk]. cbn zeta.
    destruct (Z.eqb_spec (event_id e) (kstack_event_id ctx)); [contradiction|].
    cbn [andb]. rewrite Hnext.
    destruct (Z.eqb_spec q nullptr); [contradiction|].
    rewrite Hke. cbn [mbind option_bind].
    destruct fuel; cbn [kstack_walk]; cbn zeta;
      rewrite Hkstack, Hpid, !Z.eqb_refl; reflexivity. }
  unfold draw_stacklook_objects in Hdraw. cbn zeta in Hdraw.
  rewrite Haction, Z.eqb_refl, orb_true_r in Hdraw. cbn [negb] in Hdraw.
  destruct (Z.ltb_spec (SlConfig.get_histo_limit cfg) (tot_count req)); [lia|].
  unfold __get_context in Hdraw. rewrite Hctx in Hdraw.
  cbn [mbind option_bind] in Hdraw. rewrite Hdata, Hsearched in Hdraw.
  cbn [negb] in Hdraw.
  destruct (search_for_kstacks (S fuel) mem contexts (Some data))
    as [[dct' found]|] eqn:Hscan; [|discriminate].
  destruct (search_for_kstacks_spec _ _ _ _ _ _ Hscan) as (data' & -> & Hall & Hfound).
  assert (Hres : resolves (S fuel) mem contexts {| entry := p; field := f |} = true).
  { unfold resolves. cbn [entry]. rewrite Hfind.
    destruct (Z.eqb_spec q nullptr); [contradiction|reflexivity]. }
  assert (found = true) as ->.
  { rewrite Hfound. apply existsb_exists. eexists. split; [|exact Hres].
    apply list_elem_of_In. eapply list_elem_of_lookup_2. exact Ht. }
  cbn [mbind option_bind kstacks_exist negb] in Hdraw.
  injection Hdraw as <- <-. split; [reflexivity|].
  destruct (Forall2_lookup_l _ _ _ _ _ Hall Ht) as (r' & Ht' & k & Hk & Hr').
  cbn [entry] in Hk, Hr'. rewrite Hfind in Hk. injection Hk as <-.
  destruct (Z.eqb_spec q nullptr); [contradiction|]. subst r'.
  eexists. exists data'. rewrite lookup_insert_eq.
  split; [reflexivity|]. cbn [collected_events]. split; [reflexivity|].
  split; [exact Ht'|].
  unfold check_func. rewrite Ht'. cbn [mbind option_bind entry field]. cbn zeta.
  destruct (Z.eqb_spec p nullptr); [contradiction|].
  rewrite He. cbn [mbind option_bind]. unfold _check_function_general.
  destruct (Z.eqb_spec p nullptr); [contradiction|]. cbn [orb].
  rewrite ptr_int64_round_trip by exact Hqrange.
  destruct (Z.eqb_spec q nullptr); [contradiction|].
  rewrite He. cbn [mbind option_bind sswitch_event_id swaking_event_id].
  rewrite Hswitch, Z.eqb_refl, Hallowed. cbn [orb andb].
  destruct (Z.eqb_spec (Z.land (visible e) KS_EVENT_VIEW_FILTER_MASK) 0);
    [contradiction|].
  destruct (Z.eqb_spec (Z.land (visible e) KS_GRAPH_VIEW_FILTER_MASK) 0);
    [contradiction|].
  rewrite Z.eqb_refl. reflexivity.
Qed.

(** The association has a result for a record whose walk ends. *)
Lemma get_kstack_entry_ends (fuel : nat) (mem : gmap Z kshark_entry)
    (contexts : gmap Z plugin_stacklook_ctx) (r : kshark_data_field_int64) :
  walk_ends fuel mem r -> is_Some (get_kstack_entry fuel mem contexts (entry r)).
Proof.
  intros [Hnull|(e & l & Hchain & Hlen)]; unfold get_kstack_entry; cbn zeta.
  - rewrite Hnull. cbn. eauto.
  - pose proof Hchain as Hc. inversion Hc as [|? ? ? Hp He Hnext]; subst.
    destruct (Z.eqb_spec (entry r) nullptr); [contradiction|].
    rewrite He. cbn [mbind option_bind].
    destruct (__get_context contexts (stream_id e)); [|eauto].
    rewrite (StacklookProperties.kstack_walk_first_match mem _ _ l fuel (entry r) e
               Hchain Hlen).
    eauto.
Qed.

(** The scan has a result when the walk of every record ends. *)
Lemma search_loop_ends (fuel : nat) (mem : gmap Z kshark_entry)
    (contexts : gmap Z plugin_stacklook_ctx) (data : list kshark_data_field_int64) :
  Forall (walk_ends fuel mem) data ->
  forall found, is_Some (search_loop fuel mem contexts data found).
Proof.
  induction 1 as [|r rest Hr _ IH]; intros found; cbn [search_loop]; [eauto|].
  destruct (get_kstack_entry_ends fuel mem contexts r Hr) as [k ->].
  cbn [mbind option_bind].
  destruct (k =? nullptr).
  - destruct (IH found) as [[rest' f] ->]. cbn. eauto.
  - destruct (IH true) as [[rest' f] ->]. cbn. eauto.
Qed.

(** X29. From loading to the marker: a collected task switch that is
    untouched, visible and allowed, and whose next entry on its CPU is a
    kernel-stack entry of its task, gets its marker on the first task
    draw that passes the gates, provided the same-CPU chain of every
    collected record is finite (within the bound of the walk).  That
    call has a result: it runs the scan, writes the address of the
    kernel-stack entry into the record's field, asks for the buttons,
    and the record is eligible in the plot of its task. *)
Theorem followed_switch_gets_marker (fuel : nat) (mem : gmap Z kshark_entry)
    (cfg : SlConfig.SlConfig) (contexts : gmap Z plugin_stacklook_ctx)
    (req : draw_request) (ctx : plugin_stacklook_ctx)
    (data : list kshark_data_field_int64) (t : nat) (p f q : Z)
    (e ke : kshark_entry) :
  Forall (walk_ends (S fuel) mem) data ->
  draw_action req = KSHARK_TASK_DRAW ->
  tot_count req <= SlConfig.get_histo_limit cfg ->
  contexts !! sd req = Some ctx ->
  collected_events ctx = Some data ->
  searched_for_kstacks ctx = false ->
  data !! t = Some {| entry := p; field := f |} ->
  p <> nullptr -> mem !! p = Some e -> stream_id e = sd req ->
  event_id e = sswitch_event_id ctx -> event_id e <> kstack_event_id ctx ->
  Z.land (visible e) KS_PLUGIN_UNTOUCHED_MASK <> 0 ->
  Z.land (visible e) KS_EVENT_VIEW_FILTER_MASK <> 0 ->
  Z.land (visible e) KS_GRAPH_VIEW_FILTER_MASK <> 0 ->
  SlConfig.is_event_allowed cfg p = true ->
  next e = q -> q <> nullptr -> 0 <= q < 2 ^ 64 -> mem !! q = Some ke ->
  event_id ke = kstack_event_id ctx -> pid ke = pid e ->
  exists contexts' ctx' data',
    draw_stacklook_objects (S fuel) mem cfg contexts req
    = Some (contexts', {| scan_ran := true; buttons := Some TaskDraw |}) /\
    contexts' !! sd req = Some ctx' /\
    collected_events ctx' = Some data' /\
    data' !! t = Some {| entry := p; field := int64_of_ptr q |} /\
    check_func TaskDraw mem cfg ctx' (pid e) data' t = Some true.
Proof.
  intros Hends Haction Hcount Hctx Hdata Hsearched Ht Hp He Hstream Hswitch Hnotstack
    Huntouched Hevent Hgraph Hallowed Hnext Hq Hqrange Hke Hkstack Hpid.
  assert (Hdraw : is_Some (draw_stacklook_objects (S fuel) mem cfg contexts req)).
  { unfold draw_stacklook_objects. cbn zeta.
    rewrite Haction, Z.eqb_refl, orb_true_r. cbn [negb].
    destruct (Z.ltb_spec (SlConfig.get_histo_limit cfg) (tot_count req)); [lia|].
    unfold __get_context. rewrite Hctx. cbn [mbind option_bind].
    rewrite Hdata, Hsearched. cbn [negb]. unfold search_for_kstacks.
    destruct (Z.eqb_spec (Z.of_nat (length data)) 0) as [E|_].
    - destruct data; [rewrite lookup_nil in Ht; discriminate|cbn [length] in E; lia].
    - destruct (search_loop_ends (S fuel) mem contexts data Hends false)
        as [[data' found] ->].
      cbn [mbind option_bind kstacks_exist]. destruct (negb found); eauto. }
  destruct Hdraw as [[contexts' out] Hdraw].
  destruct (followed_switch_marker_of_result fuel mem cfg contexts contexts' req out ctx
              data t p f q e ke Hdraw Haction Hcount Hctx Hdata Hsearched Ht Hp He
              Hstream Hswitch Hnotstack Huntouched Hevent Hgraph Hallowed Hnext Hq
              Hqrange Hke Hkstack Hpid)
    as (-> & ctx' & data' & H1 & H2 & H3 & H4).
  exists contexts', ctx', data'.
  split; [exact Hdraw|]. split; [exact H1|]. split; [exact H2|].
  split; [exact H3|exact H4].
Qed.

End WithHost.

(** *** Loading *)

(** X13. Loading a trace file appends to the container of a stream, in
    load order, one record with the field -1 for each of the stream's
    task-switch and wake-up entries and nothing else; what the container
    held before stays in front, and the ids and flags of the context are
    not written. *)
Theorem load_collects_in_order (sched_switch_id sched_wake_id : Z)
    (entries : list (Z * kshark_entry)) :
  forall (contexts : gmap Z plugin_stacklook_ctx) (s : Z)
         (ctx : plugin_stacklook_ctx) (d0 : list kshark_data_field_int64),
  contexts !! s = Some ctx ->
  collected_events ctx = Some d0 ->
  Loading.load sched_switch_id sched_wake_id contexts entries !! s
  = Some {| sswitch_event_id := sswitch_event_id ctx;
            kstack_event_id := kstack_event_id ctx;
            kstacks_exist := kstacks_exist ctx;
            searched_for_kstacks := searched_for_kstacks ctx;
            swaking_event_id := swaking_event_id ctx;
            collected_events :=
              Some (d0 ++ (fresh_record <$>
                           List.filter (collected_for sched_switch_id sched_wake_id s)
                                       entries)) |}.
Proof.
  unfold Loading.load.
  induction entries as [|pe entries IH]; intros contexts s ctx d0 Hctx Hd0.
  - cbn. rewrite app_nil_r, Hctx. destruct ctx. cbn in Hd0. subst. reflexivity.
  - cbn [foldl List.filter]. unfold collected_for at 1.
    destruct (Z.eqb_spec (stream_id pe.2) s) as [Hs|Hs].
    + subst s. unfold _select_events at 2, __get_context. rewrite Hctx, Hd0.
      cbn [andb].
      destruct ((event_id pe.2 =? sched_switch_id) || (event_id pe.2 =? sched_wake_id)).
      * erewrite IH; [|apply lookup_insert_eq|reflexivity].
        cbn. rewrite <- app_assoc. reflexivity.
      * apply IH; assumption.
    + cbn [andb]. apply IH; [|exact Hd0].
      unfold _select_events, __get_context.
      destruct (contexts !! stream_id pe.2) as [c|]; [|exact Hctx].
      destruct (collected_events c); [|exact Hctx].
      destruct (_ || _); [|exact Hctx].
      rewrite lookup_insert_ne by exact Hs. exact Hctx.
Qed.

(** *** The properties on the sample streams *)

Lemma kstack_entry_sound_witness :
  exists e ctx ke,
    sample_mem !! 16 = Some e /\ sample_contexts !! stream_id e = Some ctx /\
    rtc (link sample_mem) 16 48 /\
    sample_mem !! 48 = Some ke /\
    event_id ke = kstack_event_id ctx /\
    pid ke = @effective_pid sample_host 16 e.
Proof.
  apply (@kstack_entry_sound sample_host 2 sample_mem sample_contexts 16 48);
    [vm_compute; reflexivity|discriminate].
Defined.

Lemma kstack_entry_cycle_no_result_witness :
  @get_kstack_entry sample_host 1000 loop_mem sample_contexts 16 = None.
Proof.
  apply (@kstack_entry_cycle_no_result sample_host loop_mem sample_contexts 16
           loop_entry sample_ctx (fun p => p = 16)).
  - discriminate.
  - reflexivity.
  - reflexivity.
  - reflexivity.
  - intros p ->. exists loop_entry.
    split; [reflexivity|]. split; [reflexivity|]. split; [discriminate|reflexivity].
Defined.

Lemma scan_keeps_entries_witness :
  exists data', Some two_scanned = Some data' /\
    length data' = length two_collected /\
    entry <$> data' = entry <$> two_collected.
Proof.
  apply (@scan_keeps_entries sample_host 2 two_switch_mem two_switch_contexts
           two_collected (Some two_scanned) true).
  vm_compute. reflexivity.
Defined.

Lemma scan_flag_iff_resolved_witness :
  true = true <->
  exists r k, In r two_collected /\
    @get_kstack_entry sample_host 2 two_switch_mem two_switch_contexts (entry r) = Some k /\
    k <> nullptr.
Proof.
  apply (@scan_flag_iff_resolved sample_host 2 two_switch_mem two_switch_contexts
           two_collected (Some two_scanned) true).
  vm_compute. reflexivity.
Defined.

Lemma scan_idempotent_witness :
  @search_for_kstacks sample_host 2 two_switch_mem two_switch_contexts (Some two_scanned)
  = Some (Some two_scanned, true).
Proof.
  apply (@scan_idempotent sample_host 2 two_switch_mem two_switch_contexts
           (Some two_collected) (Some two_scanned) true).
  vm_compute. reflexivity.
Defined.

Lemma two_switch_mem_addresses (p : Z) :
  is_Some (two_switch_mem !! p) -> 0 <= p < 2 ^ 64.
Proof.
  intros [e He]. unfold two_switch_mem, sample_mem in He.
  repeat (apply lookup_insert_Some in He as [[<- _]|[_ He]]; [lia|]).
  apply lookup_singleton_Some in He as [<- _]. lia.
Qed.

Lemma scan_fields_point_to_stacks_witness :
  {| entry := 16; field := 48 |} = {| entry := 16; field := -1 |} \/
  exists e ctx ke,
    two_switch_mem !! 16 = Some e /\ two_switch_contexts !! stream_id e = Some ctx /\
    16 = 16 /\
    two_switch_mem !! ptr_of_int64 48 = Some ke /\
    event_id ke = kstack_event_id ctx /\
    pid ke = @effective_pid sample_host 16 e.
Proof.
  apply (@scan_fields_point_to_stacks sample_host 2 two_switch_mem two_switch_contexts
           two_collected two_scanned true 0
           {| entry := 16; field := -1 |} {| entry := 16; field := 48 |}).
  - exact two_switch_mem_addresses.
  - vm_compute. reflexivity.
  - reflexivity.
  - reflexivity.
Defined.

Lemma draw_preserves_contexts_witness :
  exists ctx',
    (@run sample_host 2 two_switch_mem SlConfig.initial two_switch_contexts
       [lone_task_draw]).1 !! 0 = Some ctx' /\
    sswitch_event_id ctx' = 5 /\
    swaking_event_id ctx' = 6 /\
    kstack_event_id ctx' = 9.
Proof.
  destruct (@draw_preserves_contexts sample_host 2 two_switch_mem SlConfig.initial
              two_switch_contexts
              (@run sample_host 2 two_switch_mem SlConfig.initial two_switch_contexts
                 [lone_task_draw]).1
              lone_task_draw {| scan_ran := true; buttons := Some TaskDraw |})
    as (_ & _ & Hctx).
  - vm_compute. reflexivity.
  - destruct (Hctx {| sswitch_event_id := 5; kstack_event_id := 9; kstacks_exist := false;
                      searched_for_kstacks := false; swaking_event_id := 6;
                      collected_events := Some two_collected |})
      as (ctx' & H1 & H2 & H3 & H4 & _); [vm_compute; reflexivity|].
    exists ctx'. repeat split; assumption.
Defined.

Lemma draw_read_only_after_scan_witness :
  exists out,
    @draw_stacklook_objects sample_host 2 two_switch_mem SlConfig.initial
      (@run sample_host 2 two_switch_mem SlConfig.initial two_switch_contexts
         [lone_task_draw]).1 cpu_draw
    = Some ((@run sample_host 2 two_switch_mem SlConfig.initial two_switch_contexts
               [lone_task_draw]).1, out) /\
    scan_ran out = false.
Proof.
  apply (@draw_read_only_after_scan sample_host). vm_compute. reflexivity.
Defined.

Lemma followed_switch_gets_marker_witness :
  exists contexts' ctx' data',
    @draw_stacklook_objects sample_host 1 followed_mem SlConfig.initial sample_contexts
      task_draw
    = Some (contexts', {| scan_ran := true; buttons := Some TaskDraw |}) /\
    contexts' !! sd task_draw = Some ctx' /\
    collected_events ctx' = Some data' /\
    data' !! 0%nat = Some {| entry := 16; field := int64_of_ptr 48 |} /\
    @check_func sample_host TaskDraw followed_mem SlConfig.initial ctx'
      (pid followed_switch) data' 0 = Some true.
Proof.
  apply (@followed_switch_gets_marker sample_host 0 followed_mem SlConfig.initial
           sample_contexts task_draw sample_ctx
           [ {| entry := 16; field := -1 |} ] 0 16 (-1) 48 followed_switch own_stack);
    try reflexivity; try discriminate; try (vm_compute; discriminate).
  - constructor; [|constructor]. right. exists followed_switch, [(48, own_stack)].
    split; [|cbn; lia].
    apply chain_next; [discriminate|reflexivity|].
    apply chain_next; [discriminate|reflexivity|].
    apply chain_end.
  - cbn. lia.
Defined.

Lemma load_collects_in_order_witness :
  Loading.load 5 6 sample_contexts [(80, lone_switch); (32, other_stack)] !! 0
  = Some {| sswitch_event_id := 5; kstack_event_id := 9; kstacks_exist := false;
            searched_for_kstacks := false; swaking_event_id := 6;
            collected_events := Some two_collected |}.
Proof.
  exact (load_collects_in_order 5 6 [(80, lone_switch); (32, other_stack)]
           sample_contexts 0 sample_ctx [ {| entry := 16; field := -1 |} ]
           eq_refl eq_refl).
Defined.

End ScanProperties.

(** ** The preview beyond the three slots: labels and positions *)

Module LabelProperties.
Import StdString StdStringFacts SlButton SlButtonFacts TopThreeFacts PreviewSpec
       LabelSpec Samples.

Lemma occurrences_shift (needle s : list ascii) (i d : Z) :
  occurrences needle s (i + d) = (fun p => p + d) <$> occurrences needle s i.
Proof.
  revert i. induction s as [|c s IH]; intros i; [reflexivity|].
  cbn [occurrences]. replace (i + d + 1) with (i + 1 + d) by lia.
  destruct (starts_with needle (c :: s)); cbn [fmap list_fmap]; rewrite IH; reflexivity.
Qed.

Lemma take_min_size (n : Z) (s : list ascii) :
  0 <= n -> take (Z.to_nat (Z.min n (size s))) s = take (Z.to_nat n) s.
Proof.
  intros Hn. unfold size. destruct (Z.le_ge_cases n (Z.of_nat (length s))) as [Hle|Hge].
  - rewrite Z.min_l by exact Hle. reflexivity.
  - rewrite Z.min_r by exact Hge. rewrite Nat2Z.id.
    rewrite !take_ge by lia. reflexivity.
Qed.

(** The label computed from a name start within the text. *)
Lemma prettify_from_start (s : list ascii) (start : Z) :
  valid s -> 0 <= start <= size s ->
  wrap (find name_marker s 0 + 3) = start ->
  _prettify_stack_item s = Some (QStr.from_c_str (label_of (drop (Z.to_nat start) s))).
Proof.
  intros Hv Hstart Hwrap.
  pose proof (valid_size_lt _ Hv) as Hlt.
  unfold valid, max_size in Hv.
  assert (Hmod : size_t_modulus = npos + 1) by reflexivity.
  assert (Hnpos : npos = 18446744073709551615) by reflexivity.
  unfold _prettify_stack_item. cbn zeta. rewrite Hwrap.
  set (rest := drop (Z.to_nat start) s).
  assert (Hrest : size rest = size s - start).
  { unfold rest. rewrite size_drop by (unfold size in Hstart; lia). lia. }
  assert (Hfind : find addr_marker s start
                  = hd npos ((fun p => p + start) <$> occurrences addr_marker rest 0)).
  { unfold find. destruct (Z.ltb_spec (size s) start); [lia|]. fold rest.
    rewrite find_from_occurrences by discriminate.
    rewrite <- occurrences_shift. reflexivity. }
  assert (Hsub : forall n, 0 <= n ->
            substr s start n = Some (take (Z.to_nat n) rest)).
  { intros n Hn. unfold substr. destruct (Z.ltb_spec (size s) start); [lia|].
    fold rest. rewrite <- Hrest. rewrite take_min_size by exact Hn. reflexivity. }
  rewrite Hfind. unfold label_of.
  destruct (occurrences addr_marker rest 0) as [|j occ] eqn:Hocc; cbn [fmap list_fmap hd].
  - replace (wrap (npos - start)) with (npos - start)
      by (symmetry; apply wrap_small; lia).
    destruct (Z.ltb_spec LABEL_LIMIT (npos - start)) as [_|Hle];
      [|unfold LABEL_LIMIT in Hle; lia].
    rewrite Hsub by (unfold LABEL_LIMIT; lia). reflexivity.
  - assert (Hj : 0 <= j < size rest).
    { pose proof (occurrences_bounds addr_marker rest 0 j) as Hb.
      rewrite Hocc in Hb. specialize (Hb ltac:(left; reflexivity)). lia. }
    replace (j + start - start) with j by lia.
    rewrite (wrap_small j) by lia.
    unfold LABEL_LIMIT. destruct (44 <? j).
    + rewrite Hsub by lia. reflexivity.
    + rewrite Hsub by lia. reflexivity.
Qed.

Lemma label_start_spec (s : list ascii) :
  valid s ->
  wrap (find name_marker s 0 + 3) = label_start s /\
  0 <= label_start s /\
  (occurrences name_marker s 0 <> [] -> label_start s <= size s).
Proof.
  intros Hv. pose proof (valid_size_lt _ Hv) as Hlt. pose proof (size_nonneg s) as Hs.
  assert (Hmod : size_t_modulus = npos + 1) by reflexivity.
  assert (Hnpos : npos = 18446744073709551615) by reflexivity.
  rewrite find_occurrences_from by (try discriminate; lia).
  rewrite occurrences_from_0. unfold label_start.
  destruct (occurrences name_marker s 0) as [|p occ] eqn:Hocc; cbn [hd].
  - split; [|split; [lia|congruence]].
    unfold wrap. rewrite Hmod, Hnpos. reflexivity.
  - assert (Hp : 0 <= p /\ p + 3 <= size s).
    { pose proof (proj1 (occurrences_spec name_marker s 0 p ltac:(discriminate))) as Hin.
      rewrite Hocc in Hin. destruct (Hin ltac:(left; reflexivity)) as [Hle Hsw].
      apply starts_with_length in Hsw. rewrite length_drop in Hsw.
      change (length name_marker) with 3%nat in Hsw. unfold size. lia. }
    split; [apply wrap_small; lia|]. split; [lia|]. intros _. lia.
Qed.

(** X14. What [_prettify_stack_item] returns, for every text: the name is
    taken to start 3 past the first ["=> "], or at index 2 when the text
    has no ["=> "]; a text shorter than that start throws; otherwise the
    label is the text from the start up to the first [" ("] after it, cut
    to its first 44 characters and followed by ["..."] when longer, and
    also when no [" ("] follows (the rest of the text is then taken for
    the name); the [QString] ends at the first NUL, if any. *)
Theorem prettify_stack_item_spec (s : list ascii) :
  valid s ->
  _prettify_stack_item s
  = if size s <? label_start s then None
    else Some (QStr.from_c_str (label_of (drop (Z.to_nat (label_start s)) s))).
Proof.
  intros Hv. destruct (label_start_spec s Hv) as (Hwrap & H0 & Hin).
  destruct (Z.ltb_spec (size s) (label_start s)) as [Hlt|Hle].
  - unfold _prettify_stack_item. cbn zeta. rewrite Hwrap.
    unfold substr. destruct (Z.ltb_spec (size s) (label_start s)) as [_|Hge]; [|lia].
    destruct (LABEL_LIMIT <? _); reflexivity.
  - apply prettify_from_start; [exact Hv|lia|exact Hwrap].
Qed.

Lemma prettify_stack_item_spec_witness :
  _prettify_stack_item (lit "=> a_rather_long_function_name_of_fifty_characters (ffffffff81a0)")
  = Some (lit "a_rather_long_function_name_of_fifty_charact...") /\
  _prettify_stack_item (lit "no marker here") = Some (lit " marker here...") /\
  _prettify_stack_item (lit "x") = None.
Proof.
  split; [|split].
  - rewrite (prettify_stack_item_spec
               (lit "=> a_rather_long_function_name_of_fifty_characters (ffffffff81a0)"));
      [vm_compute; reflexivity|vm_compute; discriminate].
  - rewrite (prettify_stack_item_spec (lit "no marker here"));
      [vm_compute; reflexivity|vm_compute; discriminate].
  - rewrite (prettify_stack_item_spec (lit "x"));
      [vm_compute; reflexivity|vm_compute; discriminate].
Defined.

(** A label has at most 47 characters. *)
Lemma label_bound (s out : list ascii) :
  _prettify_stack_item s = Some out -> (length out <= 47)%nat.
Proof.
  unfold _prettify_stack_item. cbn zeta.
  set (name_start := wrap (find name_marker s 0 + 3)).
  set (num := wrap (find addr_marker s name_start - name_start)).
  assert (Hnum : 0 <= num) by (apply Z.mod_pos_bound; reflexivity).
  assert (Hsub : forall n sub, 0 <= n -> substr s name_start n = Some sub ->
                               Z.of_nat (length sub) <= n).
  { intros n sub Hn. unfold substr. destruct (size s <? name_start); [discriminate|].
    intros [= <-]. rewrite length_take. lia. }
  destruct (Z.ltb_spec LABEL_LIMIT num) as [Hgt|Hle].
  - destruct (substr s name_start LABEL_LIMIT) as [sub|] eqn:E; [|discriminate].
    intros [= <-]. apply Hsub in E; [|unfold LABEL_LIMIT; lia].
    unfold QStr.from_c_str.
    pose proof (c_str_length (sub ++ ellipsis)) as Hc.
    rewrite length_app in Hc. unfold LABEL_LIMIT in E. simpl in Hc. lia.
  - destruct (substr s name_start num) as [sub|] eqn:E; [|discriminate].
    intros [= <-]. apply Hsub in E; [|exact Hnum].
    unfold QStr.from_c_str. pose proof (c_str_length sub) as Hc.
    unfold LABEL_LIMIT in Hle. lia.
Qed.

Lemma top_three_loop_shape (text : list ascii) :
  forall (fuel : nat) (counter pos : Z) (out items : list (list ascii)),
  preview_shape out ->
  top_three_loop fuel text counter pos out = Some items ->
  preview_shape items.
Proof.
  induction fuel as [|fuel IH]; intros counter pos out items Hout Hloop;
    cbn [top_three_loop] in Hloop.
  - injection Hloop as <-. exact Hout.
  - destruct (counter <? 3); [|injection Hloop as <-; exact Hout].
    cbn zeta in Hloop.
    destruct (find marker text pos =? npos); [injection Hloop as <-; exact Hout|].
    destruct (find marker text (wrap (find marker text pos + 1)) =? npos);
      (destruct (substr text _ _) as [item_as_str|]; [|discriminate]);
      cbn [mbind option_bind] in Hloop;
      (destruct (_prettify_stack_item item_as_str) as [item|] eqn:Hitem; [|discriminate]);
      cbn [mbind option_bind] in Hloop;
      apply (IH _ _ _ _) in Hloop; try exact Hloop;
      (destruct Hout as [Hlen Hall]; split;
       [rewrite length_insert; exact Hlen
       |apply Forall_insert; [exact Hall|exact (label_bound _ _ Hitem)]]).
Qed.

(** X15. Whatever the trace text and the configuration, a preview that
    is returned has exactly three slots and no slot holds more than 47
    characters. *)
Theorem preview_three_short_slots (cfg : SlConfig.SlConfig) (text : list ascii)
    (evt : string) (items : list (list ascii)) :
  _get_top_three_stack_items cfg text evt = Some items ->
  length items = 3%nat /\ Forall (fun item => (length item <= 47)%nat) items.
Proof.
  assert (Hempty : preview_shape empty_top_3).
  { split; [reflexivity|]. repeat constructor; cbn; lia. }
  unfold _get_top_three_stack_items. cbn zeta.
  destruct (_ =? npos); [intros [= <-]; exact Hempty|].
  unfold _get_top_three_from_start. apply top_three_loop_shape. exact Hempty.
Qed.

Lemma preview_three_short_slots_witness :
  length [lit "schedule"; lit "-"; lit "do_idle"] = 3%nat /\
  Forall (fun item => (length item <= 47)%nat) [lit "schedule"; lit "-"; lit "do_idle"].
Proof.
  apply (preview_three_short_slots no_skip two_frames "sched/sched_switch").
  vm_compute. reflexivity.
Defined.

(** The last frame of a text that ends with its marker has no label. *)
Lemma last_frame_trailing (text : list ascii) (p : Z) :
  valid text -> In p (markers text) -> p = size text - 2 ->
  last_frame text p = None.
Proof.
  intros Hv Hin Hp. pose proof (size_nonneg text) as Hs.
  apply (proj1 (occurrences_spec marker text 0 p marker_nonempty)) in Hin.
  destruct Hin as [H0 Hsw]. rewrite Z.sub_0_r in Hsw.
  apply starts_with_true in Hsw as [rest Hrest].
  unfold last_frame. rewrite substr_in_range by lia.
  replace (size text - 1 - p) with 1 by lia.
  rewrite Hrest. reflexivity.
Qed.

(** X4. The preview has no result ([substr] throws) for a trace text
    that ends right after a marker, whenever that marker is among the
    first three after the skip: its item is the single character ["="],
    shorter than the offset 2 the label is read from.  (With four or
    more markers left the loop stops before it reaches the last one.) *)
Theorem preview_throws_on_trailing_marker (cfg : SlConfig.SlConfig)
    (text : list ascii) (evt : string) :
  valid text ->
  let ahead := drop (Z.to_nat (int16_of (SlConfig.get_stack_offset cfg evt)))
                    (markers text) in
  (1 <= length ahead <= 3)%nat ->
  last ahead = Some (size text - 2) ->
  _get_top_three_stack_items cfg text evt = None.
Proof.
  intros Hv ahead Hlen Hlast.
  rewrite (PreviewProperties.top_three_stack_items_spec cfg text evt Hv). fold ahead.
  assert (Hin : forall p, In p ahead -> In p (markers text)).
  { intros p Hp.
    rewrite <- (take_drop (Z.to_nat (int16_of (SlConfig.get_stack_offset cfg evt)))
                          (markers text)).
    apply in_or_app. right. exact Hp. }
  assert (Hnone : forall p, In p ahead -> p = size text - 2 -> last_frame text p = None).
  { intros p Hp Heq. apply last_frame_trailing; [exact Hv|exact (Hin p Hp)|exact Heq]. }
  destruct ahead as [|p0 [|p1 [|p2 [|p3 ahead]]]]; cbn in Hlen, Hlast; try lia;
    injection Hlast as Hlast; cbn [top_three_spec].
  - rewrite (Hnone p0) by (cbn; tauto). reflexivity.
  - rewrite (Hnone p1) by (cbn; tauto). destruct (frame text p0 p1); reflexivity.
  - rewrite (Hnone p2) by (cbn; tauto).
    destruct (frame text p0 p1); [|reflexivity]. cbn [mbind option_bind].
    destruct (frame text p1 p2); reflexivity.
Qed.

Lemma preview_throws_on_trailing_marker_witness :
  _get_top_three_stack_items no_skip (lit "=> schedule (ffffffff81a0)" ++ [LF] ++ lit "=>")
    "sched/sched_switch" = None /\
  _get_top_three_stack_items no_skip
    (lit "=> a (0)" ++ [LF] ++ lit "=> b (0)" ++ [LF] ++ lit "=> c (0)" ++ [LF]
     ++ lit "=> d (0)" ++ [LF] ++ lit "=>") "sched/sched_switch"
  = Some [lit "a"; lit "b"; lit "c"].
Proof.
  split.
  - apply (preview_throws_on_trailing_marker no_skip
             (lit "=> schedule (ffffffff81a0)" ++ [LF] ++ lit "=>") "sched/sched_switch").
    + vm_compute. discriminate.
    + vm_compute. lia.
    + vm_compute. reflexivity.
  - vm_compute. reflexivity.
Defined.

Lemma occurrences_lookup_mono (needle s : list ascii) :
  forall (i : Z) (n n' : nat) (a b : Z),
  (n <= n')%nat ->
  occurrences needle s i !! n = Some a ->
  occurrences needle s i !! n' = Some b ->
  a <= b.
Proof.
  induction s as [|c s IH]; intros i n n' a b Hnn Ha Hb; [discriminate|].
  cbn [occurrences] in Ha, Hb.
  destruct (starts_with needle (c :: s)); [|exact (IH _ _ _ _ _ Hnn Ha Hb)].
  destruct n as [|n], n' as [|n']; cbn in Ha, Hb.
  - injection Ha as <-. injection Hb as <-. lia.
  - injection Ha as <-.
    apply list_elem_of_lookup_2, list_elem_of_In, occurrences_bounds in Hb. lia.
  - lia.
  - apply (IH (i + 1) n n'); [lia|assumption..].
Qed.

(** X16. The position [_get_stack_start_pos] returns is [npos] exactly
    when the text has fewer markers than are to be skipped, and a
    position within the text otherwise; it does not decrease when more
    markers are skipped. *)
Theorem start_pos_in_range (text : list ascii) (skip : Z) :
  valid text ->
  (_get_stack_start_pos skip text = npos
   <-> Z.of_nat (length (markers text)) < skip) /\
  (skip <= Z.of_nat (length (markers text)) ->
   0 <= _get_stack_start_pos skip text <= size text) /\
  (forall skip', skip <= skip' ->
     _get_stack_start_pos skip text <= _get_stack_start_pos skip' text).
Proof.
  intros Hv. pose proof (valid_size_lt _ Hv) as Hlt. pose proof (size_nonneg text) as Hs.
  assert (Hocc : occurrences_from marker text 0 = markers text)
    by (apply occurrences_from_0).
  assert (Hin : forall k, k <= Z.of_nat (length (markers text)) ->
            0 <= _get_stack_start_pos k text <= size text).
  { intros k Hk. unfold _get_stack_start_pos.
    destruct (skip_markers_found (Z.to_nat k) text 0 Hv ltac:(lia)
                ltac:(rewrite Hocc; lia)) as [Hr _]. exact Hr. }
  assert (Hout : forall k, Z.of_nat (length (markers text)) < k ->
            _get_stack_start_pos k text = npos).
  { intros k Hk. unfold _get_stack_start_pos.
    apply skip_markers_exhausted; [exact Hv|lia|rewrite Hocc; lia]. }
  assert (Hmono : forall k k', k <= k' -> k' <= Z.of_nat (length (markers text)) ->
            _get_stack_start_pos k text <= _get_stack_start_pos k' text).
  { intros k k' Hkk Hk'. unfold _get_stack_start_pos.
    destruct (Z.to_nat k') as [|n'] eqn:Ek'.
    - replace (Z.to_nat k) with 0%nat by lia. lia.
    - destruct (skip_markers_found (S n') text 0 Hv ltac:(lia)
                  ltac:(rewrite Hocc; lia)) as (_ & _ & Hn').
      cbn zeta in Hn'.
      destruct (Z.to_nat k) as [|n] eqn:Ek.
      + change (skip_markers 0 text 0) with 0.
        apply list_elem_of_lookup_2, list_elem_of_In in Hn'.
        apply occurrences_from_In in Hn'; lia.
      + destruct (skip_markers_found (S n) text 0 Hv ltac:(lia)
                    ltac:(rewrite Hocc; lia)) as (_ & _ & Hn).
        cbn zeta in Hn.
        pose proof (occurrences_lookup_mono marker text 0 n n'
                      (skip_markers (S n) text 0 - 1)
                      (skip_markers (S n') text 0 - 1)
                      ltac:(lia) Hn Hn') as Hle.
        lia. }
  split; [split|split].
  - intros Hnpos. destruct (Z.lt_ge_cases (Z.of_nat (length (markers text))) skip)
      as [Hc|Hc]; [exact Hc|]. specialize (Hin skip Hc). lia.
  - apply Hout.
  - apply Hin.
  - intros skip' Hss.
    destruct (Z.lt_ge_cases (Z.of_nat (length (markers text))) skip') as [Hc|Hc].
    + rewrite (Hout skip' Hc).
      destruct (Z.lt_ge_cases (Z.of_nat (length (markers text))) skip) as [Hd|Hd].
      * rewrite (Hout skip Hd). lia.
      * specialize (Hin skip Hd). lia.
    + apply Hmono; assumption.
Qed.

Lemma start_pos_in_range_witness :
  (_get_stack_start_pos 2 two_frames = npos
   <-> Z.of_nat (length (markers two_frames)) < 2) /\
  (2 <= Z.of_nat (length (markers two_frames)) ->
   0 <= _get_stack_start_pos 2 two_frames <= size two_frames) /\
  (forall skip', 2 <= skip' ->
     _get_stack_start_pos 2 two_frames <= _get_stack_start_pos skip' two_frames).
Proof.
  apply (start_pos_in_range two_frames 2). vm_compute. discriminate.
Defined.

End LabelProperties.

(** ** The previous state and the configuration: where they have no value *)

Module DefaultsProperties.
Import StdString StdStringFacts KShark SlPrevState SlButton Stacklook StacklookSpec
       Samples MoreSamples.

Section WithHost.
Context `{Host}.

Lemma prev_state_position (entry : Z) :
  valid (kshark_get_info entry) ->
  get_switch_prev_state entry
  = match occurrences state_marker (kshark_get_info entry) 0 with
    | pos :: _ =>
        if 1 <=? pos
        then Some (take 1 (drop (Z.to_nat (pos - 1)) (kshark_get_info entry)))
        else None
    | [] => None
    end.
Proof.
  intros Hv. pose proof (valid_size_lt _ Hv) as Hlt.
  pose proof (size_nonneg (kshark_get_info entry)) as Hs.
  unfold valid, max_size in Hv.
  assert (Hmod : size_t_modulus = npos + 1) by reflexivity.
  assert (Hnpos : npos = 18446744073709551615) by reflexivity.
  unfold get_switch_prev_state. cbn zeta.
  rewrite find_occurrences_from by (try discriminate; lia).
  rewrite occurrences_from_0.
  destruct (occurrences state_marker (kshark_get_info entry) 0) as [|pos occ] eqn:Hocc;
    cbn [hd].
  - rewrite wrap_small by lia. unfold substr.
    destruct (Z.ltb_spec (size (kshark_get_info entry)) (npos - 1)); [reflexivity|lia].
  - assert (Hpos : 0 <= pos < size (kshark_get_info entry)).
    { pose proof (occurrences_bounds state_marker (kshark_get_info entry) 0 pos) as Hb.
      rewrite Hocc in Hb. specialize (Hb ltac:(left; reflexivity)). lia. }
    destruct (Z.leb_spec 1 pos) as [Hge|Hlt0].
    + rewrite wrap_small by lia. rewrite substr_in_range by lia. reflexivity.
    + replace pos with 0 by lia. unfold substr.
      change (wrap (0 - 1)) with npos.
      destruct (Z.ltb_spec (size (kshark_get_info entry)) npos); [reflexivity|lia].
Qed.

(** X17. [get_switch_prev_state] and [get_longer_prev_state] return
    exactly when the info text holds the marker [" ==>"] and its first
    occurrence is not at the very start of the text; otherwise (no
    marker, or a text that begins with it) [substr] throws. *)
Theorem prev_state_defined_iff (entry : Z) :
  valid (kshark_get_info entry) ->
  (is_Some (get_switch_prev_state entry) <->
   exists pos rest,
     occurrences state_marker (kshark_get_info entry) 0 = pos :: rest /\ 1 <= pos) /\
  (is_Some (get_longer_prev_state entry) <-> is_Some (get_switch_prev_state entry)).
Proof.
  intros Hv. split.
  - rewrite (prev_state_position entry Hv).
    destruct (occurrences state_marker (kshark_get_info entry) 0) as [|pos occ].
    + split; [intros [? [=]]|intros (? & ? & [=] & _)].
    + destruct (Z.leb_spec 1 pos) as [Hge|Hlt].
      * split; [intros _; exists pos, occ; split; [reflexivity|exact Hge]|eauto].
      * split; [intros [? [=]]|intros (? & ? & [= <- <-] & Hp); lia].
  - unfold get_longer_prev_state.
    destruct (get_switch_prev_state entry) as [ps|]; cbn [mbind option_bind];
      split; intros Hsome; try exact Hsome; eauto.
Qed.

(** X18. An event that the configuration has no entry for: no entry of
    it is ever eligible for a marker, and its preview starts at the top
    of the trace (depth 0). *)
Theorem unconfigured_event_defaults (cfg : SlConfig.SlConfig) (evt : string) :
  SlConfig._events_meta cfg !! evt = None ->
  (forall (text : list ascii),
     _get_top_three_stack_items cfg text evt = _get_top_three_from_start 0 text) /\
  (forall mode mem ctx val (data : list kshark_data_field_int64) t r,
     data !! t = Some r ->
     kshark_get_event_name (entry r) = evt ->
     (entry r <> nullptr -> is_Some (mem !! entry r)) ->
     check_func mode mem cfg ctx val data t = Some false).
Proof.
  intros Hcfg. split.
  - intros text. unfold _get_top_three_stack_items, SlConfig.get_stack_offset.
    rewrite Hcfg. reflexivity.
  - intros mode mem ctx val data t r Ht Hname Hmapped.
    unfold check_func. rewrite Ht. cbn [mbind option_bind]. cbn zeta.
    destruct (Z.eqb_spec (entry r) nullptr) as [|Hnn]; [reflexivity|].
    destruct (Hmapped Hnn) as [e He]. rewrite He. cbn [mbind option_bind].
    unfold _check_function_general.
    destruct (Z.eqb_spec (entry r) nullptr); [contradiction|]. cbn [orb].
    destruct (ptr_of_int64 (field r) =? nullptr); [reflexivity|].
    rewrite He. cbn [mbind option_bind].
    unfold SlConfig.is_event_allowed. rewrite Hname, Hcfg.
    rewrite andb_false_r. reflexivity.
Qed.

End WithHost.

Lemma prev_state_defined_iff_witness :
  (is_Some (@get_switch_prev_state sample_host 16) <->
   exists pos rest,
     occurrences state_marker (@kshark_get_info sample_host 16) 0 = pos :: rest
     /\ 1 <= pos) /\
  (is_Some (@get_longer_prev_state sample_host 16)
   <-> is_Some (@get_switch_prev_state sample_host 16)).
Proof.
  apply (@prev_state_defined_iff sample_host 16). vm_compute. discriminate.
Defined.

Lemma unconfigured_event_defaults_witness :
  _get_top_three_stack_items no_skip two_frames "sched/sched_waking"
  = _get_top_three_from_start 0 two_frames /\
  @check_func sample_host TaskDraw sample_mem no_skip sample_ctx 100
    [ {| entry := 16; field := 48 |} ] 0 = Some true /\
  @check_func waking_host TaskDraw sample_mem no_skip sample_ctx 100
    [ {| entry := 16; field := 48 |} ] 0 = Some false.
Proof.
  split; [|split].
  - apply (@unconfigured_event_defaults sample_host no_skip "sched/sched_waking").
    reflexivity.
  - vm_compute. reflexivity.
  - eapply (@unconfigured_event_defaults waking_host no_skip "sched/sched_waking").
    + reflexivity.
    + reflexivity.
    + reflexivity.
    + intros _. exists switch_entry. reflexivity.
Defined.

End DefaultsProperties.

(** ** The button: where it is, what hits it, what it draws *)

Module ButtonProperties.
Import StdString StdStringFacts KShark SlPrevState SlButton Stacklook SlTriangleButton
       GeometrySpec ButtonSpec GeometryProperties Samples MoreSamples.

Section WithHost.
Context `{Host}.

Lemma make_sl_button_in_plot (mem : gmap Z kshark_entry) (cfg : SlConfig.SlConfig)
    (button_outline_col : Color) (task_colors : gmap Z Color)
    (base : ksplot_point) (data : list kshark_data_field_int64) (col : Color)
    (d : kshark_data_field_int64) :
  base_in_plot base ->
  data !! 0%nat = Some d ->
  (SlConfig._use_task_colors cfg = true -> is_Some (mem !! entry d)) ->
  exists inner_color,
    _make_sl_button mem cfg button_outline_col task_colors base data col
    = Some {| _event_entry := entry d;
              _kstack_entry := ptr_of_int64 (field d);
              _outline_triangle :=
                {| point0 := {| x := x base - 24; y := y base - 27 |};
                   point1 := {| x := x base + 24; y := y base - 27 |};
                   point2 := {| x := x base; y := y base - 2 |};
                   _color := button_outline_col; _fill := Some false |};
              _inner_triangle :=
                {| point0 := {| x := x base - 24; y := y base - 27 |};
                   point1 := {| x := x base + 24; y := y base - 27 |};
                   point2 := {| x := x base; y := y base - 2 |};
                   _color := inner_color; _fill := None |};
              _text := {| _text_string := STACK_BUTTON_TEXT;
                          _pos := {| x := x base - 14; y := y base - 16 |} |} |} /\
    (SlConfig._use_task_colors cfg = false -> inner_color = col).
Proof.
  unfold base_in_plot, plot_limit. intros [Hx Hy] Hd Hmapped.
  unfold _make_sl_button. rewrite Hd. cbn [mbind option_bind]. cbn zeta.
  unfold TRIANGLE_HALFWIDTH, TRIANGLE_HEIGHT, BUTTON_TEXT_OFFSET.
  rewrite !int_in_range by (unfold INT_MIN, INT_MAX; lia).
  cbn [mbind option_bind].
  destruct (SlConfig._use_task_colors cfg) eqn:Hcol.
  - destruct (Hmapped eq_refl) as [e He]. rewrite He. cbn [mbind option_bind].
    rewrite !int_in_range by (unfold INT_MIN, INT_MAX; lia).
    cbn [mbind option_bind].
    eexists. split; [|discriminate].
    replace (y base - 14 - 2) with (y base - 16) by lia. reflexivity.
  - cbn [mbind option_bind].
    rewrite !int_in_range by (unfold INT_MIN, INT_MAX; lia).
    cbn [mbind option_bind].
    exists col. split; [|reflexivity].
    replace (y base - 14 - 2) with (y base - 16) by lia. reflexivity.
Qed.

(** X19. The button made at a base point of the plot is hit by exactly
    the points of the triangle with the corners 24 to the left and to
    the right of the base point, 27 above it, and the tip 2 above it:
    the points [(px, py)] with [by - 27 <= py] and
    [25 * |px - bx| <= 24 * (by - 2 - py)].  The base point itself, the
    position of the entry, does not hit it. *)
Theorem button_hit_region (mem : gmap Z kshark_entry) (cfg : SlConfig.SlConfig)
    (button_outline_col : Color) (task_colors : gmap Z Color)
    (base : ksplot_point) (data : list kshark_data_field_int64) (col : Color)
    (d : kshark_data_field_int64) :
  base_in_plot base ->
  data !! 0%nat = Some d ->
  (SlConfig._use_task_colors cfg = true -> is_Some (mem !! entry d)) ->
  exists btn,
    _make_sl_button mem cfg button_outline_col task_colors base data col = Some btn /\
    (forall px py, in_plot {| x := px; y := py |} ->
       button_distance btn px py
       = Some (if in_button base px py then 0%Q else DBL_MAX)) /\
    button_distance btn (x base) (y base) = Some DBL_MAX /\
    button_distance btn (x base) (y base - 2) = Some 0%Q.
Proof.
  intros Hbase Hd Hmapped.
  destruct (make_sl_button_in_plot mem cfg button_outline_col task_colors base data col d
              Hbase Hd Hmapped) as (inner_color & -> & _).
  eexists. split; [reflexivity|].
  unfold base_in_plot, plot_limit in Hbase. destruct Hbase as [Hx Hy].
  assert (Hregion : forall px py, in_plot {| x := px; y := py |} ->
    distance {| x := x base - 24; y := y base - 27 |}
             {| x := x base + 24; y := y base - 27 |}
             {| x := x base; y := y base - 2 |} px py
    = Some (if in_button base px py then 0%Q else DBL_MAX)).
  { intros px py Hp. pose proof Hp as Hp'. unfold in_plot, plot_limit in Hp'.
    cbn [x y] in Hp'.
    rewrite distance_in_plot;
      try exact Hp; try (unfold in_plot, plot_limit; cbn [x y]; lia).
    f_equal. unfold shoelace, in_button. cbn [x y].
    match goal with
    | |- context [?u =? ?v] => destruct (Z.eqb_spec u v) as [E|E]
    end;
      destruct (Z.leb_spec (y base - 27) py) as [H1|H1];
      destruct (Z.leb_spec (25 * Z.abs (px - x base)) (24 * (y base - 2 - py)))
        as [H2|H2];
      cbn [andb]; try reflexivity; exfalso; lia. }
  unfold button_distance. cbn [_outline_triangle point0 point1 point2].
  split; [exact Hregion|]. split.
  - rewrite Hregion by (unfold in_plot, plot_limit; cbn [x y]; lia).
    unfold in_button.
    destruct (Z.leb_spec (25 * Z.abs (x base - x base)) (24 * (y base - 2 - y base)));
      [lia|]. rewrite andb_false_r. reflexivity.
  - rewrite Hregion by (unfold in_plot, plot_limit; cbn [x y]; lia).
    unfold in_button.
    destruct (Z.leb_spec (y base - 27) (y base - 2)); [|lia].
    destruct (Z.leb_spec (25 * Z.abs (x base - x base))
                         (24 * (y base - 2 - (y base - 2)))); [|lia].
    reflexivity.
Qed.

(** X20. What [_draw] adds to the button made at a base point of the
    plot: for a task switch whose info text has its first [" ==>"] at a
    position [pos >= 1], the character before it in parentheses, placed
    9 to the left of and 8 above the base point; nothing for another
    event; and for a task switch whose info text has no such marker,
    or begins with it, [_draw] throws. *)
Theorem draw_state_label (mem : gmap Z kshark_entry) (cfg : SlConfig.SlConfig)
    (contexts : gmap Z plugin_stacklook_ctx)
    (button_outline_col : Color) (task_colors : gmap Z Color)
    (base : ksplot_point) (data : list kshark_data_field_int64) (col : Color)
    (d : kshark_data_field_int64) (e : kshark_entry) (ctx : plugin_stacklook_ctx) :
  base_in_plot base ->
  data !! 0%nat = Some d ->
  mem !! entry d = Some e ->
  contexts !! stream_id e = Some ctx ->
  valid (kshark_get_info (entry d)) ->
  exists btn,
    _make_sl_button mem cfg button_outline_col task_colors base data col = Some btn /\
    _draw mem contexts btn
    = if event_id e =? sswitch_event_id ctx then
        match occurrences state_marker (kshark_get_info (entry d)) 0 with
        | pos :: _ =>
            if 1 <=? pos then
              Some (Some {| _text_string :=
                              lit "(" ++ take 1 (drop (Z.to_nat (pos - 1))
                                                      (kshark_get_info (entry d)))
                              ++ lit ")";
                            _pos := {| x := x base - 9; y := y base - 8 |} |})
            else None
        | [] => None
        end
      else Some None.
Proof.
  intros Hbase Hd He Hctx Hv.
  destruct (make_sl_button_in_plot mem cfg button_outline_col task_colors base data col d
              Hbase Hd ltac:(intros _; eauto)) as (inner_color & -> & _).
  eexists. split; [reflexivity|].
  unfold base_in_plot, plot_limit in Hbase. destruct Hbase as [Hx Hy].
  unfold _draw, _add_sched_switch_prev_state_text.
  cbn [_event_entry _inner_triangle point2 x y]. cbn zeta.
  rewrite He. cbn [mbind option_bind]. unfold __get_context. rewrite Hctx.
  cbn [mbind option_bind].
  destruct (event_id e =? sswitch_event_id ctx); [|reflexivity].
  rewrite (DefaultsProperties.prev_state_position (entry d) Hv).
  destruct (occurrences state_marker (kshark_get_info (entry d)) 0) as [|pos occ];
    [reflexivity|].
  destruct (1 <=? pos); [|reflexivity].
  cbn [mbind option_bind].
  rewrite !int_in_range by (unfold INT_MIN, INT_MAX; lia).
  cbn [mbind option_bind].
  rewrite !int_in_range by (unfold INT_MIN, INT_MAX; lia).
  cbn [mbind option_bind].
  replace (y base - 2 + 5 - 11) with (y base - 8) by lia. reflexivity.
Qed.

End WithHost.

Lemma draw_state_label_witness :
  exists btn,
    @_make_sl_button sample_host sample_mem SlConfig.initial black no_task_colors
      sample_base [ {| entry := 16; field := 48 |} ] white = Some btn /\
    @_draw sample_host sample_mem sample_contexts btn
    = Some (Some {| _text_string := lit "(S)"; _pos := {| x := 91; y := 92 |} |}).
Proof.
  destruct (@draw_state_label sample_host sample_mem SlConfig.initial sample_contexts
              black no_task_colors sample_base [ {| entry := 16; field := 48 |} ] white
              {| entry := 16; field := 48 |} switch_entry sample_ctx)
    as (btn & Hmake & Hdraw).
  - unfold base_in_plot, plot_limit. cbn. lia.
  - reflexivity.
  - reflexivity.
  - reflexivity.
  - vm_compute. discriminate.
  - exists btn. split; [exact Hmake|]. rewrite Hdraw. vm_compute. reflexivity.
Defined.

Lemma button_hit_region_witness :
  exists btn,
    @_make_sl_button sample_host sample_mem SlConfig.initial black no_task_colors
      sample_base [ {| entry := 16; field := 48 |} ] white = Some btn /\
    (forall px py, in_plot {| x := px; y := py |} ->
       button_distance btn px py
       = Some (if in_button sample_base px py then 0%Q else DBL_MAX)) /\
    button_distance btn (x sample_base) (y sample_base) = Some DBL_MAX /\
    button_distance btn (x sample_base) (y sample_base - 2) = Some 0%Q.
Proof.
  apply (@button_hit_region sample_host sample_mem SlConfig.initial black no_task_colors
           sample_base [ {| entry := 16; field := 48 |} ] white
           {| entry := 16; field := 48 |}).
  - unfold base_in_plot, plot_limit. cbn. lia.
  - reflexivity.
  - discriminate.
Defined.

End ButtonProperties.

(** ** The events of a button: the preview labels and the detailed view *)

Module EventProperties.
Import StdString StdStringFacts KShark SlPrevState SlButton Stacklook SlTriangleButton
       PreviewSpec Samples MoreSamples.

Lemma In_drop (c : ascii) (n : nat) (s : list ascii) : In c (drop n s) -> In c s.
Proof.
  intros Hin. rewrite <- (take_drop n s). apply in_or_app. right. exact Hin.
Qed.

Lemma int_of_size_t_small (v : Z) :
  0 <= v < 2 ^ 31 -> SlDetailedView.int_of_size_t v = v.
Proof.
  intros Hv. unfold SlDetailedView.int_of_size_t.
  rewrite Z.mod_small by lia. lia.
Qed.

(** The cut at the first line break of a text that holds the header. *)
Lemma prettify_data_cut (data : list ascii) (p n : Z) (occ occ' : list Z) :
  size data < 2 ^ 31 ->
  ~ In NUL data ->
  occurrences SlDetailedView.stack_header data 0 = p :: occ ->
  occurrences [LF] data 0 = n :: occ' ->
  SlDetailedView._prettify_data data
  = Some (SlDetailedView.top_mark ++ drop (Z.to_nat n) data).
Proof.
  intros Hsize Hnul Hocc Hlf. pose proof (size_nonneg data) as Hs.
  assert (Hmod : size_t_modulus = npos + 1) by reflexivity.
  assert (Hnpos : npos = 18446744073709551615) by reflexivity.
  assert (Hp : 0 <= p < size data).
  { pose proof (occurrences_bounds SlDetailedView.stack_header data 0 p) as Hb.
    rewrite Hocc in Hb. specialize (Hb ltac:(left; reflexivity)). lia. }
  assert (Hn : 0 <= n < size data).
  { pose proof (occurrences_bounds [LF] data 0 n) as Hb.
    rewrite Hlf in Hb. specialize (Hb ltac:(left; reflexivity)). lia. }
  unfold SlDetailedView._prettify_data. cbn zeta.
  rewrite (find_occurrences_from SlDetailedView.stack_header)
    by (try discriminate; lia).
  rewrite occurrences_from_0, Hocc. cbn [hd].
  destruct (Z.eqb_spec p npos) as [|_]; [lia|].
  rewrite (find_occurrences_from [LF]) by (try discriminate; lia).
  rewrite occurrences_from_0, Hlf. cbn [hd].
  rewrite int_of_size_t_small by lia. rewrite wrap_small by lia.
  unfold substr. destruct (Z.ltb_spec (size data) n); [lia|].
  cbn [mbind option_bind]. rewrite take_ge.
  2:{ rewrite length_drop. unfold size in *. lia. }
  unfold QStr.from_c_str. rewrite c_str_no_nul; [reflexivity|].
  intros Hin. apply in_app_or in Hin as [Hin|Hin].
  - vm_compute in Hin. intuition discriminate.
  - apply Hnul. exact (In_drop _ _ _ Hin).
Qed.

(** X21. What [_prettify_data] returns for a text below 2 GiB without a
    NUL: a text without ["<stack trace >"] as it is; a text with it, cut
    before its first line break and with ["(top)"] put in front, where
    the header is anywhere in the text and the cut is at the first line
    break of the whole text; and for a text with the header but without
    a line break, [substr] throws. *)
Theorem prettify_data_spec (data : list ascii) :
  size data < 2 ^ 31 ->
  ~ In NUL data ->
  SlDetailedView._prettify_data data
  = match occurrences SlDetailedView.stack_header data 0 with
    | [] => Some data
    | _ :: _ =>
        match occurrences [LF] data 0 with
        | [] => None
        | n :: _ => Some (SlDetailedView.top_mark ++ drop (Z.to_nat n) data)
        end
    end.
Proof.
  intros Hsize Hnul. pose proof (size_nonneg data) as Hs.
  assert (Hmod : size_t_modulus = npos + 1) by reflexivity.
  assert (Hnpos : npos = 18446744073709551615) by reflexivity.
  destruct (occurrences SlDetailedView.stack_header data 0) as [|p occ] eqn:Hocc.
  - unfold SlDetailedView._prettify_data. cbn zeta.
    rewrite (find_occurrences_from SlDetailedView.stack_header)
      by (try discriminate; lia).
    rewrite occurrences_from_0, Hocc. cbn [hd]. rewrite Z.eqb_refl.
    unfold QStr.from_c_str. rewrite c_str_no_nul by exact Hnul. reflexivity.
  - destruct (occurrences [LF] data 0) as [|n occ'] eqn:Hlf.
    + assert (Hp : 0 <= p < size data).
      { pose proof (occurrences_bounds SlDetailedView.stack_header data 0 p) as Hb.
        rewrite Hocc in Hb. specialize (Hb ltac:(left; reflexivity)). lia. }
      unfold SlDetailedView._prettify_data. cbn zeta.
      rewrite (find_occurrences_from SlDetailedView.stack_header)
        by (try discriminate; lia).
      rewrite occurrences_from_0, Hocc. cbn [hd].
      destruct (Z.eqb_spec p npos) as [|_]; [lia|].
      rewrite (find_occurrences_from [LF]) by (try discriminate; lia).
      rewrite occurrences_from_0, Hlf. cbn [hd].
      change (wrap (SlDetailedView.int_of_size_t npos)) with npos.
      unfold substr. destruct (Z.ltb_spec (size data) npos); [reflexivity|lia].
    + exact (prettify_data_cut data p n occ occ' Hsize Hnul Hocc Hlf).
Qed.

Lemma prettify_data_spec_witness :
  SlDetailedView._prettify_data (lit "ERROR: No info field found!")
  = Some (lit "ERROR: No info field found!") /\
  SlDetailedView._prettify_data (lit "<stack trace >") = None /\
  SlDetailedView._prettify_data (lit "<stack trace >" ++ [LF] ++ lit "=> schedule (0x0)")
  = Some (lit "(top)" ++ [LF] ++ lit "=> schedule (0x0)") /\
  SlDetailedView._prettify_data (lit "a" ++ [LF] ++ lit "<stack trace >" ++ [LF])
  = Some (lit "(top)" ++ [LF] ++ lit "<stack trace >" ++ [LF]).
Proof.
  split; [|split; [|split]].
  - rewrite (prettify_data_spec (lit "ERROR: No info field found!"));
      [vm_compute; reflexivity|vm_compute; reflexivity
      |vm_compute; intuition discriminate].
  - rewrite (prettify_data_spec (lit "<stack trace >"));
      [vm_compute; reflexivity|vm_compute; reflexivity
      |vm_compute; intuition discriminate].
  - rewrite (prettify_data_spec (lit "<stack trace >" ++ [LF] ++ lit "=> schedule (0x0)"));
      [vm_compute; reflexivity|vm_compute; reflexivity
      |vm_compute; intuition discriminate].
  - rewrite (prettify_data_spec (lit "a" ++ [LF] ++ lit "<stack trace >" ++ [LF]));
      [vm_compute; reflexivity|vm_compute; reflexivity
      |vm_compute; intuition discriminate].
Defined.

(** The pieces of a text of which the first line is known. *)
Lemma split_first_line (line rest : list ascii) :
  ~ In LF line ->
  SlDetailedView.split LF (line ++ LF :: rest) = line :: SlDetailedView.split LF rest.
Proof.
  induction line as [|c line IH]; intros Hlf.
  - reflexivity.
  - cbn [app SlDetailedView.split]. cbn zeta.
    destruct (Ascii.eqb_spec c LF) as [->|_]; [exfalso; apply Hlf; left; reflexivity|].
    rewrite IH by (intros Hin; apply Hlf; right; exact Hin). reflexivity.
Qed.

Section WithHost.
Context `{Host} `{HostText}.

(** X22. The specific-info line of the detailed view.  For a task
    switch (by the event id the host reports) whose info text has its
    first [" ==>"] at a position [pos >= 1]: ["Task was in state "], the
    character before the marker, [" - "], the name the table has for
    that character or ["unknown"], and a full stop; for a task switch
    without such a marker no result ([substr] throws); for a wake-up
    ["Task has woken up."]; for any other event the fallback text.  When
    both ids of the context coincide the task-switch text is the one
    used. *)
Theorem specific_info_text (mem : gmap Z kshark_entry)
    (contexts : gmap Z plugin_stacklook_ctx) (entry : Z)
    (e : kshark_entry) (ctx : plugin_stacklook_ctx) :
  mem !! entry = Some e ->
  contexts !! stream_id e = Some ctx ->
  valid (kshark_get_info entry) ->
  _get_specific_info mem contexts entry
  = if kshark_get_event_id entry =? sswitch_event_id ctx then
      match occurrences state_marker (kshark_get_info entry) 0 with
      | pos :: _ =>
          if 1 <=? pos then
            let ps := take 1 (drop (Z.to_nat (pos - 1)) (kshark_get_info entry)) in
            Some (lit "Task was in state " ++ ps ++ lit " - "
                  ++ match LETTER_TO_NAME !! default NUL (head ps) with
                     | Some name => name
                     | None => lit "unknown"
                     end
                  ++ lit ".")
          else None
      | [] => None
      end
    else if kshark_get_event_id entry =? swaking_event_id ctx then
      Some (lit "Task has woken up.")
    else Some (lit "No specific info for event.").
Proof.
  intros He Hctx Hv. unfold _get_specific_info. rewrite He. cbn [mbind option_bind].
  unfold __get_context. rewrite Hctx. cbn [mbind option_bind]. cbn zeta.
  cbn [list_to_map foldr uncurry fst snd].
  destruct (Z.eqb_spec (kshark_get_event_id entry) (sswitch_event_id ctx)) as [E|E].
  - rewrite E, lookup_insert_eq. unfold get_longer_prev_state.
    rewrite (DefaultsProperties.prev_state_position entry Hv).
    destruct (occurrences state_marker (kshark_get_info entry) 0) as [|pos occ];
      [reflexivity|].
    destruct (1 <=? pos); [|reflexivity].
    cbn [mbind option_bind]. rewrite <- !app_assoc. reflexivity.
  - rewrite lookup_insert_ne by congruence.
    destruct (Z.eqb_spec (kshark_get_event_id entry) (swaking_event_id ctx)) as [E'|E'].
    + rewrite E', lookup_insert_eq. reflexivity.
    + rewrite lookup_insert_ne by congruence. rewrite lookup_empty. reflexivity.
Qed.

Lemma make_sl_button_fields (mem : gmap Z kshark_entry) (cfg : SlConfig.SlConfig)
    (button_outline_col : Color) (task_colors : gmap Z Color)
    (base : ksplot_point) (data : list kshark_data_field_int64) (col : Color)
    (d : kshark_data_field_int64) (btn : SlTriangleButton) :
  data !! 0%nat = Some d ->
  _make_sl_button mem cfg button_outline_col task_colors base data col = Some btn ->
  _event_entry btn = entry d /\ _kstack_entry btn = ptr_of_int64 (field d).
Proof.
  intros Hd. unfold _make_sl_button. rewrite Hd. cbn [mbind option_bind]. cbn zeta.
  repeat (match goal with
          | |- context [int ?z] => destruct (int z); [|discriminate]
          end; cbn [mbind option_bind]).
  destruct (SlConfig._use_task_colors cfg).
  - destruct (mem !! entry d); [|discriminate]. cbn [mbind option_bind].
    repeat (match goal with
            | |- context [int ?z] => destruct (int z); [|discriminate]
            end; cbn [mbind option_bind]).
    intros [= <-]. split; reflexivity.
  - cbn [mbind option_bind].
    repeat (match goal with
            | |- context [int ?z] => destruct (int z); [|discriminate]
            end; cbn [mbind option_bind]).
    intros [= <-]. split; reflexivity.
Qed.

Lemma check_func_true (mode : draw_mode) (mem : gmap Z kshark_entry)
    (cfg : SlConfig.SlConfig) (ctx : plugin_stacklook_ctx) (val : Z)
    (data : list kshark_data_field_int64) (t : nat) (d : kshark_data_field_int64) :
  data !! t = Some d ->
  check_func mode mem cfg ctx val data t = Some true ->
  entry d <> nullptr /\ is_Some (mem !! entry d) /\
  ptr_of_int64 (field d) <> nullptr.
Proof.
  intros Hd. unfold check_func. rewrite Hd. cbn [mbind option_bind]. cbn zeta.
  destruct (Z.eqb_spec (entry d) nullptr) as [|Hnn]; [discriminate|].
  destruct (mem !! entry d) as [e|] eqn:He; [|discriminate].
  cbn [mbind option_bind]. unfold _check_function_general.
  destruct (Z.eqb_spec (entry d) nullptr); [contradiction|]. cbn [orb].
  destruct (Z.eqb_spec (ptr_of_int64 (field d)) nullptr) as [|Hk]; [discriminate|].
  intros _. split; [exact Hnn|]. split; [eauto|exact Hk].
Qed.

(** X23. A button is made only for an eligible record, and the button of
    an eligible record never has a null kernel-stack pointer: hovering
    over it shows the message about a missing kernel stack only when the
    host has no info text for that entry. *)
Theorem eligible_button_has_stack (mode : draw_mode) (mem : gmap Z kshark_entry)
    (cfg : SlConfig.SlConfig) (ctx : plugin_stacklook_ctx) (val : Z)
    (data : list kshark_data_field_int64) (t : nat) (d : kshark_data_field_int64)
    (button_outline_col : Color) (task_colors : gmap Z Color)
    (base : ksplot_point) (col : Color) (btn : SlTriangleButton) :
  data !! t = Some d ->
  check_func mode mem cfg ctx val data t = Some true ->
  _make_sl_button mem cfg button_outline_col task_colors base [d] col = Some btn ->
  _event_entry btn = entry d /\
  is_Some (mem !! _event_entry btn) /\
  _kstack_entry btn <> nullptr /\
  (forall cfg' task message,
     _mouseHover mem cfg' btn = Some (PreviewMessage task message) ->
     kshark_info_is_null (_kstack_entry btn) = true).
Proof.
  intros Hd Hcheck Hmake.
  destruct (check_func_true _ _ _ _ _ _ _ _ Hd Hcheck) as (Hnn & Hmapped & Hk).
  destruct (make_sl_button_fields mem cfg button_outline_col task_colors base [d] col
              d btn eq_refl Hmake) as [Hev Hks].
  rewrite Hev, Hks. repeat split; try assumption.
  intros cfg' task message. unfold _mouseHover, kstack_string_ptr.
  rewrite Hks. destruct (Z.eqb_spec (ptr_of_int64 (field d)) nullptr); [contradiction|].
  destruct (mem !! ptr_of_int64 (field d)); [|discriminate].
  cbn [mbind option_bind].
  destruct (mem !! _event_entry btn); [|discriminate]. cbn [mbind option_bind].
  destruct (kshark_info_is_null (ptr_of_int64 (field d))); [reflexivity|].
  destruct (_get_top_three_stack_items _ _ _) as [items|]; [|discriminate].
  cbn [mbind option_bind].
  destruct (items !! 0%nat); [|discriminate]. cbn [mbind option_bind].
  destruct (items !! 1%nat); [|discriminate]. cbn [mbind option_bind].
  destruct (items !! 2%nat); discriminate.
Qed.

(** X24. The button of a record whose field still holds the -1 it was
    collected with (no kernel stack was found for it) has the pointer
    [2^64 - 1]; no entry lives at that address, so hovering over the
    button or double-clicking it reads an entry that does not exist. *)
Theorem button_without_evidence (mem : gmap Z kshark_entry)
    (cfg : SlConfig.SlConfig) (contexts : gmap Z plugin_stacklook_ctx)
    (d : kshark_data_field_int64)
    (button_outline_col : Color) (task_colors : gmap Z Color)
    (base : ksplot_point) (col : Color) (btn : SlTriangleButton) :
  field d = -1 ->
  mem !! (2 ^ 64 - 1) = None ->
  _make_sl_button mem cfg button_outline_col task_colors base [d] col = Some btn ->
  _kstack_entry btn = 2 ^ 64 - 1 /\
  _mouseHover mem cfg btn = None /\
  _doubleClick mem contexts btn = None.
Proof.
  intros Hfield Hmem Hmake.
  destruct (make_sl_button_fields mem cfg button_outline_col task_colors base [d] col
              d btn eq_refl Hmake) as [_ Hks].
  rewrite Hfield in Hks. change (ptr_of_int64 (-1)) with (2 ^ 64 - 1) in Hks.
  split; [exact Hks|].
  assert (Hptr : kstack_string_ptr mem btn = None).
  { unfold kstack_string_ptr. rewrite Hks.
    change (2 ^ 64 - 1 =? nullptr) with false. cbn iota.
    rewrite Hmem. reflexivity. }
  split.
  - unfold _mouseHover. rewrite Hptr. reflexivity.
  - unfold _doubleClick. rewrite Hptr.
    destruct (mem !! _event_entry btn); reflexivity.
Qed.

(** X25. The preview a hover shows for a kernel-stack text: the three
    slots of [_get_top_three_stack_items] and a closing label that is
    ["(End of stack)"] exactly when slot 2 holds the placeholder.  With
    no frame left after the skip all three slots hold the placeholder
    and the closing label is ["(End of stack)"]; with one, two or three
    frames left, slot 2 holds the label of the last frame of the trace
    and the closing label is ["..."] although the trace ends there
    (unless that label is ["-"] itself). *)
Theorem hover_labels (mem : gmap Z kshark_entry) (cfg : SlConfig.SlConfig)
    (btn : SlTriangleButton) (text : list ascii) :
  _kstack_entry btn <> nullptr ->
  is_Some (mem !! _kstack_entry btn) ->
  is_Some (mem !! _event_entry btn) ->
  kshark_info_is_null (_kstack_entry btn) = false ->
  kshark_get_info (_kstack_entry btn) = text ->
  valid text ->
  let evt := kshark_get_event_name (_event_entry btn) in
  let task := kshark_get_task (_event_entry btn) in
  let ahead := drop (Z.to_nat (int16_of (SlConfig.get_stack_offset cfg evt)))
                    (markers text) in
  (forall item0 item1 item2,
     _get_top_three_stack_items cfg text evt = Some [item0; item1; item2] ->
     _mouseHover mem cfg btn
     = Some (PreviewItems task item0 item1 item2
               (if bool_decide (item2 = lit "-") then lit "(End of stack)"
                else lit "..."))) /\
  (ahead = [] ->
   _mouseHover mem cfg btn
   = Some (PreviewItems task (lit "-") (lit "-") (lit "-") (lit "(End of stack)"))) /\
  (forall item0 item1 item2 p f,
     _get_top_three_stack_items cfg text evt = Some [item0; item1; item2] ->
     (length ahead <= 3)%nat -> last ahead = Some p ->
     last_frame text p = Some f -> f <> lit "-" ->
     item2 = f /\
     _mouseHover mem cfg btn = Some (PreviewItems task item0 item1 f (lit "..."))).
Proof.
  intros Hnn [ke Hke] [ev Hev] Hnull Hinfo Hv evt task ahead.
  assert (Hhover : forall item0 item1 item2,
     _get_top_three_stack_items cfg text evt = Some [item0; item1; item2] ->
     _mouseHover mem cfg btn
     = Some (PreviewItems task item0 item1 item2
               (if bool_decide (item2 = lit "-") then lit "(End of stack)"
                else lit "..."))).
  { intros item0 item1 item2 Hitems. unfold _mouseHover, kstack_string_ptr.
    destruct (Z.eqb_spec (_kstack_entry btn) nullptr); [contradiction|].
    rewrite Hke. cbn [mbind option_bind]. rewrite Hnull, Hev.
    cbn [mbind option_bind]. rewrite Hinfo. fold evt. rewrite Hitems.
    reflexivity. }
  pose proof (PreviewProperties.top_three_stack_items_spec cfg text evt Hv) as Hspec.
  fold ahead in Hspec.
  split; [exact Hhover|]. split.
  - intros Hahead. rewrite Hahead in Hspec. cbn in Hspec.
    rewrite (Hhover _ _ _ Hspec). reflexivity.
  - intros item0 item1 item2 p f Hitems Hlen Hlast Hframe Hf.
    assert (Hitem2 : item2 = f).
    { rewrite Hitems in Hspec.
      destruct ahead as [|p0 [|p1 [|p2 [|p3 ahead]]]]; cbn in Hlast, Hlen, Hspec;
        try discriminate; try lia; injection Hlast as ->.
      - rewrite Hframe in Hspec. cbn in Hspec. congruence.
      - destruct (frame text p0 p); [|discriminate]. cbn in Hspec.
        rewrite Hframe in Hspec. cbn in Hspec. congruence.
      - destruct (frame text p0 p1); [|discriminate]. cbn in Hspec.
        destruct (frame text p1 p); [|discriminate]. cbn in Hspec.
        rewrite Hframe in Hspec. cbn in Hspec. congruence. }
    split; [exact Hitem2|]. subst item2.
    rewrite (Hhover _ _ _ Hitems).
    rewrite bool_decide_false by exact Hf. reflexivity.
Qed.

(** X26. The window a double click opens for a kernel-stack text that
    begins with the header line: the raw view shows ["(top)"] in place
    of the header and the trace below it, the list view has ["(top)"] as
    its first item and the lines of the trace as the others; and when
    the host has no info text for the kernel-stack entry both views show
    the error message. *)
Theorem double_click_view (mem : gmap Z kshark_entry)
    (contexts : gmap Z plugin_stacklook_ctx) (btn : SlTriangleButton)
    (info : list ascii) :
  _kstack_entry btn <> nullptr ->
  is_Some (mem !! _kstack_entry btn) ->
  is_Some (mem !! _event_entry btn) ->
  _get_specific_info mem contexts (_event_entry btn) = Some info ->
  let which_task :=
    lit "Kernel stack for task '" ++ c_str (kshark_get_task (_event_entry btn))
    ++ lit "':" in
  (forall rest,
     kshark_info_is_null (_kstack_entry btn) = false ->
     kshark_get_info (_kstack_entry btn) = SlDetailedView.stack_header ++ LF :: rest ->
     size rest < 2 ^ 30 -> ~ In NUL rest ->
     _doubleClick mem contexts btn
     = Some {| SlDetailedView._which_task := which_task;
               SlDetailedView._specific_entry_info := c_str info;
               SlDetailedView._raw_view := lit "(top)" ++ LF :: rest;
               SlDetailedView._list_view := lit "(top)" :: SlDetailedView.split LF rest |}) /\
  (kshark_info_is_null (_kstack_entry btn) = true ->
   _doubleClick mem contexts btn
   = Some {| SlDetailedView._which_task := which_task;
             SlDetailedView._specific_entry_info := c_str info;
             SlDetailedView._raw_view := lit "ERROR: No info field found!";
             SlDetailedView._list_view := [lit "ERROR: No info field found!"] |}).
Proof.
  intros Hnn [ke Hke] [ev Hev] Hinfo which_task.
  assert (Hcc : c_str (c_str info) = c_str info).
  { clear. induction info as [|c s IH]; [reflexivity|]. cbn [c_str].
    destruct (Ascii.eqb c NUL) eqn:E; [reflexivity|]. cbn [c_str]. rewrite E, IH.
    reflexivity. }
  split.
  - intros rest Hnull Htext Hsize Hnul.
    unfold _doubleClick, kstack_string_ptr. rewrite Hev. cbn [mbind option_bind].
    destruct (Z.eqb_spec (_kstack_entry btn) nullptr); [contradiction|].
    rewrite Hke. cbn [mbind option_bind]. rewrite Hnull, Hinfo.
    cbn [mbind option_bind]. rewrite Htext.
    unfold SlDetailedView.SlDetailedView.
    rewrite (prettify_data_cut (SlDetailedView.stack_header ++ LF :: rest) 0 14
               (occurrences SlDetailedView.stack_header
                  (drop 1 (SlDetailedView.stack_header ++ LF :: rest)) 1)
               (occurrences [LF] rest 15)).
    + cbn [mbind option_bind].
      change (drop (Z.to_nat 14) (SlDetailedView.stack_header ++ LF :: rest))
        with (LF :: rest).
      unfold QStr.from_c_str. rewrite Hcc.
      rewrite (split_first_line SlDetailedView.top_mark rest)
        by (vm_compute; intuition discriminate).
      reflexivity.
    + rewrite size_app, size_cons. change (size SlDetailedView.stack_header) with 14.
      lia.
    + intros Hin. apply in_app_or in Hin as [Hin|[Hin|Hin]].
      * vm_compute in Hin. intuition discriminate.
      * discriminate.
      * exact (Hnul Hin).
    + reflexivity.
    + reflexivity.
  - intros Hnull.
    unfold _doubleClick, kstack_string_ptr. rewrite Hev. cbn [mbind option_bind].
    destruct (Z.eqb_spec (_kstack_entry btn) nullptr); [contradiction|].
    rewrite Hke. cbn [mbind option_bind]. rewrite Hnull, Hinfo.
    cbn [mbind option_bind]. unfold SlDetailedView.SlDetailedView.
    change (SlDetailedView._prettify_data error_msg) with (Some error_msg).
    cbn [mbind option_bind]. unfold QStr.from_c_str. rewrite Hcc. reflexivity.
Qed.

End WithHost.

(** *** The events of the sample buttons *)

Lemma specific_info_text_witness :
  @_get_specific_info trace_host sample_text sample_mem sample_contexts 16
  = Some (lit "Task was in state S - sleeping.").
Proof.
  rewrite (@specific_info_text trace_host sample_text sample_mem sample_contexts 16
             switch_entry sample_ctx eq_refl eq_refl);
    [vm_compute; reflexivity|vm_compute; discriminate].
Defined.

Lemma eligible_button_has_stack_witness :
  _event_entry sample_btn = 16 /\
  is_Some (sample_mem !! _event_entry sample_btn) /\
  _kstack_entry sample_btn <> nullptr /\
  (forall cfg' task message,
     @_mouseHover trace_host sample_text sample_mem cfg' sample_btn
     = Some (PreviewMessage task message) ->
     @kshark_info_is_null sample_text (_kstack_entry sample_btn) = true).
Proof.
  apply (@eligible_button_has_stack trace_host sample_text TaskDraw sample_mem
           SlConfig.initial sample_ctx 100 [ {| entry := 16; field := 48 |} ] 0
           {| entry := 16; field := 48 |} black no_task_colors sample_base white
           sample_btn).
  - reflexivity.
  - vm_compute. reflexivity.
  - vm_compute. reflexivity.
Defined.

Lemma button_without_evidence_witness :
  _kstack_entry lone_btn = 2 ^ 64 - 1 /\
  @_mouseHover trace_host sample_text two_switch_mem SlConfig.initial lone_btn = None /\
  @_doubleClick trace_host sample_text two_switch_mem two_switch_contexts lone_btn = None.
Proof.
  apply (@button_without_evidence trace_host sample_text two_switch_mem SlConfig.initial
           two_switch_contexts {| entry := 80; field := -1 |} black no_task_colors
           sample_base white lone_btn).
  - reflexivity.
  - vm_compute. reflexivity.
  - vm_compute. reflexivity.
Defined.

Lemma hover_labels_witness :
  @_mouseHover trace_host sample_text sample_mem SlConfig.initial sample_btn
  = Some (PreviewItems (lit "bash") (lit "-") (lit "-") (lit "-") (lit "(End of stack)")) /\
  @_mouseHover trace_host sample_text sample_mem no_skip sample_btn
  = Some (PreviewItems (lit "bash") (lit "schedule") (lit "-") (lit "do_idle") (lit "...")).
Proof.
  split.
  - pose proof (@hover_labels trace_host sample_text sample_mem SlConfig.initial
                  sample_btn (trace_info 48)) as Hh.
    cbv zeta in Hh.
    destruct Hh as (_ & Hend & _).
    + discriminate.
    + exists own_stack. reflexivity.
    + exists switch_entry. reflexivity.
    + reflexivity.
    + reflexivity.
    + vm_compute. discriminate.
    + apply Hend. vm_compute. reflexivity.
  - pose proof (@hover_labels trace_host sample_text sample_mem no_skip
                  sample_btn (trace_info 48)) as Hh.
    cbv zeta in Hh.
    destruct Hh as (_ & _ & Hlast).
    + discriminate.
    + exists own_stack. reflexivity.
    + exists switch_entry. reflexivity.
    + reflexivity.
    + reflexivity.
    + vm_compute. discriminate.
    + destruct (Hlast (lit "schedule") (lit "-") (lit "do_idle") 42 (lit "do_idle"))
        as [_ Hhover].
      * vm_compute. reflexivity.
      * vm_compute. lia.
      * vm_compute. reflexivity.
      * vm_compute. reflexivity.
      * discriminate.
      * exact Hhover.
Defined.

Lemma double_click_view_witness :
  @_doubleClick trace_host sample_text sample_mem sample_contexts sample_btn
  = Some {| SlDetailedView._which_task := lit "Kernel stack for task 'bash':";
            SlDetailedView._specific_entry_info := lit "Task was in state S - sleeping.";
            SlDetailedView._raw_view := lit "(top)" ++ LF :: two_frames;
            SlDetailedView._list_view :=
              [ lit "(top)"; lit "=> schedule (ffffffff81a0)";
                lit "=> do_idle (ffffffff81b0)"; [] ] |}.
Proof.
  pose proof (@double_click_view trace_host sample_text sample_mem sample_contexts
                sample_btn (lit "Task was in state S - sleeping.")) as Hd.
  cbv zeta in Hd.
  destruct Hd as (Hview & _).
  - discriminate.
  - exists own_stack. reflexivity.
  - exists switch_entry. reflexivity.
  - vm_compute. reflexivity.
  - rewrite (Hview two_frames).
    + vm_compute. reflexivity.
    + reflexivity.
    + reflexivity.
    + vm_compute. reflexivity.
    + vm_compute. intuition discriminate.
Defined.

End EventProperties.

(** ** The configuration window: what Apply writes *)

Module ConfigWindowProperties.
Import SlTriangleButton SlConfigWindow ConfigWindowSpec Samples MoreSamples.

Lemma update_cfg_loop_frame (w : SlConfigWindow) :
  forall (todo i : nat) (events events' : gmap string (bool * Z)) (ok ok' : bool),
  update_cfg_loop todo i w events ok = Some (events', ok') ->
  (forall k, is_Some (events' !! k) <-> is_Some (events !! k)) /\
  (forall k, (forall j, (i <= j < i + todo)%nat ->
                        findChild_QLabel w (name_of j) <> Some k) ->
             events' !! k = events !! k).
Proof.
  induction todo as [|todo IH]; intros i events events' ok ok' Hloop;
    cbn [update_cfg_loop] in Hloop.
  - injection Hloop as <- <-. split; [reflexivity|]. reflexivity.
  - cbn zeta in Hloop. fold (name_of i) in Hloop.
    destruct (findChild_QLabel w (name_of i)) as [name|] eqn:Hname.
    2:{ destruct (IH _ _ _ _ _ Hloop) as [Hdom Hother]. split; [exact Hdom|].
        intros k Hk. apply Hother. intros j Hj. apply Hk. lia. }
    destruct (findChild_QCheckBox w _) as [allowed|].
    2:{ destruct (IH _ _ _ _ _ Hloop) as [Hdom Hother]. split; [exact Hdom|].
        intros k Hk. apply Hother. intros j Hj. apply Hk. lia. }
    destruct (findChild_QSpinBox w _) as [box|].
    2:{ destruct (IH _ _ _ _ _ Hloop) as [Hdom Hother]. split; [exact Hdom|].
        intros k Hk. apply Hother. intros j Hj. apply Hk. lia. }
    destruct (events !! name) as [meta|] eqn:Hmeta; [|discriminate].
    cbn [mbind option_bind] in Hloop.
    destruct (IH _ _ _ _ _ Hloop) as [Hdom Hother]. split.
    + intros k. rewrite Hdom. destruct (decide (k = name)) as [->|Hne].
      * rewrite lookup_insert_eq, Hmeta. split; eauto.
      * rewrite lookup_insert_ne by congruence. reflexivity.
    + intros k Hk. rewrite Hother by (intros j Hj; apply Hk; lia).
      apply lookup_insert_ne. intros ->. apply (Hk i); [lia|exact Hname].
Qed.

(** X27. Apply never adds an event to the configuration and never
    removes one; it writes the histogram limit and the task-colour
    switch from their controls, and it leaves the settings of every
    event untouched that none of the rows names. *)
Theorem update_cfg_keeps_events (w : SlConfigWindow) (cfg cfg' : SlConfig.SlConfig)
    (colors' : SlColors) (ok : bool) :
  update_cfg w cfg = Some (cfg', colors', ok) ->
  (forall k, is_Some (SlConfig._events_meta cfg' !! k)
             <-> is_Some (SlConfig._events_meta cfg !! k)) /\
  SlConfig._histo_entries_limit cfg' = value (_histo_limit w) /\
  SlConfig._use_task_colors cfg' = _task_col_btn w /\
  (forall k, (forall j, (j < size (SlConfig._events_meta cfg))%nat ->
                        findChild_QLabel w (name_of j) <> Some k) ->
             SlConfig._events_meta cfg' !! k = SlConfig._events_meta cfg !! k).
Proof.
  unfold update_cfg. cbn zeta.
  destruct (update_cfg_loop _ _ _ _ _) as [[events' ok']|] eqn:Hloop; [|discriminate].
  cbn [mbind option_bind]. intros [= <- <- <-]. cbn [SlConfig._events_meta
    SlConfig._histo_entries_limit SlConfig._use_task_colors].
  destruct (update_cfg_loop_frame _ _ _ _ _ _ _ Hloop) as [Hdom Hother].
  split; [exact Hdom|]. split; [reflexivity|]. split; [reflexivity|].
  intros k Hk. apply Hother. intros j Hj. apply Hk. lia.
Qed.

Lemma name_of_inj (i j : nat) : name_of i = name_of j -> i = j.
Proof. unfold name_of. cbn. intros [= Heq]. exact (inj pretty _ _ Heq). Qed.

Lemma allowed_of_inj (i j : nat) : allowed_of i = allowed_of j -> i = j.
Proof. unfold allowed_of. cbn. intros [= Heq]. exact (inj pretty _ _ Heq). Qed.

Lemma depth_name_of_inj (i j : nat) : depth_name_of i = depth_name_of j -> i = j.
Proof. unfold depth_name_of. cbn. intros [= Heq]. exact (inj pretty _ _ Heq). Qed.

(** Loading one row writes its check box and its spin box, and no other
    child that a row is found by. *)
Lemma load_row (w : SlConfigWindow) (i j : nat) (allowed : bool) (box : QSpinBox) :
  row_of (set_child (allowed_of i) (QCheckBox allowed)
            (set_child (depth_name_of i) (QSpinBoxChild box) w)) j
  = if decide (j = i) then (findChild_QLabel w (name_of i), Some allowed, Some box)
    else row_of w j.
Proof.
  unfold row_of, findChild_QLabel, findChild_QCheckBox, findChild_QSpinBox, set_child.
  cbn [children].
  assert (Hna : forall a b, name_of a <> allowed_of b)
    by (intros a b; unfold name_of, allowed_of; cbn; discriminate).
  assert (Hnd : forall a b, name_of a <> depth_name_of b)
    by (intros a b; unfold name_of, depth_name_of; cbn; discriminate).
  assert (Had : forall a b, allowed_of a <> depth_name_of b)
    by (intros a b; unfold allowed_of, depth_name_of; cbn; discriminate).
  rewrite (lookup_insert_ne _ (allowed_of i) (name_of j)) by (apply not_eq_sym, Hna).
  rewrite (lookup_insert_ne _ (depth_name_of i) (name_of j)) by (apply not_eq_sym, Hnd).
  rewrite (lookup_insert_ne _ (allowed_of i) (depth_name_of j)) by apply Had.
  destruct (decide (j = i)) as [->|Hne].
  - rewrite !lookup_insert_eq. reflexivity.
  - rewrite (lookup_insert_ne _ (allowed_of i) (allowed_of j))
      by (intros Heq; apply allowed_of_inj in Heq; congruence).
    rewrite (lookup_insert_ne _ (depth_name_of i) (allowed_of j))
      by (apply not_eq_sym, Had).
    rewrite (lookup_insert_ne _ (depth_name_of i) (depth_name_of j))
      by (intros Heq; apply depth_name_of_inj in Heq; congruence).
    reflexivity.
Qed.

Lemma has_row_row_of (w : SlConfigWindow) (j : nat) (name : string) :
  has_row w j name <->
  exists allowed box, row_of w j = (Some name, Some allowed, Some box) /\
                      minimum box = 0 /\ maximum box = 100000000.
Proof.
  unfold has_row, row_of. split.
  - intros (Hn & [allowed Ha] & box & Hb & Hmin & Hmax).
    exists allowed, box. rewrite Hn, Ha, Hb. repeat split; assumption.
  - intros (allowed & box & [= Hn Ha Hb] & Hmin & Hmax).
    split; [exact Hn|]. split; [eauto|]. exists box. repeat split; assumption.
Qed.

Lemma load_cfg_loop_shows (cfg : SlConfig.SlConfig) :
  forall (todo i : nat) (w : SlConfigWindow),
  rows_for cfg w i todo ->
  exists w', load_cfg_loop todo i cfg w = Some w' /\
    _def_btn_col w' = _def_btn_col w /\ _btn_outline w' = _btn_outline w /\
    _histo_limit w' = _histo_limit w /\ _task_col_btn w' = _task_col_btn w /\
    rows_show cfg w' i todo /\
    (forall j, (j < i)%nat -> row_of w' j = row_of w j).
Proof.
  induction todo as [|todo IH]; intros i w Hrows.
  - exists w. repeat split; try reflexivity. intros j Hj. lia.
  - destruct (Hrows i ltac:(lia)) as (name & Hrow & [meta Hmeta]).
    pose proof Hrow as (Hn & [allowed Ha] & box & Hb & Hmin & Hmax).
    cbn [load_cfg_loop]. cbn zeta.
    fold (name_of i) (allowed_of i) (depth_name_of i).
    rewrite Hn, Ha, Hb, Hmeta. cbn [mbind option_bind].
    set (box' := setValue (int_of_depth meta.2) box).
    set (w1 := set_child (allowed_of i) (QCheckBox meta.1)
                 (set_child (depth_name_of i) (QSpinBoxChild box') w)).
    assert (Hrows1 : rows_for cfg w1 (S i) todo).
    { intros j Hj. destruct (Hrows j ltac:(lia)) as (name' & Hrow' & Hkey).
      exists name'. split; [|exact Hkey].
      apply has_row_row_of. apply has_row_row_of in Hrow'.
      unfold w1. rewrite load_row. destruct (decide (j = i)); [lia|]. exact Hrow'. }
    destruct (IH (S i) w1 Hrows1) as (w' & -> & H1 & H2 & H3 & H4 & Hshow & Hbefore).
    exists w'. split; [reflexivity|]. repeat split; try assumption.
    + intros j Hj. destruct (decide (j = i)) as [->|Hne].
      * exists name, meta, box'. rewrite (Hbefore i ltac:(lia)). unfold w1.
        rewrite load_row. destruct (decide (i = i)); [|congruence].
        rewrite Hn. repeat split; try assumption.
        unfold box'. cbn. rewrite Hmin, Hmax. reflexivity.
      * apply Hshow. lia.
    + intros j Hj. rewrite (Hbefore j ltac:(lia)). unfold w1.
      rewrite load_row. destruct (decide (j = i)); [lia|]. reflexivity.
Qed.

Lemma update_cfg_loop_shown (cfg : SlConfig.SlConfig) (w : SlConfigWindow) :
  (forall k meta, SlConfig._events_meta cfg !! k = Some meta ->
                  0 <= meta.2 <= 100000000) ->
  forall (todo i : nat) (ok : bool),
  rows_show cfg w i todo ->
  update_cfg_loop todo i w (SlConfig._events_meta cfg) ok
  = Some (SlConfig._events_meta cfg, ok).
Proof.
  intros Hrange. induction todo as [|todo IH]; intros i ok Hshow; [reflexivity|].
  destruct (Hshow i ltac:(lia)) as (name & meta & box & Hrow & Hmeta & _ & _ & Hval).
  unfold row_of in Hrow. injection Hrow as Hn Ha Hb.
  cbn [update_cfg_loop]. cbn zeta.
  fold (name_of i) (allowed_of i) (depth_name_of i).
  rewrite Hn, Ha, Hb, Hmeta. cbn [mbind option_bind].
  pose proof (Hrange _ _ Hmeta) as Hd.
  assert (Hdepth : depth_of_int (value box) = meta.2).
  { rewrite Hval. unfold int_of_depth, depth_of_int.
    rewrite (Z.mod_small (meta.2 + 2 ^ 31)) by lia.
    replace (meta.2 + 2 ^ 31 - 2 ^ 31) with meta.2 by lia.
    rewrite Z.max_r, Z.min_r by lia. apply Z.mod_small. lia. }
  rewrite Hdepth. rewrite insert_id by (rewrite Hmeta; destruct meta; reflexivity).
  apply IH. intros j Hj. apply Hshow. lia.
Qed.

(** X28. Showing the configuration in its window and applying it without
    a change gives the configuration back, with the success dialog:
    [load_cfg_values] followed by [update_cfg] is the identity on a
    configuration whose values are within the ranges of the controls
    (histogram limit at most 1,000,000,000, depths at most 100,000,000,
    colour components below 256), for a window that has a row for each of
    the first [n] indices, [n] the number of events. *)
Theorem config_round_trip (w : SlConfigWindow) (cfg : SlConfig.SlConfig)
    (colors : SlColors) :
  rows_for cfg w 0 (size (SlConfig._events_meta cfg)) ->
  minimum (_histo_limit w) = 0 -> maximum (_histo_limit w) = 1000000000 ->
  0 <= SlConfig._histo_entries_limit cfg <= 1000000000 ->
  (forall k meta, SlConfig._events_meta cfg !! k = Some meta ->
                  0 <= meta.2 <= 100000000) ->
  (forall c, c = _default_btn_col colors \/ c = _button_outline_col colors ->
             0 <= r c < 256 /\ 0 <= g c < 256 /\ 0 <= b c < 256) ->
  exists w', load_cfg_values w cfg colors = Some w' /\
             update_cfg w' cfg = Some (cfg, colors, true).
Proof.
  intros Hrows Hmin Hmax Hhisto Hdepths Hcolors.
  unfold load_cfg_values. cbn zeta.
  match goal with
  | |- context [load_cfg_loop _ 0 cfg ?w0] => set (w1 := w0)
  end.
  assert (Hrows1 : rows_for cfg w1 0 (size (SlConfig._events_meta cfg))).
  { intros j Hj. destruct (Hrows j Hj) as (name & Hrow & Hkey).
    exists name. split; [exact Hrow|exact Hkey]. }
  destruct (load_cfg_loop_shows cfg _ 0 w1 Hrows1)
    as (w' & Hload & H1 & H2 & H3 & H4 & Hshow & _).
  exists w'. split; [exact Hload|].
  unfold update_cfg. cbn zeta.
  rewrite (update_cfg_loop_shown cfg w' Hdepths _ 0 true Hshow).
  cbn [mbind option_bind]. rewrite H1, H2, H3, H4. unfold w1.
  cbn [_def_btn_col _btn_outline _histo_limit _task_col_btn red green blue value setValue].
  rewrite Hmin, Hmax. rewrite Z.max_r, Z.min_r by lia.
  destruct (Hcolors (_default_btn_col colors) ltac:(left; reflexivity))
    as (Hr1 & Hg1 & Hb1).
  destruct (Hcolors (_button_outline_col colors) ltac:(right; reflexivity))
    as (Hr2 & Hg2 & Hb2).
  unfold uint8_of. rewrite !Z.mod_small by lia.
  destruct cfg, colors as [[] []]. reflexivity.
Qed.

Lemma initial_depths (k : string) (meta : bool * Z) :
  SlConfig._events_meta SlConfig.initial !! k = Some meta -> 0 <= meta.2 <= 100000000.
Proof.
  unfold SlConfig.initial. cbn [SlConfig._events_meta]. intros Hk.
  apply lookup_insert_Some in Hk as [[_ <-]|[_ Hk]]; [cbn; lia|].
  apply lookup_singleton_Some in Hk as [_ <-]. cbn. lia.
Qed.

Lemma update_cfg_loop_in_range (w : SlConfigWindow) :
  (forall name box, findChild_QSpinBox w name = Some box -> 0 <= value box <= 100000000) ->
  forall (todo i : nat) (events events' : gmap string (bool * Z)) (ok ok' : bool),
  update_cfg_loop todo i w events ok = Some (events', ok') ->
  (forall k meta, events !! k = Some meta -> 0 <= meta.2 <= 100000000) ->
  forall k meta, events' !! k = Some meta -> 0 <= meta.2 <= 100000000.
Proof.
  intros Hw. induction todo as [|todo IH]; intros i events events' ok ok' Hloop Hin;
    cbn [update_cfg_loop] in Hloop.
  - injection Hloop as <- <-. exact Hin.
  - cbn zeta in Hloop.
    destruct (findChild_QLabel w _) as [name|]; [|exact (IH _ _ _ _ _ Hloop Hin)].
    destruct (findChild_QCheckBox w _) as [allowed|]; [|exact (IH _ _ _ _ _ Hloop Hin)].
    destruct (findChild_QSpinBox w _) as [box|] eqn:Hbox;
      [|exact (IH _ _ _ _ _ Hloop Hin)].
    destruct (events !! name); [|discriminate]. cbn [mbind option_bind] in Hloop.
    apply (IH _ _ _ _ _ Hloop). intros k meta Hk.
    apply lookup_insert_Some in Hk as [[_ <-]|[_ Hk]]; [|exact (Hin _ _ Hk)].
    cbn [snd]. pose proof (Hw _ _ Hbox) as Hval. unfold depth_of_int.
    rewrite Z.mod_small by lia. exact Hval.
Qed.

(** X30. The values the controls can show are an invariant of the
    configuration: the initial configuration has a histogram limit of at
    most 1,000,000,000 and depths of at most 100,000,000, and Apply, from
    a window whose spin boxes hold values of their ranges, keeps it so. *)
Theorem update_cfg_in_range (w : SlConfigWindow) (cfg cfg' : SlConfig.SlConfig)
    (colors' : SlColors) (ok : bool) :
  window_in_range w ->
  config_in_range cfg ->
  update_cfg w cfg = Some (cfg', colors', ok) ->
  config_in_range cfg' /\ config_in_range SlConfig.initial.
Proof.
  intros [Hhisto Hboxes] [_ Hdepths]. unfold update_cfg. cbn zeta.
  destruct (update_cfg_loop _ _ _ _ _) as [[events' ok']|] eqn:Hloop; [|discriminate].
  cbn [mbind option_bind]. intros [= <- <- <-]. split; split.
  - exact Hhisto.
  - cbn [SlConfig._events_meta].
    exact (update_cfg_loop_in_range w Hboxes _ _ _ _ _ _ Hloop Hdepths).
  - cbn. lia.
  - exact initial_depths.
Qed.

Lemma update_cfg_keeps_events_witness :
  (forall k, is_Some (SlConfig._events_meta applied_cfg !! k)
             <-> is_Some (SlConfig._events_meta SlConfig.initial !! k)) /\
  SlConfig._histo_entries_limit applied_cfg = value (_histo_limit sample_window) /\
  SlConfig._use_task_colors applied_cfg = _task_col_btn sample_window /\
  (forall k, (forall j, (j < size (SlConfig._events_meta SlConfig.initial))%nat ->
                        findChild_QLabel sample_window (name_of j) <> Some k) ->
             SlConfig._events_meta applied_cfg !! k
             = SlConfig._events_meta SlConfig.initial !! k).
Proof.
  apply (update_cfg_keeps_events sample_window SlConfig.initial applied_cfg
           initial_colors true).
  vm_compute. reflexivity.
Defined.

Lemma sample_window_rows :
  rows_for SlConfig.initial sample_window 0 (size (SlConfig._events_meta SlConfig.initial)).
Proof.
  intros j Hj. change (size (SlConfig._events_meta SlConfig.initial)) with 2%nat in Hj.
  assert (Hcases : j = 0%nat \/ j = 1%nat) by lia.
  destruct Hcases as [->| ->].
  - exists "sched/sched_switch". split; [|eexists; vm_compute; reflexivity].
    split; [vm_compute; reflexivity|]. split; [eexists; vm_compute; reflexivity|].
    exists (depth_box 7). split; [vm_compute; reflexivity|]. split; reflexivity.
  - exists "sched/sched_waking". split; [|eexists; vm_compute; reflexivity].
    split; [vm_compute; reflexivity|]. split; [eexists; vm_compute; reflexivity|].
    exists (depth_box 0). split; [vm_compute; reflexivity|]. split; reflexivity.
Qed.

Lemma config_round_trip_witness :
  exists w', load_cfg_values sample_window SlConfig.initial initial_colors = Some w' /\
             update_cfg w' SlConfig.initial = Some (SlConfig.initial, initial_colors, true).
Proof.
  apply (config_round_trip sample_window SlConfig.initial initial_colors).
  - exact sample_window_rows.
  - reflexivity.
  - reflexivity.
  - cbn. lia.
  - exact initial_depths.
  - intros c [->| ->]; cbn; lia.
Defined.

Lemma sample_window_in_range : window_in_range sample_window.
Proof.
  split; [cbn; lia|]. intros name box. unfold findChild_QSpinBox, sample_window.
  cbn [children].
  destruct (_ !! name) as [[| |box']|] eqn:Hc; try discriminate.
  intros [= ->].
  repeat (apply lookup_insert_Some in Hc as [[_ Hc]|[_ Hc]];
          [try discriminate; injection Hc as <-; cbn; lia|]).
  apply lookup_singleton_Some in Hc as [_ Hc]. injection Hc as <-. cbn. lia.
Qed.

Lemma update_cfg_in_range_witness :
  config_in_range applied_cfg /\ config_in_range SlConfig.initial.
Proof.
  apply (update_cfg_in_range sample_window SlConfig.initial applied_cfg
           initial_colors true).
  - exact sample_window_in_range.
  - split; [cbn; lia|exact initial_depths].
  - vm_compute. reflexivity.
Defined.

End ConfigWindowProperties.
